(** * AITrader: market-data aggregation pipeline

    A shallow embedding of the Go packages [binance], [utils], [indicators]
    and of the polling loops of package [main], followed by the properties
    of the open-interest history cache, the change-rate derivation, the
    indicator pipeline and the per-tick fan-out.

    Conventions of the embedding
    - [float64] is IEEE-754 binary64, carried by Rocq's primitive floats.
    - [int] and [int64] values are carried by [Z]; arithmetic on a value
      the caller chooses writes the wrap-around out: the [int64]
      subtraction of [IsExpired] and the [period+1] and [period*2] of the
      indicator guards ([int] being 64 bits wide).
    - A nullable pointer [*T] is [option T].
    - A Go call that can hit a run-time panic (nil dereference, index or
      slice bound out of range) returns an [outcome].
    - Logging calls have no effect on the data flow and are dropped, except
      that the evaluation of their arguments is kept where it can panic.
    - The exchange, [strconv.ParseFloat] and the go-talib functions are
      outside the repository: they are fields of the classes [Strconv] and
      [Talib] and of the record [binance.Client]. *)

From Stdlib Require Import ZArith Lia.
From Stdlib Require Import Floats.PrimFloat Floats.FloatOps Floats.SpecFloat.
From Stdlib Require Import Floats.FloatAxioms.
From Stdlib Require Import Uint63.
From Stdlib Require Import Ascii String.
From stdpp Require Import gmap strings list pretty.

Local Open Scope Z_scope.

(* ===================================================================== *)
(** ** Go run-time model *)
(* ===================================================================== *)

Definition float64 := float.
Bind Scope float_scope with float64.

(** Outcome of a Go call: a value, or a run-time panic that unwinds the
    goroutine. *)
Inductive outcome (A : Type) : Type :=
| Ret (a : A)
| Panic.
Arguments Ret {A} a.
Arguments Panic {A}.

#[global] Instance outcome_ret : MRet outcome := fun A a => Ret a.

#[global] Instance outcome_bind : MBind outcome := fun A B k m =>
  match m with
  | Ret a => k a
  | Panic => Panic
  end.

Definition is_Ret {A} (m : outcome A) : bool :=
  match m with Ret _ => true | Panic => false end.

(** Go's [error] values only matter through being nil or not. *)
Definition error := string.

(** [len(s)] as an [int]. *)
Definition len {A} (s : list A) : Z := Z.of_nat (length s).

(** [int] arithmetic that leaves the 64-bit range wraps around. *)
Definition wrap_int (z : Z) : Z := (z + 2 ^ 63) mod 2 ^ 64 - 2 ^ 63.

(** [s[i]]: panics when [i] is out of range. *)
Definition index {A} (s : list A) (i : Z) : outcome A :=
  if i <? 0 then Panic
  else match s !! Z.to_nat i with
       | Some x => Ret x
       | None => Panic
       end.

(** [s[:n]]: panics on a negative bound.  A bound above [len s] is legal in
    Go only up to the capacity; both uses in the repository are guarded by
    [len s > n], so that side is modelled as a panic and never reached. *)
Definition slice_to {A} (s : list A) (n : Z) : outcome (list A) :=
  if (0 <=? n) && (n <=? len s) then Ret (take (Z.to_nat n) s) else Panic.

(** [x == 0] on float64 (true for both signed zeros, false for NaN). *)
Definition is_zero (x : float64) : bool := PrimFloat.eqb x 0%float.

(** [float64(n)] for a non-negative [int] below 2^63. *)
Definition float64_of_int (n : Z) : float64 :=
  PrimFloat.of_uint63 (Uint63.of_Z n).

(** [math.Round]: nearest integer, halves away from zero; zeros, infinities
    and NaN are returned unchanged. *)
Definition Round (x : float64) : float64 :=
  match Prim2SF x with
  | S754_finite s m e =>
      if 0 <=? e then x
      else
        let d := 2 ^ (- e) in
        let q := Z.pos m / d in
        let r := Z.pos m mod d in
        let n := if d <=? 2 * r then q + 1 else q in
        let f := float64_of_int n in
        if s then (- f)%float else f
  | _ => x
  end.

(** The standard library and go-talib functions the code calls. *)
Class Strconv := {
  (** [strconv.ParseFloat(s, 64)]: the value and the error, which callers
      are free to ignore. *)
  ParseFloat : string -> float64 * option error
}.

Class Talib := {
  MaType : Type;
  SMA : MaType;
  Ema : list float64 -> Z -> list float64;
  Macd : list float64 -> Z -> Z -> Z ->
         list float64 * list float64 * list float64;
  Rsi : list float64 -> Z -> list float64;
  BBands : list float64 -> Z -> float64 -> float64 -> MaType ->
           list float64 * list float64 * list float64;
  Atr : list float64 -> list float64 -> list float64 -> Z -> list float64;
  Adx : list float64 -> list float64 -> list float64 -> Z -> list float64;
  StochRsi : list float64 -> Z -> Z -> Z -> MaType ->
             list float64 * list float64
}.

(** package utils, symbols.go: the scoring service behind [externalURL].
    The [Data] level of the response is flattened. *)
Record CoinInfo := { Pair : string; Score : float64 }.

Record ExternalSymbolsResponse := {
  Success : bool;
  TopCoins : list CoinInfo;
  BottomCoins : list CoinInfo
}.

Class ExternalAPI := {
  (** [resp.Body] of a response. *)
  Body : Type;
  (** [client.Get(url)]. *)
  http_Get : string -> Body + error;
  (** [io.ReadAll(resp.Body)]. *)
  io_ReadAll : Body -> string + error;
  (** [json.Unmarshal(body, &response)]. *)
  json_Unmarshal : string -> ExternalSymbolsResponse + error
}.

(** package config: the file system and the YAML decoder.  The decoder of
    the main file yields the three fields it can set; [Accounts] carries
    the tag [yaml:"-"] and is left at its zero value. *)
Class ConfigFiles (ProxyConfig BinanceConfig Account : Type) := {
  ReadFile : string -> string + error;
  UnmarshalConfig : string -> ProxyConfig * BinanceConfig * string + error;
  UnmarshalAccounts : string -> list Account + error;
  filepath_Dir : string -> string;
  filepath_Join : string -> string -> string
}.

(** go-talib returns output series as long as its input series. *)
Class TalibLen `{Talib} : Prop := {
  Ema_len : forall xs p, length (Ema xs p) = length xs;
  Macd_len : forall xs a b c,
    length (Macd xs a b c).1.1 = length xs /\
    length (Macd xs a b c).1.2 = length xs /\
    length (Macd xs a b c).2 = length xs;
  Rsi_len : forall xs p, length (Rsi xs p) = length xs;
  BBands_len : forall xs p u d m,
    length (BBands xs p u d m).1.1 = length xs /\
    length (BBands xs p u d m).1.2 = length xs /\
    length (BBands xs p u d m).2 = length xs;
  Atr_len : forall hs ls cs p, length (Atr hs ls cs p) = length cs;
  Adx_len : forall hs ls cs p, length (Adx hs ls cs p) = length cs;
  StochRsi_len : forall xs p a b m,
    length (StochRsi xs p a b m).1 = length xs /\
    length (StochRsi xs p a b m).2 = length xs
}.

(* ===================================================================== *)
(** ** package binance *)
(* ===================================================================== *)

Module binance.

Record Kline := {
  Kline_OpenTime : Z;
  Kline_Open : string;
  Kline_High : string;
  Kline_Low : string;
  Kline_Close : string;
  Kline_Volume : string;
  Kline_CloseTime : Z;
  Kline_QuoteAssetVolume : string;
  Kline_NumberOfTrades : Z;
  Kline_TakerBuyBaseAssetVolume : string;
  Kline_TakerBuyQuoteAssetVolume : string
}.

Record OpenInterest := {
  OpenInterest_Symbol : string;
  OpenInterest_OpenInterest : string;
  OpenInterest_Time : Z
}.

Record FundingRate := {
  FundingRate_Symbol : string;
  FundingRate_FundingRate : string;
  FundingRate_FundingTime : Z;
  FundingRate_Time : Z
}.

Record PremiumIndex := {
  PremiumIndex_Symbol : string;
  PremiumIndex_MarkPrice : string;
  PremiumIndex_IndexPrice : string;
  PremiumIndex_LastFundingRate : string;
  PremiumIndex_NextFundingTime : Z;
  PremiumIndex_Time : Z
}.

(** The signed HTTP client, seen through what its methods return: [inl] is
    a response with a nil error, [inr] a non-nil error. *)
Record Client := {
  GetKlines : string -> string -> Z -> list Kline + error;
  GetOpenInterest : string -> OpenInterest + error;
  GetFundingRateHistory : string -> Z -> list FundingRate + error;
  GetPremiumIndex : string -> PremiumIndex + error
}.

(** endpoints.go: CalculateOIChange *)
Definition CalculateOIChange (current previous : float64) : float64 :=
  if is_zero previous then 0%float
  else (((current - previous) / previous) * 100)%float.

(** client.go: [NewClient(apiKey, apiSecret, baseURL, proxyURL)], seen
    through how the exchange answers a client set up with these four
    strings. *)
Class Exchange := {
  NewClient : string -> string -> string -> string -> Client
}.

End binance.

(* ===================================================================== *)
(** ** package utils: the open-interest history cache *)
(* ===================================================================== *)

Module utils.

(** Newest sample first. *)
Record OICache := {
  OICache_Symbol : string;
  OICache_History : list float64;
  OICache_Timestamps : list Z
}.

(** The read/write lock serialises the methods; its effect on a sequential
    caller is nil and it is not represented. *)
Record OICacheManager := {
  caches : gmap string OICache;
  maxSize : Z
}.

Definition NewOICacheManager (maxSize : Z) : OICacheManager :=
  let maxSize := if maxSize <=? 0 then 5 else maxSize in
  {| caches := ∅; maxSize := maxSize |}.

Definition Get (m : OICacheManager) (symbol : string) : option OICache :=
  caches m !! symbol.

(** [Update] stores the entry it creates or finds back under [symbol]; the
    slices it builds are fresh, so earlier readers keep what they read. *)
Definition Update (m : OICacheManager) (symbol : string) (oi : float64)
    (timestamp : Z) : outcome OICacheManager :=
  let cache :=
    match caches m !! symbol with
    | Some cache => cache
    | None => {| OICache_Symbol := symbol;
                 OICache_History := [];
                 OICache_Timestamps := [] |}
    end in
  let history := oi :: OICache_History cache in
  let timestamps := timestamp :: OICache_Timestamps cache in
  '(history, timestamps) ←
    (if len history >? maxSize m then
       h ← slice_to history (maxSize m);
       t ← slice_to timestamps (maxSize m);
       mret (h, t)
     else mret (history, timestamps));
  mret {| caches := <[symbol := {| OICache_Symbol := OICache_Symbol cache;
                                    OICache_History := history;
                                    OICache_Timestamps := timestamps |}]>
                      (caches m);
          maxSize := maxSize m |}.

(** Two's-complement result of an [int64] operation. *)
Definition wrap64 (z : Z) : Z := (z + 2 ^ 63) mod 2 ^ 64 - 2 ^ 63.

(** [now] is [time.Now().Unix()]. *)
Definition IsExpired (m : OICacheManager) (symbol : string) (maxAge : Z)
    (now : Z) : outcome bool :=
  let cache := Get m symbol in
  match cache with
  | None => mret true
  | Some cache =>
      if len (OICache_Timestamps cache) =? 0 then mret true
      else
        latestTimestamp ← index (OICache_Timestamps cache) 0;
        let currentTimestamp := now in
        mret (wrap64 (currentTimestamp - latestTimestamp) >? maxAge)
  end.

(** *** oi_cache.go: the rest of the manager *)

(** The copy holds the same entries (the same pointers). *)
Definition GetAll (m : OICacheManager) : gmap string OICache := caches m.

Definition Clear (m : OICacheManager) (symbol : string) : OICacheManager :=
  {| caches := delete symbol (caches m); maxSize := maxSize m |}.

Definition ClearAll (m : OICacheManager) : OICacheManager :=
  {| caches := ∅; maxSize := maxSize m |}.

Definition GetCacheCount (m : OICacheManager) : Z :=
  Z.of_nat (size (caches m)).

(** Go leaves the order of a map iteration open; the order of the underlying
    finite map stands for it. *)
Definition GetSymbols (m : OICacheManager) : list string :=
  (map_to_list (caches m)).*1.

(** The loop of [CleanExpired] visits every entry present at its start
    once, deleting as it goes; [cleaned] counts the deletions. *)
Definition CleanExpired (m : OICacheManager) (maxAge : Z) (now : Z)
    : OICacheManager * Z :=
  let currentTimestamp := now in
  let '(caches', cleaned) :=
    map_fold
      (fun symbol cache '(caches', cleaned) =>
         match OICache_Timestamps cache with
         | [] => (delete symbol caches', cleaned + 1)
         | latestTimestamp :: _ =>
             if wrap64 (currentTimestamp - latestTimestamp) >? maxAge
             then (delete symbol caches', cleaned + 1)
             else (caches', cleaned)
         end)
      (caches m, 0) (caches m) in
  ({| caches := caches'; maxSize := maxSize m |}, cleaned).

(** The three entries of the map [GetStats] returns. *)
Record Stats := {
  symbol_count : Z;
  total_records : Z;
  max_size : Z
}.

Definition GetStats (m : OICacheManager) : Stats :=
  let totalRecords :=
    map_fold (fun _ cache totalRecords =>
                totalRecords + len (OICache_History cache))
             0 (caches m) in
  {| symbol_count := Z.of_nat (size (caches m));
     total_records := totalRecords;
     max_size := maxSize m |}.

(** *** symbols.go *)

Section WithExternalAPI.
Context {Hapi : ExternalAPI}.

(** One of the two loops of [fetchExternalSymbols]: named pairs scoring at
    least [minScore] enter the set. *)
Definition collectCoins (minScore : float64) (coins : list CoinInfo)
    (symbolMap : gset string) : gset string :=
  foldl (fun symbolMap coin =>
           if decide (Pair coin = "") then symbolMap
           else if (minScore <=? Score coin)%float
                then {[Pair coin]} ∪ symbolMap
                else symbolMap)
        symbolMap coins.

(** The keys of the Go map, in the order of the underlying finite set.
    [fmt.Errorf("...: %w", err)] puts its prefix before the text of [err]. *)
Definition fetchExternalSymbols (url : string) (minScore : float64)
    : list string + error :=
  match http_Get url with
  | inr err => inr ("请求失败: " +:+ err)
  | inl resp =>
      match io_ReadAll resp with
      | inr err => inr ("读取响应失败: " +:+ err)
      | inl body =>
          match json_Unmarshal body with
          | inr err => inr ("解析JSON失败: " +:+ err)
          | inl response =>
              if negb (Success response) then inr "API返回失败"%string
              else
                let symbolMap := collectCoins minScore (TopCoins response) ∅ in
                let symbolMap :=
                  collectCoins minScore (BottomCoins response) symbolMap in
                inl (elements symbolMap)
          end
      end
  end.

Definition GetSymbolPool (defaultSymbols excludeSymbols : list string)
    (externalURL : string) (useExternal : bool) (minScore : float64)
    : list string + error :=
  let symbolMap : gset string :=
    foldl (fun symbolMap symbol => {[symbol]} ∪ symbolMap) ∅ defaultSymbols in
  let symbolMap :=
    if useExternal && negb (String.eqb externalURL "") then
      match fetchExternalSymbols externalURL minScore with
      | inr _ => symbolMap
      | inl externalSymbols =>
          foldl (fun symbolMap symbol => {[symbol]} ∪ symbolMap)
                symbolMap externalSymbols
      end
    else symbolMap in
  let symbolMap :=
    foldl (fun symbolMap symbol => symbolMap ∖ {[symbol]})
          symbolMap excludeSymbols in
  inl (elements symbolMap).

End WithExternalAPI.

End utils.

(* ===================================================================== *)
(** ** package indicators *)
(* ===================================================================== *)

Module indicators.

Import binance.

(** *** types.go *)

Record MACDData := { DIF : float64; DEA : float64; Histogram : float64 }.

Record BBData := { Upper : float64; Middle : float64; Lower : float64 }.

Record StochRSIData := { StochRSI_K : float64; StochRSI_D : float64 }.

Record IchimokuData := {
  TenkanSen : float64;
  KijunSen : float64;
  SenkouSpanA : float64;
  SenkouSpanB : float64;
  ChikouSpan : float64
}.

Record MarketData := {
  OICurrent : float64;
  OIHistory : list float64;
  OIChange5m : option float64;
  OIChange15m : option float64;
  OIChange25m : option float64;
  OIChange45m : option float64;
  OIChange75m : option float64;
  FundingRate : float64;
  FundingAvg3 : float64
}.

Record TimeframeData := {
  ClosePrice : float64;
  HighPrice : float64;
  LowPrice : float64;
  OpenPrice : float64;
  EMA9 : float64;
  EMA21 : float64;
  EMA55 : float64;
  MACD : option MACDData;
  RSI : float64;
  BB : option BBData;
  ATR : float64;
  Volume : float64;
  ADX : option float64;
  VWAP : option float64;
  StochRSI : option StochRSIData;
  Ichimoku : option IchimokuData;
  CVD : option float64
}.

Record ShortTermTimeframes := {
  Short_H1 : option TimeframeData;
  Short_M15 : option TimeframeData;
  Short_M5 : option TimeframeData
}.

Record LongTermTimeframes := {
  Long_H4 : option TimeframeData;
  Long_H1 : option TimeframeData;
  Long_M15 : option TimeframeData
}.

Record ShortTermIndicators := {
  Short_Symbol : string;
  Short_Timestamp : Z;
  Short_MarketData : option MarketData;
  Short_Timeframes : option ShortTermTimeframes
}.

Record LongTermIndicators := {
  Long_Symbol : string;
  Long_Timestamp : Z;
  Long_MarketData : option MarketData;
  Long_Timeframes : option LongTermTimeframes
}.

(** *** market.go: types *)

Record OIMetrics := { OIMetrics_Current : float64 }.

Record FundingMetrics := { FundingMetrics_Current : float64; Avg3 : float64 }.

Record OICache := {
  OICache_Symbol : string;
  OICache_History : list float64;
  OICache_Timestamps : list Z
}.

(** Field assignments [marketData.F = v] and [indicators.MarketData = v]. *)
Definition set_OIHistory (v : list float64) (md : MarketData) : MarketData :=
  {| OICurrent := OICurrent md; OIHistory := v;
     OIChange5m := OIChange5m md; OIChange15m := OIChange15m md;
     OIChange25m := OIChange25m md; OIChange45m := OIChange45m md;
     OIChange75m := OIChange75m md;
     FundingRate := FundingRate md; FundingAvg3 := FundingAvg3 md |}.

Definition set_OIChange5m (v : option float64) (md : MarketData) : MarketData :=
  {| OICurrent := OICurrent md; OIHistory := OIHistory md;
     OIChange5m := v; OIChange15m := OIChange15m md;
     OIChange25m := OIChange25m md; OIChange45m := OIChange45m md;
     OIChange75m := OIChange75m md;
     FundingRate := FundingRate md; FundingAvg3 := FundingAvg3 md |}.

Definition set_OIChange15m (v : option float64) (md : MarketData) : MarketData :=
  {| OICurrent := OICurrent md; OIHistory := OIHistory md;
     OIChange5m := OIChange5m md; OIChange15m := v;
     OIChange25m := OIChange25m md; OIChange45m := OIChange45m md;
     OIChange75m := OIChange75m md;
     FundingRate := FundingRate md; FundingAvg3 := FundingAvg3 md |}.

Definition set_OIChange25m (v : option float64) (md : MarketData) : MarketData :=
  {| OICurrent := OICurrent md; OIHistory := OIHistory md;
     OIChange5m := OIChange5m md; OIChange15m := OIChange15m md;
     OIChange25m := v; OIChange45m := OIChange45m md;
     OIChange75m := OIChange75m md;
     FundingRate := FundingRate md; FundingAvg3 := FundingAvg3 md |}.

Definition set_OIChange45m (v : option float64) (md : MarketData) : MarketData :=
  {| OICurrent := OICurrent md; OIHistory := OIHistory md;
     OIChange5m := OIChange5m md; OIChange15m := OIChange15m md;
     OIChange25m := OIChange25m md; OIChange45m := v;
     OIChange75m := OIChange75m md;
     FundingRate := FundingRate md; FundingAvg3 := FundingAvg3 md |}.

Definition set_Short_MarketData (v : option MarketData)
    (i : ShortTermIndicators) : ShortTermIndicators :=
  {| Short_Symbol := Short_Symbol i; Short_Timestamp := Short_Timestamp i;
     Short_MarketData := v; Short_Timeframes := Short_Timeframes i |}.

Definition set_Long_MarketData (v : option MarketData)
    (i : LongTermIndicators) : LongTermIndicators :=
  {| Long_Symbol := Long_Symbol i; Long_Timestamp := Long_Timestamp i;
     Long_MarketData := v; Long_Timeframes := Long_Timeframes i |}.

(** [p.F] through a pointer [p]: a nil [p] panics. *)
Definition deref {A} (p : option A) : outcome A :=
  match p with
  | Some a => Ret a
  | None => Panic
  end.

(** *** common.go: rounding helpers *)

Definition formatPrice (value : float64) : float64 :=
  (Round (value * 100) / 100)%float.

Definition formatMACD (value : float64) : float64 :=
  (Round (value * 10000) / 10000)%float.

Definition formatPercent (value : float64) : float64 :=
  (Round (value * 100) / 100)%float.

(** *** market.go: change rate and the pure cache helper *)

Definition calculateOIChangeRate (current previous : float64) : float64 :=
  if is_zero previous then 0%float
  else
    let change := (((current - previous) / previous) * 100)%float in
    formatPercent change.

Definition UpdateOICache (cache : option OICache) (newOI : float64)
    (timestamp : Z) (maxSize : Z) : outcome OICache :=
  let cache :=
    match cache with
    | None => {| OICache_Symbol := ""; OICache_History := [];
                 OICache_Timestamps := [] |}
    | Some cache => cache
    end in
  let history := newOI :: OICache_History cache in
  let timestamps := timestamp :: OICache_Timestamps cache in
  '(history, timestamps) ←
    (if len history >? maxSize then
       h ← slice_to history maxSize;
       t ← slice_to timestamps maxSize;
       mret (h, t)
     else mret (history, timestamps));
  mret {| OICache_Symbol := OICache_Symbol cache;
          OICache_History := history;
          OICache_Timestamps := timestamps |}.

(** *** market.go: helpers for the decision stage *)

(** [previousOI] keeps its zero value when the history is too short for the
    interval; an unknown interval returns at once. *)
Definition CalculateOIChangeWithHistory (currentOI : float64)
    (historicalOI : list float64) (interval : string) : outcome float64 :=
  if len historicalOI =? 0 then mret 0%float
  else
    previousOI ←
      (if String.eqb interval "1h" then
         if len historicalOI >=? 1
         then p ← index historicalOI 0; mret (Some p)
         else mret (Some 0%float)
       else if String.eqb interval "4h" then
         if len historicalOI >=? 4
         then p ← index historicalOI 3; mret (Some p)
         else mret (Some 0%float)
       else if String.eqb interval "24h" then
         if len historicalOI >=? 24
         then p ← index historicalOI 23; mret (Some p)
         else mret (Some 0%float)
       else mret None);
    match previousOI with
    | None => mret 0%float
    | Some previousOI =>
        if is_zero previousOI then mret 0%float
        else
          let change :=
            (((currentOI - previousOI) / previousOI) * 100)%float in
          mret (formatPercent change)
    end.

(** The funding-rate thresholds 0.1, 0.05, -0.05 and -0.1 as float64. *)
Definition extremeHigh : float64 := 0x1.999999999999ap-4.
Definition high : float64 := 0x1.999999999999ap-5.
Definition low : float64 := (- 0x1.999999999999ap-5)%float.
Definition extremeLow : float64 := (- 0x1.999999999999ap-4)%float.

Definition ShouldTradeBasedOnFunding (fundingRate : float64)
    (direction : string) : bool * string :=
  if String.eqb direction "long" then
    if (extremeHigh <? fundingRate)%float
    then (false, "资金费率极高，市场过度做多，不适合开多"%string)
    else if (high <? fundingRate)%float
    then (false, "资金费率偏高，多头拥挤，建议谨慎"%string)
    else (true, "资金费率正常，可以做多"%string)
  else if String.eqb direction "short" then
    if (fundingRate <? extremeLow)%float
    then (false, "资金费率极低，市场过度做空，不适合开空"%string)
    else if (fundingRate <? low)%float
    then (false, "资金费率偏低，空头拥挤，建议谨慎"%string)
    else (true, "资金费率正常，可以做空"%string)
  else (false, "未知交易方向"%string).

Definition AnalyzeOIAndPrice (priceChange oiChange : float64) : string :=
  if (0 <? priceChange)%float && (0 <? oiChange)%float
  then "价格上涨+OI增加：真实多头趋势，新资金进场"
  else if (0 <? priceChange)%float && (oiChange <? 0)%float
  then "价格上涨+OI减少：空头平仓推动，可能反转"
  else if (priceChange <? 0)%float && (0 <? oiChange)%float
  then "价格下跌+OI增加：真实空头趋势，新空单进场"
  else if (priceChange <? 0)%float && (oiChange <? 0)%float
  then "价格下跌+OI减少：多头平仓推动，可能反转"
  else "价格和OI无明显变化，市场震荡".

Section WithExternals.
Context `{!Strconv} `{!Talib}.

(** *** market.go: open interest and funding rate *)

Definition CalculateOIMetrics (client : Client) (symbol : string)
    (currentPrice : float64) : option OIMetrics :=
  match GetOpenInterest client symbol with
  | inr _ => None
  | inl oi =>
      match ParseFloat (OpenInterest_OpenInterest oi) with
      | (_, Some _) => None
      | (oiValue, None) =>
          let currentOIValue := (oiValue * currentPrice)%float in
          Some {| OIMetrics_Current := formatPrice currentOIValue |}
      end
  end.

(** The loop body of [CalculateFundingMetrics]: rates that do not parse are
    left out of both the sum and the count. *)
Definition sumFundingRates (fundingRates : list binance.FundingRate)
    : float64 * Z :=
  foldl (fun '(sum, count) fr =>
           match ParseFloat (FundingRate_FundingRate fr) with
           | (rate, None) => ((sum + rate)%float, count + 1)
           | (_, Some _) => (sum, count)
           end)
        (0%float, 0) fundingRates.

Definition CalculateFundingMetrics (client : Client) (symbol : string)
    : option FundingMetrics :=
  match GetPremiumIndex client symbol with
  | inr _ => None
  | inl premium =>
      match ParseFloat (PremiumIndex_LastFundingRate premium) with
      | (_, Some _) => None
      | (currentRate, None) =>
          match GetFundingRateHistory client symbol 3 with
          | inr _ =>
              Some {| FundingMetrics_Current :=
                        formatPercent (currentRate * 100)%float;
                      Avg3 := 0%float |}
          | inl fundingRates =>
              let '(sum, count) := sumFundingRates fundingRates in
              let avg3 :=
                if count >? 0 then (sum / float64_of_int count)%float
                else 0%float in
              Some {| FundingMetrics_Current :=
                        formatPercent (currentRate * 100)%float;
                      Avg3 := formatPercent (avg3 * 100)%float |}
          end
      end
  end.

Definition CalculateMarketData (client : Client) (symbol : string)
    (currentPrice : float64) (oiCache : option OICache)
    : outcome (option MarketData) :=
  match CalculateOIMetrics client symbol currentPrice with
  | None => mret None
  | Some oiMetrics =>
      match CalculateFundingMetrics client symbol with
      | None => mret None
      | Some fundingMetrics =>
          let current := (OIMetrics_Current oiMetrics / 1000000)%float in
          let marketData :=
            {| OICurrent := formatPrice current;
               OIHistory := [];
               OIChange5m := None; OIChange15m := None;
               OIChange25m := None; OIChange45m := None;
               OIChange75m := None;
               FundingRate := FundingMetrics_Current fundingMetrics;
               FundingAvg3 := Avg3 fundingMetrics |} in
          match oiCache with
          | None => mret (Some marketData)
          | Some oiCache =>
              let History := OICache_History oiCache in
              if len History >? 0 then
                let marketData := set_OIHistory History marketData in
                marketData ←
                  (if len History >=? 2 then
                     previous ← index History 0;
                     let change5m := calculateOIChangeRate current previous in
                     mret (set_OIChange5m (Some change5m) marketData)
                   else mret marketData);
                marketData ←
                  (if len History >=? 4 then
                     previous ← index History 2;
                     let change15m := calculateOIChangeRate current previous in
                     mret (set_OIChange15m (Some change15m) marketData)
                   else mret marketData);
                marketData ←
                  (if len History >=? 5 then
                     previous ← index History 4;
                     let change25m := calculateOIChangeRate current previous in
                     let marketData :=
                       set_OIChange25m (Some change25m) marketData in
                     previous ← index History 4;
                     let change45m := calculateOIChangeRate current previous in
                     mret (set_OIChange45m (Some change45m) marketData)
                   else mret marketData);
                mret (Some marketData)
              else mret (Some marketData)
          end
      end
  end.

(** *** common.go: indicator wrappers around go-talib *)

Definition extractCloses (klines : list Kline) : list float64 :=
  map (fun kline => (ParseFloat (Kline_Close kline)).1) klines.

Definition extractHLC (klines : list Kline)
    : list float64 * list float64 * list float64 :=
  (map (fun kline => (ParseFloat (Kline_High kline)).1) klines,
   map (fun kline => (ParseFloat (Kline_Low kline)).1) klines,
   map (fun kline => (ParseFloat (Kline_Close kline)).1) klines).

Definition GetVolume (kline : Kline) : float64 :=
  let volume := (ParseFloat (Kline_Volume kline)).1 in
  formatPrice volume.

Definition CalculateEMA (klines : list Kline) (period : Z) : outcome float64 :=
  if len klines <? period then mret 0%float
  else
    let closes := extractCloses klines in
    let ema := Ema closes period in
    x ← index ema (len ema - 1);
    mret (formatPrice x).

Definition CalculateMACD (klines : list Kline) : outcome (option MACDData) :=
  if len klines <? 26 then mret None
  else
    let closes := extractCloses klines in
    let '(macd, signal, histogram) := Macd closes 12 26 9 in
    let latest := len macd - 1 in
    dif ← index macd latest;
    dea ← index signal latest;
    hist ← index histogram latest;
    mret (Some {| DIF := formatMACD dif;
                  DEA := formatMACD dea;
                  Histogram := formatMACD hist |}).

Definition CalculateRSI (klines : list Kline) (period : Z) : outcome float64 :=
  if len klines <? wrap_int (period + 1) then mret 0%float
  else
    let closes := extractCloses klines in
    let rsi := Rsi closes period in
    x ← index rsi (len rsi - 1);
    mret (formatPercent x).

Definition CalculateBollingerBands (klines : list Kline) (period : Z)
    (stdDev : float64) : outcome (option BBData) :=
  if len klines <? period then mret None
  else
    let closes := extractCloses klines in
    let '(upper, middle, lower) := BBands closes period stdDev stdDev SMA in
    let latest := len upper - 1 in
    u ← index upper latest;
    m ← index middle latest;
    l ← index lower latest;
    mret (Some {| Upper := formatPrice u;
                  Middle := formatPrice m;
                  Lower := formatPrice l |}).

Definition CalculateATR (klines : list Kline) (period : Z) : outcome float64 :=
  if len klines <? wrap_int (period + 1) then mret 0%float
  else
    let '(highs, lows, closes) := extractHLC klines in
    let atr := Atr highs lows closes period in
    x ← index atr (len atr - 1);
    mret (formatPrice x).

Definition CalculateADX (klines : list Kline) (period : Z) : outcome float64 :=
  if len klines <? wrap_int (period * 2) then mret 0%float
  else
    let '(highs, lows, closes) := extractHLC klines in
    let adx := Adx highs lows closes period in
    x ← index adx (len adx - 1);
    mret (formatPercent x).

Definition CalculateStochRSI (klines : list Kline) (period : Z)
    : outcome (option StochRSIData) :=
  if len klines <? wrap_int (period * 2) then mret None
  else
    let closes := extractCloses klines in
    let '(fastK, fastD) := StochRsi closes period 5 3 SMA in
    let latest := len fastK - 1 in
    k ← index fastK latest;
    d ← index fastD latest;
    mret (Some {| StochRSI_K := formatPercent k;
                  StochRSI_D := formatPercent d |}).

Definition CalculateVWAP (klines : list Kline) : float64 :=
  if len klines =? 0 then 0%float
  else
    let '(totalPV, totalVolume) :=
      foldl (fun '(totalPV, totalVolume) kline =>
               let high := (ParseFloat (Kline_High kline)).1 in
               let low := (ParseFloat (Kline_Low kline)).1 in
               let close := (ParseFloat (Kline_Close kline)).1 in
               let volume := (ParseFloat (Kline_Volume kline)).1 in
               let typicalPrice := ((high + low + close) / 3)%float in
               ((totalPV + typicalPrice * volume)%float,
                (totalVolume + volume)%float))
            (0%float, 0%float) klines in
    if is_zero totalVolume then 0%float
    else formatPrice (totalPV / totalVolume)%float.

(** *** short_term.go *)

(** [timeframe] only reaches the log. *)
Definition calculateTimeframeData (klines : list Kline) (timeframe : string)
    : outcome (option TimeframeData) :=
  if len klines =? 0 then mret None
  else
    let latest := len klines - 1 in
    k ← index klines latest;
    let closePrice := (ParseFloat (Kline_Close k)).1 in
    let highPrice := (ParseFloat (Kline_High k)).1 in
    let lowPrice := (ParseFloat (Kline_Low k)).1 in
    let openPrice := (ParseFloat (Kline_Open k)).1 in
    let volume := GetVolume k in
    ema9 ← CalculateEMA klines 9;
    ema21 ← CalculateEMA klines 21;
    ema55 ← CalculateEMA klines 55;
    macd ← CalculateMACD klines;
    rsi ← CalculateRSI klines 14;
    bb ← CalculateBollingerBands klines 20 2%float;
    atr ← CalculateATR klines 14;
    '(adx, vwap, stochRSI) ←
      (if len klines >=? 28 then
         adxValue ← CalculateADX klines 14;
         let adx := if (0 <? adxValue)%float then Some adxValue else None in
         let vwapValue := CalculateVWAP klines in
         let vwap := if (0 <? vwapValue)%float then Some vwapValue else None in
         stochRSI ← CalculateStochRSI klines 14;
         mret (adx, vwap, stochRSI)
       else mret (None, None, None));
    mret (Some {| ClosePrice := formatPrice closePrice;
                  HighPrice := formatPrice highPrice;
                  LowPrice := formatPrice lowPrice;
                  OpenPrice := formatPrice openPrice;
                  EMA9 := ema9;
                  EMA21 := ema21;
                  EMA55 := ema55;
                  MACD := macd;
                  RSI := rsi;
                  BB := bb;
                  ATR := atr;
                  Volume := volume;
                  ADX := adx;
                  VWAP := vwap;
                  StochRSI := stochRSI;
                  Ichimoku := None;
                  CVD := None |}).

(** [now] is [time.Now().Unix()].  The closing log call reads
    [indicators.Timeframes.H1.ClosePrice] and its two siblings. *)
Definition CalculateShortTermIndicators (symbol : string)
    (klines1h klines15m klines5m : list Kline) (now : Z)
    : outcome (option ShortTermIndicators) :=
  if (len klines1h <? 55) || (len klines15m <? 55) || (len klines5m <? 55)
  then mret None
  else
    h1 ← calculateTimeframeData klines1h "1h";
    m15 ← calculateTimeframeData klines15m "15m";
    m5 ← calculateTimeframeData klines5m "5m";
    let indicators :=
      {| Short_Symbol := symbol;
         Short_Timestamp := now;
         Short_MarketData := None;
         Short_Timeframes := Some {| Short_H1 := h1;
                                     Short_M15 := m15;
                                     Short_M5 := m5 |} |} in
    _ ← deref h1;
    _ ← deref m15;
    _ ← deref m5;
    mret (Some indicators).

(** The closing log call reads [marketData.OICurrent] and
    [marketData.FundingRate] outside the nil test that precedes it. *)
Definition CalculateShortTermIndicatorsWithMarket (symbol : string)
    (klines1h klines15m klines5m : list Kline) (client : Client)
    (oiCache : option OICache) (now : Z)
    : outcome (option ShortTermIndicators) :=
  indicators ← CalculateShortTermIndicators symbol klines1h klines15m klines5m now;
  match indicators with
  | None => mret None
  | Some indicators =>
      timeframes ← deref (Short_Timeframes indicators);
      m5 ← deref (Short_M5 timeframes);
      let currentPrice := ClosePrice m5 in
      marketData ← CalculateMarketData client symbol currentPrice oiCache;
      let indicators :=
        match marketData with
        | Some _ => set_Short_MarketData marketData indicators
        | None => indicators
        end in
      _ ← deref marketData;
      mret (Some indicators)
  end.

(** *** long_term.go *)

Definition CalculateLongTermIndicators (symbol : string)
    (klines4h klines1h klines15m : list Kline) (now : Z)
    : outcome (option LongTermIndicators) :=
  if (len klines4h <? 55) || (len klines1h <? 55) || (len klines15m <? 55)
  then mret None
  else
    h4 ← calculateTimeframeData klines4h "4h";
    h1 ← calculateTimeframeData klines1h "1h";
    m15 ← calculateTimeframeData klines15m "15m";
    let indicators :=
      {| Long_Symbol := symbol;
         Long_Timestamp := now;
         Long_MarketData := None;
         Long_Timeframes := Some {| Long_H4 := h4;
                                    Long_H1 := h1;
                                    Long_M15 := m15 |} |} in
    _ ← deref h4;
    _ ← deref h1;
    _ ← deref m15;
    mret (Some indicators).

Definition CalculateLongTermIndicatorsWithMarket (symbol : string)
    (klines4h klines1h klines15m : list Kline) (client : Client)
    (oiCache : option OICache) (now : Z)
    : outcome (option LongTermIndicators) :=
  indicators ← CalculateLongTermIndicators symbol klines4h klines1h klines15m now;
  match indicators with
  | None => mret None
  | Some indicators =>
      timeframes ← deref (Long_Timeframes indicators);
      m15 ← deref (Long_M15 timeframes);
      let currentPrice := ClosePrice m15 in
      marketData ← CalculateMarketData client symbol currentPrice oiCache;
      let indicators :=
        match marketData with
        | Some _ => set_Long_MarketData marketData indicators
        | None => indicators
        end in
      _ ← deref marketData;
      mret (Some indicators)
  end.

End WithExternals.

End indicators.

(* ===================================================================== *)
(** ** package config *)
(* ===================================================================== *)

Module config.

Record ProxyConfig := { IsUse : bool; Host : string; Port : Z }.

Record BinanceConfig := { FuturesURL : string }.

Record Account := {
  ID : string;
  Name : string;
  Strategy : string;
  PromptType : string;
  APIKey : string;
  APISecret : string;
  Enabled : bool
}.

Record Config := {
  Proxy : ProxyConfig;
  Binance : BinanceConfig;
  AccountsConfig : string;
  Accounts : list Account
}.

(** *** accounts.go *)

Definition Account_Validate (a : Account) : option error :=
  if String.eqb (ID a) "" then Some "账号ID不能为空"%string
  else if String.eqb (Name a) "" then Some "账号名称不能为空"%string
  else if negb (String.eqb (Strategy a) "short_term") &&
          negb (String.eqb (Strategy a) "long_term")
  then Some ("策略类型无效: " +:+ Strategy a +:+
             " (必须是 short_term 或 long_term)")
  else if negb (String.eqb (PromptType a) "minimal") &&
          negb (String.eqb (PromptType a) "detailed")
  then Some ("提示词类型无效: " +:+ PromptType a +:+
             " (必须是 minimal 或 detailed)")
  else if String.eqb (APIKey a) "" then Some "API Key不能为空"%string
  else if String.eqb (APISecret a) "" then Some "API Secret不能为空"%string
  else None.

Definition GetStrategyName (a : Account) : string :=
  if String.eqb (Strategy a) "short_term" then "短线"
  else if String.eqb (Strategy a) "long_term" then "中长线"
  else "未知".

Definition GetPromptTypeName (a : Account) : string :=
  if String.eqb (PromptType a) "minimal" then "简洁版"
  else if String.eqb (PromptType a) "detailed" then "详细版"
  else "未知".

Definition GetPromptTypeDescription (a : Account) : string :=
  if String.eqb (PromptType a) "minimal"
  then "只提供数据和输出格式，让AI自主判断"
  else if String.eqb (PromptType a) "detailed"
  then "明确写明进场出场条件和交易逻辑"
  else "未知类型".

(** The validation loop of [LoadAccounts], from index [i] on. *)
Fixpoint validateAccounts (i : Z) (accounts : list Account) : option error :=
  match accounts with
  | [] => None
  | acc :: accounts =>
      match Account_Validate acc with
      | Some err => Some ("账号[" +:+ pretty i +:+ "]配置无效: " +:+ err)
      | None => validateAccounts (i + 1) accounts
      end
  end.

(** *** config.go *)

Definition Config_Validate (c : Config) : option error :=
  if String.eqb (FuturesURL (Binance c)) "" then Some "币安合约URL不能为空"%string
  else if len (Accounts c) =? 0 then Some "至少需要配置一个账号"%string
  else None.

(** [fmt.Sprintf("http://%s:%d", host, port)]. *)
Definition GetProxyURL (c : Config) : string :=
  if negb (IsUse (Proxy c)) then ""
  else "http://" +:+ Host (Proxy c) +:+ ":" +:+ pretty (Port (Proxy c)).

Definition GetEnabledAccounts (c : Config) : list Account :=
  foldl (fun enabled acc => if Enabled acc then enabled ++ [acc] else enabled)
        [] (Accounts c).

Fixpoint findAccount (id : string) (accounts : list Account) : option Account :=
  match accounts with
  | [] => None
  | acc :: accounts =>
      if String.eqb (ID acc) id then Some acc else findAccount id accounts
  end.

Definition GetAccountByID (c : Config) (id : string) : option Account :=
  findAccount id (Accounts c).

Section WithFiles.
Context {Hfiles : ConfigFiles ProxyConfig BinanceConfig Account}.

Definition LoadAccounts (accountsPath : string) : list Account + error :=
  match ReadFile accountsPath with
  | inr err => inr ("读取账号配置文件失败: " +:+ err)
  | inl data =>
      match UnmarshalAccounts data with
      | inr err => inr ("解析账号配置文件失败: " +:+ err)
      | inl accounts =>
          match validateAccounts 0 accounts with
          | Some err => inr err
          | None => inl accounts
          end
      end
  end.

(** The returned configuration is also what [Get] hands out afterwards. *)
Definition Load (configPath : string) : Config + error :=
  match ReadFile configPath with
  | inr err => inr ("读取配置文件失败: " +:+ err)
  | inl data =>
      match UnmarshalConfig data with
      | inr err => inr ("解析配置文件失败: " +:+ err)
      | inl (proxy, binance, accountsConfig) =>
          let loaded :=
            if negb (String.eqb accountsConfig "") then
              let configDir := filepath_Dir configPath in
              let accountsPath := filepath_Join configDir accountsConfig in
              match LoadAccounts accountsPath with
              | inr err => inr ("加载账号配置失败: " +:+ err)
              | inl accounts => inl accounts
              end
            else inl [] in
          match loaded with
          | inr err => inr err
          | inl accounts =>
              let cfg := {| Proxy := proxy; Binance := binance;
                            AccountsConfig := accountsConfig;
                            Accounts := accounts |} in
              match Config_Validate cfg with
              | Some err => inr ("配置验证失败: " +:+ err)
              | None => inl cfg
              end
          end
      end
  end.

End WithFiles.

End config.

(* ===================================================================== *)
(** ** package main: the per-strategy fan-out over the symbol pool *)
(* ===================================================================== *)

Module main.

Import binance.

(** What [outputIndicators] is handed: the snapshot, the account and the
    strategy class. *)
Inductive emitted :=
| EmitShort (accountID : string) (result : indicators.ShortTermIndicators)
| EmitLong (accountID : string) (result : indicators.LongTermIndicators).

(** The cache entry the loop body reads, re-typed for package indicators;
    an unknown symbol reads as an empty history. *)
Definition readOICache (oiCacheManager : utils.OICacheManager)
    (symbol : string) : indicators.OICache :=
  let oiCache :=
    match utils.Get oiCacheManager symbol with
    | Some oiCache => oiCache
    | None => {| utils.OICache_Symbol := symbol;
                 utils.OICache_History := [];
                 utils.OICache_Timestamps := [] |}
    end in
  {| indicators.OICache_Symbol := utils.OICache_Symbol oiCache;
     indicators.OICache_History := utils.OICache_History oiCache;
     indicators.OICache_Timestamps := utils.OICache_Timestamps oiCache |}.

Section WithExternals.
Context `{!Strconv} `{!Talib}.

(** One iteration of the loop of [processShortTermStrategy]: the cache
    manager after it and what it emitted.  [continue] leaves both as they
    were.  [now] stands for the readings of [time.Now().Unix()] made during
    the iteration. *)
Definition processShortTermSymbol (client : Client)
    (oiCacheManager : utils.OICacheManager) (accountID : string) (now : Z)
    (symbol : string) : outcome (utils.OICacheManager * list emitted) :=
  match GetKlines client symbol "1h" 100 with
  | inr _ => mret (oiCacheManager, [])
  | inl klines1h =>
  match GetKlines client symbol "15m" 100 with
  | inr _ => mret (oiCacheManager, [])
  | inl klines15m =>
  match GetKlines client symbol "5m" 100 with
  | inr _ => mret (oiCacheManager, [])
  | inl klines5m =>
      let indicatorOICache := readOICache oiCacheManager symbol in
      result ← indicators.CalculateShortTermIndicatorsWithMarket
                 symbol klines1h klines15m klines5m client
                 (Some indicatorOICache) now;
      match result with
      | None => mret (oiCacheManager, [])
      | Some result =>
          oiCacheManager ←
            match indicators.Short_MarketData result with
            | Some marketData =>
                utils.Update oiCacheManager symbol
                  (indicators.OICurrent marketData) now
            | None => mret oiCacheManager
            end;
          mret (oiCacheManager, [EmitShort accountID result])
      end
  end end end.

Fixpoint processShortTermStrategy (client : Client) (symbols : list string)
    (oiCacheManager : utils.OICacheManager) (accountID : string) (now : Z)
    : outcome (utils.OICacheManager * list emitted) :=
  match symbols with
  | [] => mret (oiCacheManager, [])
  | symbol :: symbols =>
      '(oiCacheManager, out) ←
        processShortTermSymbol client oiCacheManager accountID now symbol;
      '(oiCacheManager, outs) ←
        processShortTermStrategy client symbols oiCacheManager accountID now;
      mret (oiCacheManager, out ++ outs)
  end.

Definition processLongTermSymbol (client : Client)
    (oiCacheManager : utils.OICacheManager) (accountID : string) (now : Z)
    (symbol : string) : outcome (utils.OICacheManager * list emitted) :=
  match GetKlines client symbol "4h" 100 with
  | inr _ => mret (oiCacheManager, [])
  | inl klines4h =>
  match GetKlines client symbol "1h" 100 with
  | inr _ => mret (oiCacheManager, [])
  | inl klines1h =>
  match GetKlines client symbol "15m" 100 with
  | inr _ => mret (oiCacheManager, [])
  | inl klines15m =>
      let indicatorOICache := readOICache oiCacheManager symbol in
      result ← indicators.CalculateLongTermIndicatorsWithMarket
                 symbol klines4h klines1h klines15m client
                 (Some indicatorOICache) now;
      match result with
      | None => mret (oiCacheManager, [])
      | Some result =>
          oiCacheManager ←
            match indicators.Long_MarketData result with
            | Some marketData =>
                utils.Update oiCacheManager symbol
                  (indicators.OICurrent marketData) now
            | None => mret oiCacheManager
            end;
          mret (oiCacheManager, [EmitLong accountID result])
      end
  end end end.

Fixpoint processLongTermStrategy (client : Client) (symbols : list string)
    (oiCacheManager : utils.OICacheManager) (accountID : string) (now : Z)
    : outcome (utils.OICacheManager * list emitted) :=
  match symbols with
  | [] => mret (oiCacheManager, [])
  | symbol :: symbols =>
      '(oiCacheManager, out) ←
        processLongTermSymbol client oiCacheManager accountID now symbol;
      '(oiCacheManager, outs) ←
        processLongTermStrategy client symbols oiCacheManager accountID now;
      mret (oiCacheManager, out ++ outs)
  end.

End WithExternals.

(** *** main(): the client table and the three passes over the accounts *)

Section Passes.
Context `{!Strconv} `{!Talib} {Hexchange : Exchange}.

(** Step 5 of [main]: one client per enabled account, keyed by account ID.
    The arguments are in the order of the call in [main]. *)
Definition buildClients (cfg : config.Config) : gmap string Client :=
  foldl (fun clients account =>
           <[config.ID account :=
               NewClient (config.FuturesURL (config.Binance cfg))
                         (config.APIKey account)
                         (config.APISecret account)
                         (config.GetProxyURL cfg)]> clients)
        ∅ (config.GetEnabledAccounts cfg).

(** A strategy run with the client found in the table.  A missing entry
    reads as a nil client, whose first request dereferences it. *)
Definition shortTermRun (client : option Client) (symbols : list string)
    (oiCacheManager : utils.OICacheManager) (accountID : string) (now : Z)
    : outcome (utils.OICacheManager * list emitted) :=
  match client with
  | Some client =>
      processShortTermStrategy client symbols oiCacheManager accountID now
  | None =>
      match symbols with
      | [] => mret (oiCacheManager, [])
      | _ :: _ => Panic
      end
  end.

Definition longTermRun (client : option Client) (symbols : list string)
    (oiCacheManager : utils.OICacheManager) (accountID : string) (now : Z)
    : outcome (utils.OICacheManager * list emitted) :=
  match client with
  | Some client =>
      processLongTermStrategy client symbols oiCacheManager accountID now
  | None =>
      match symbols with
      | [] => mret (oiCacheManager, [])
      | _ :: _ => Panic
      end
  end.

(** The pass made once before the tickers are read. *)
Fixpoint initialPass (accounts : list config.Account)
    (clients : gmap string Client) (symbols : list string)
    (oiCacheManager : utils.OICacheManager) (now : Z)
    : outcome (utils.OICacheManager * list emitted) :=
  match accounts with
  | [] => mret (oiCacheManager, [])
  | account :: accounts =>
      let client := clients !! config.ID account in
      '(oiCacheManager, out) ←
        (if String.eqb (config.Strategy account) "short_term" then
           shortTermRun client symbols oiCacheManager (config.ID account) now
         else if String.eqb (config.Strategy account) "long_term" then
           longTermRun client symbols oiCacheManager (config.ID account) now
         else mret (oiCacheManager, []));
      '(oiCacheManager, outs) ←
        initialPass accounts clients symbols oiCacheManager now;
      mret (oiCacheManager, out ++ outs)
  end.

(** The case of the select loop for the 5-minute ticker. *)
Fixpoint shortTermTick (accounts : list config.Account)
    (clients : gmap string Client) (symbols : list string)
    (oiCacheManager : utils.OICacheManager) (now : Z)
    : outcome (utils.OICacheManager * list emitted) :=
  match accounts with
  | [] => mret (oiCacheManager, [])
  | account :: accounts =>
      '(oiCacheManager, out) ←
        (if String.eqb (config.Strategy account) "short_term" then
           let client := clients !! config.ID account in
           shortTermRun client symbols oiCacheManager (config.ID account) now
         else mret (oiCacheManager, []));
      '(oiCacheManager, outs) ←
        shortTermTick accounts clients symbols oiCacheManager now;
      mret (oiCacheManager, out ++ outs)
  end.

(** The case of the select loop for the 15-minute ticker. *)
Fixpoint longTermTick (accounts : list config.Account)
    (clients : gmap string Client) (symbols : list string)
    (oiCacheManager : utils.OICacheManager) (now : Z)
    : outcome (utils.OICacheManager * list emitted) :=
  match accounts with
  | [] => mret (oiCacheManager, [])
  | account :: accounts =>
      '(oiCacheManager, out) ←
        (if String.eqb (config.Strategy account) "long_term" then
           let client := clients !! config.ID account in
           longTermRun client symbols oiCacheManager (config.ID account) now
         else mret (oiCacheManager, []));
      '(oiCacheManager, outs) ←
        longTermTick accounts clients symbols oiCacheManager now;
      mret (oiCacheManager, out ++ outs)
  end.

End Passes.

End main.

(* ===================================================================== *)
(** ** A concrete environment for running the code *)
(* ===================================================================== *)

Module demo.

Import binance.

(** A decimal parser for unsigned integer literals below 2^53, where
    [strconv.ParseFloat] is exact; every other string is reported as a
    syntax error with value 0. *)
Definition digit (a : ascii) : option Z :=
  let n := Z.of_nat (nat_of_ascii a) in
  if (48 <=? n) && (n <=? 57) then Some (n - 48) else None.

Fixpoint parseDigits (s : string) (acc : Z) : option Z :=
  match s with
  | EmptyString => Some acc
  | String a s' =>
      match digit a with
      | Some d => parseDigits s' (10 * acc + d)
      | None => None
      end
  end.

Definition parseFloat (s : string) : float64 * option error :=
  match s with
  | EmptyString => (0%float, Some "invalid syntax"%string)
  | _ =>
      match parseDigits s 0 with
      | Some n =>
          if n <? 2 ^ 53 then (float64_of_int n, None)
          else (0%float, Some "invalid syntax"%string)
      | None => (0%float, Some "invalid syntax"%string)
      end
  end.

Definition strconv : Strconv := {| ParseFloat := parseFloat |}.

(** A stand-in for go-talib that hands series back unchanged: enough to run
    the control flow around it. *)
Definition talib : Talib := {|
  MaType := unit;
  SMA := tt;
  Ema := fun xs _ => xs;
  Macd := fun xs _ _ _ => (xs, xs, xs);
  Rsi := fun xs _ => xs;
  BBands := fun xs _ _ _ _ => (xs, xs, xs);
  Atr := fun _ _ cs _ => cs;
  Adx := fun _ _ cs _ => cs;
  StochRsi := fun xs _ _ _ _ => (xs, xs)
|}.

Definition kline : Kline := {|
  Kline_OpenTime := 0;
  Kline_Open := "100";
  Kline_High := "110";
  Kline_Low := "90";
  Kline_Close := "105";
  Kline_Volume := "7";
  Kline_CloseTime := 299999;
  Kline_QuoteAssetVolume := "735";
  Kline_NumberOfTrades := 3;
  Kline_TakerBuyBaseAssetVolume := "4";
  Kline_TakerBuyQuoteAssetVolume := "420"
|}.

Definition klines (n : nat) : list Kline := replicate n kline.

Definition openInterest (symbol : string) : OpenInterest :=
  {| OpenInterest_Symbol := symbol;
     OpenInterest_OpenInterest := "2000000";
     OpenInterest_Time := 1700000000000 |}.

Definition premiumIndex (symbol : string) : PremiumIndex :=
  {| PremiumIndex_Symbol := symbol;
     PremiumIndex_MarkPrice := "105";
     PremiumIndex_IndexPrice := "105";
     PremiumIndex_LastFundingRate := "1";
     PremiumIndex_NextFundingTime := 1700006400000;
     PremiumIndex_Time := 1700000000000 |}.

Definition fundingRate (symbol : string) : FundingRate :=
  {| FundingRate_Symbol := symbol;
     FundingRate_FundingRate := "0";
     FundingRate_FundingTime := 1699977600000;
     FundingRate_Time := 1699977600000 |}.

(** An exchange on which every request succeeds. *)
Definition client : Client := {|
  GetKlines := fun _ _ _ => inl (klines 100);
  GetOpenInterest := fun symbol => inl (openInterest symbol);
  GetFundingRateHistory := fun symbol _ => inl (replicate 3 (fundingRate symbol));
  GetPremiumIndex := fun symbol => inl (premiumIndex symbol)
|}.

(** The same exchange with the funding-rate history endpoint down. *)
Definition clientNoFundingHistory : Client := {|
  GetKlines := GetKlines client;
  GetOpenInterest := GetOpenInterest client;
  GetFundingRateHistory := fun _ _ => inr "timeout"%string;
  GetPremiumIndex := GetPremiumIndex client
|}.

(** The same exchange with the open-interest endpoint down. *)
Definition clientNoOpenInterest : Client := {|
  GetKlines := GetKlines client;
  GetOpenInterest := fun _ => inr "timeout"%string;
  GetFundingRateHistory := GetFundingRateHistory client;
  GetPremiumIndex := GetPremiumIndex client
|}.

(** The same exchange with the candle endpoint failing for ETHUSDT. *)
Definition clientNoEthCandles : Client := {|
  GetKlines := fun symbol interval limit =>
    if String.eqb symbol "ETHUSDT" then inr "timeout"%string
    else GetKlines client symbol interval limit;
  GetOpenInterest := GetOpenInterest client;
  GetFundingRateHistory := GetFundingRateHistory client;
  GetPremiumIndex := GetPremiumIndex client
|}.

Definition pool : list string :=
  ["BTCUSDT"; "ETHUSDT"; "BNBUSDT"; "SOLUSDT"; "XRPUSDT"]%string.

Definition oiCache (history : list float64) : indicators.OICache :=
  {| indicators.OICache_Symbol := "BTCUSDT";
     indicators.OICache_History := history;
     indicators.OICache_Timestamps :=
       map (fun i => 1700000000 - 300 * Z.of_nat i) (seq 0 (length history)) |}.

(** A cache manager that has seen two ticks for BTCUSDT. *)
Definition manager : utils.OICacheManager :=
  {| utils.caches :=
       {[ "BTCUSDT"%string :=
            {| utils.OICache_Symbol := "BTCUSDT";
               utils.OICache_History := [200; 190]%float;
               utils.OICache_Timestamps := [1699999700; 1699999400] |} ]};
     utils.maxSize := 5 |}.

(** Two enabled accounts, one per strategy, and one switched off. *)
Definition account (id strategy : string) (enabled : bool) : config.Account :=
  {| config.ID := id;
     config.Name := id;
     config.Strategy := strategy;
     config.PromptType := "minimal";
     config.APIKey := "key-" +:+ id;
     config.APISecret := "secret-" +:+ id;
     config.Enabled := enabled |}.

Definition accounts : list config.Account :=
  [account "account-1" "short_term" true;
   account "account-2" "long_term" true;
   account "account-3" "short_term" false].

Definition cfg : config.Config :=
  {| config.Proxy := {| config.IsUse := false;
                        config.Host := "127.0.0.1";
                        config.Port := 7890 |};
     config.Binance := {| config.FuturesURL := "https://fapi.binance.com" |};
     config.AccountsConfig := "accounts.json";
     config.Accounts := accounts |}.

(** A directory [config] holding [config.json] and [accounts.json], with
    the two files parsed to [cfg]. *)
Definition files
    : ConfigFiles config.ProxyConfig config.BinanceConfig config.Account := {|
  ReadFile := fun path =>
    if String.eqb path "config/config.json" then inl "config"%string
    else if String.eqb path "config/accounts.json" then inl "accounts"%string
    else inr "no such file or directory"%string;
  UnmarshalConfig := fun data =>
    if String.eqb data "config"
    then inl (config.Proxy cfg, config.Binance cfg, config.AccountsConfig cfg)
    else inr "unexpected end of JSON input"%string;
  UnmarshalAccounts := fun data =>
    if String.eqb data "accounts" then inl accounts
    else inr "unexpected end of JSON input"%string;
  filepath_Dir := fun _ => "config"%string;
  filepath_Join := fun dir file => dir +:+ "/" +:+ file
|}.



(** A client table for the two enabled accounts; the exchange of the second
    fails the ETHUSDT candles. *)
Definition clients : gmap string Client :=
  {[ "account-1"%string := client; "account-2"%string := clientNoEthCandles ]}.

End demo.

(* ===================================================================== *)
(** ** Vocabulary of the statements *)
(* ===================================================================== *)

Section Vocabulary.
Context {Hstrconv : Strconv}.

Import indicators.

(** The change against history slot [i], reported once the history holds at
    least [need] samples. *)
Definition changeAt (current : float64) (History : list float64)
    (need : Z) (i : nat) : option float64 :=
  if need <=? len History
  then calculateOIChangeRate current <$> History !! i
  else None.

(** OIChange45m repeats OIChange25m and OIChange75m is never set. *)
Definition mirrored (md : MarketData) : Prop :=
  OIChange45m md = OIChange25m md /\
  (is_Some (OIChange45m md) <-> is_Some (OIChange25m md)) /\
  OIChange75m md = None.

(** What [CalculateMarketData] assembles once both fetches succeeded. *)
Definition assembled (oiMetrics : OIMetrics) (fundingMetrics : FundingMetrics)
    (History : list float64) : MarketData :=
  let current := (OIMetrics_Current oiMetrics / 1000000)%float in
  {| OICurrent := formatPrice current;
     OIHistory := History;
     OIChange5m := changeAt current History 2 0;
     OIChange15m := changeAt current History 4 2;
     OIChange25m := changeAt current History 5 4;
     OIChange45m := changeAt current History 5 4;
     OIChange75m := None;
     FundingRate := FundingMetrics_Current fundingMetrics;
     FundingAvg3 := Avg3 fundingMetrics |}.

Definition insufficient (k1 k2 k3 : list binance.Kline) : Prop :=
  len k1 < 55 \/ len k2 < 55 \/ len k3 < 55.

Definition sufficient (k1 k2 k3 : list binance.Kline) : Prop :=
  55 <= len k1 /\ 55 <= len k2 /\ 55 <= len k3.

(** The market-data fetch fails: the open-interest request or its parse, or
    the premium-index request or its parse. *)
Definition marketDataFails (client : binance.Client) (symbol : string) : Prop :=
  (forall currentPrice, CalculateOIMetrics client symbol currentPrice = None) \/
  CalculateFundingMetrics client symbol = None.

(** The three candle requests of a pair succeed with at least 55 candles
    each. *)
Definition candlesOk (client : binance.Client) (symbol : string)
    (i1 i2 i3 : string) : bool :=
  match binance.GetKlines client symbol i1 100,
        binance.GetKlines client symbol i2 100,
        binance.GetKlines client symbol i3 100 with
  | inl k1, inl k2, inl k3 =>
      (55 <=? len k1) && (55 <=? len k2) && (55 <=? len k3)
  | _, _, _ => false
  end.

Definition shortCandlesOk (client : binance.Client) (symbol : string) : bool :=
  candlesOk client symbol "1h" "15m" "5m".

Definition longCandlesOk (client : binance.Client) (symbol : string) : bool :=
  candlesOk client symbol "4h" "1h" "15m".

(** Both market-data fetches of a pair succeed and parse (the price has no
    say in that). *)
Definition marketDataOk (client : binance.Client) (symbol : string) : bool :=
  match CalculateOIMetrics client symbol 0, CalculateFundingMetrics client symbol with
  | Some _, Some _ => true
  | _, _ => false
  end.

Definition emittedSymbol (e : main.emitted) : string :=
  match e with
  | main.EmitShort _ result => Short_Symbol result
  | main.EmitLong _ result => Long_Symbol result
  end.


End Vocabulary.

(** A run of [Update] calls, in call order. *)
Fixpoint applyUpdates (m : utils.OICacheManager)
    (updates : list (string * float64 * Z)) : outcome utils.OICacheManager :=
  match updates with
  | [] => Ret m
  | (key, value, timestamp) :: updates =>
      m ← utils.Update m key value timestamp;
      applyUpdates m updates
  end.

(** A run of [UpdateOICache] calls threading the returned cache. *)
Fixpoint applyUpdateOICache (cache : option indicators.OICache)
    (samples : list (float64 * Z)) (maxSize : Z)
    : outcome (option indicators.OICache) :=
  match samples with
  | [] => Ret cache
  | (value, timestamp) :: samples =>
      cache ← indicators.UpdateOICache cache value timestamp maxSize;
      applyUpdateOICache (Some cache) samples maxSize
  end.

(** The values written under [key], in call order. *)
Fixpoint valuesFor (key : string) (updates : list (string * float64 * Z))
    : list float64 :=
  match updates with
  | [] => []
  | (k, value, _) :: updates =>
      if decide (k = key) then value :: valuesFor key updates
      else valuesFor key updates
  end.

(** The history a reader of [Get] sees; nil reads as no history. *)
Definition historyOf (cache : option utils.OICache) : list float64 :=
  match cache with
  | Some cache => utils.OICache_History cache
  | None => []
  end.

Definition timestampsOf (cache : option utils.OICache) : list Z :=
  match cache with
  | Some cache => utils.OICache_Timestamps cache
  | None => []
  end.

(** What [NewOICacheManager] establishes and [Update] keeps. *)
Definition wellFormed (m : utils.OICacheManager) : Prop :=
  0 < utils.maxSize m /\
  forall key cache, utils.caches m !! key = Some cache ->
    length (utils.OICache_Timestamps cache) =
      length (utils.OICache_History cache) /\
    len (utils.OICache_History cache) <= utils.maxSize m.

Definition int64 (z : Z) : Prop := - 2 ^ 63 <= z < 2 ^ 63.

(** The samples written under [key], in call order. *)
Fixpoint samplesFor (key : string) (updates : list (string * float64 * Z))
    : list (float64 * Z) :=
  match updates with
  | [] => []
  | (k, value, timestamp) :: updates =>
      if decide (k = key) then (value, timestamp) :: samplesFor key updates
      else samplesFor key updates
  end.

(** The test both [IsExpired] and [CleanExpired] apply to an entry. *)
Definition entryExpired (maxAge now : Z) (cache : utils.OICache) : bool :=
  match utils.OICache_Timestamps cache with
  | [] => true
  | latestTimestamp :: _ => utils.wrap64 (now - latestTimestamp) >? maxAge
  end.

(** The state of a manager in use: a positive capacity, and under every
    key an entry that carries the key, holds at least one sample, as many
    timestamps as values, and no more than the capacity. *)
Definition populated (m : utils.OICacheManager) : Prop :=
  0 < utils.maxSize m /\
  forall key cache, utils.caches m !! key = Some cache ->
    utils.OICache_Symbol cache = key /\
    1 <= len (utils.OICache_History cache) /\
    length (utils.OICache_Timestamps cache) =
      length (utils.OICache_History cache) /\
    len (utils.OICache_History cache) <= utils.maxSize m.

(** The last value of a go-talib series. *)
Definition lastOf (xs : list float64) : float64 := default 0%float (last xs).

(** A populated timeframe block, in closed form: the prices and the volume
    of the last candle, and the last values of the go-talib series over the
    whole candle series, each rounded as its field is; ADX and VWAP are
    kept when positive. *)
Definition blockOf `{Strconv} `{Talib} (klines : list binance.Kline)
    : option indicators.TimeframeData :=
  let closes := indicators.extractCloses klines in
  let highs := (indicators.extractHLC klines).1.1 in
  let lows := (indicators.extractHLC klines).1.2 in
  let macd := Macd closes 12 26 9 in
  let bands := BBands closes 20 2%float 2%float SMA in
  let stoch := StochRsi closes 14 5 3 SMA in
  let adx := indicators.formatPercent (lastOf (Adx highs lows closes 14)) in
  let vwap := indicators.CalculateVWAP klines in
  (fun k =>
     {| indicators.ClosePrice :=
          indicators.formatPrice (ParseFloat (binance.Kline_Close k)).1;
        indicators.HighPrice :=
          indicators.formatPrice (ParseFloat (binance.Kline_High k)).1;
        indicators.LowPrice :=
          indicators.formatPrice (ParseFloat (binance.Kline_Low k)).1;
        indicators.OpenPrice :=
          indicators.formatPrice (ParseFloat (binance.Kline_Open k)).1;
        indicators.EMA9 := indicators.formatPrice (lastOf (Ema closes 9));
        indicators.EMA21 := indicators.formatPrice (lastOf (Ema closes 21));
        indicators.EMA55 := indicators.formatPrice (lastOf (Ema closes 55));
        indicators.MACD :=
          Some {| indicators.DIF := indicators.formatMACD (lastOf macd.1.1);
                  indicators.DEA := indicators.formatMACD (lastOf macd.1.2);
                  indicators.Histogram :=
                    indicators.formatMACD (lastOf macd.2) |};
        indicators.RSI := indicators.formatPercent (lastOf (Rsi closes 14));
        indicators.BB :=
          Some {| indicators.Upper := indicators.formatPrice (lastOf bands.1.1);
                  indicators.Middle := indicators.formatPrice (lastOf bands.1.2);
                  indicators.Lower := indicators.formatPrice (lastOf bands.2) |};
        indicators.ATR :=
          indicators.formatPrice (lastOf (Atr highs lows closes 14));
        indicators.Volume :=
          indicators.formatPrice (ParseFloat (binance.Kline_Volume k)).1;
        indicators.ADX := if (0 <? adx)%float then Some adx else None;
        indicators.VWAP := if (0 <? vwap)%float then Some vwap else None;
        indicators.StochRSI :=
          Some {| indicators.StochRSI_K :=
                    indicators.formatPercent (lastOf stoch.1);
                  indicators.StochRSI_D :=
                    indicators.formatPercent (lastOf stoch.2) |};
        indicators.Ichimoku := None;
        indicators.CVD := None |}) <$> last klines.

(** go-talib answers each call the wrappers of common.go make on this
    series, once its guard lets the series through, with series as long as
    the series. *)
Definition sameLengthAt `{Strconv} `{Talib} (klines : list binance.Kline)
    (period : Z) (stdDev : float64) : Prop :=
  let closes := indicators.extractCloses klines in
  let highs := (indicators.extractHLC klines).1.1 in
  let lows := (indicators.extractHLC klines).1.2 in
  (period <= len klines ->
     length (Ema closes period) = length closes /\
     length (BBands closes period stdDev stdDev SMA).1.1 = length closes /\
     length (BBands closes period stdDev stdDev SMA).1.2 = length closes /\
     length (BBands closes period stdDev stdDev SMA).2 = length closes) /\
  (period + 1 <= len klines ->
     length (Rsi closes period) = length closes /\
     length (Atr highs lows closes period) = length closes) /\
  (period * 2 <= len klines ->
     length (Adx highs lows closes period) = length closes /\
     length (StochRsi closes period 5 3 SMA).1 = length closes /\
     length (StochRsi closes period 5 3 SMA).2 = length closes) /\
  (26 <= len klines ->
     length (Macd closes 12 26 9).1.1 = length closes /\
     length (Macd closes 12 26 9).1.2 = length closes /\
     length (Macd closes 12 26 9).2 = length closes).

(** The history slot an interval of [CalculateOIChangeWithHistory] reads. *)
Definition intervalSlot (interval : string) : option nat :=
  if String.eqb interval "1h" then Some 0%nat
  else if String.eqb interval "4h" then Some 3%nat
  else if String.eqb interval "24h" then Some 23%nat
  else None.

(** A timeframe block with its three optional indicator groups filled in. *)
Definition complete (data : indicators.TimeframeData) : Prop :=
  is_Some (indicators.MACD data) /\ is_Some (indicators.BB data) /\
  is_Some (indicators.StochRSI data).

(** What [Account.Validate] asks of an account. *)
Definition validAccount (a : config.Account) : Prop :=
  config.ID a <> ""%string /\ config.Name a <> ""%string /\
  (config.Strategy a = "short_term"%string \/
   config.Strategy a = "long_term"%string) /\
  (config.PromptType a = "minimal"%string \/
   config.PromptType a = "detailed"%string) /\
  config.APIKey a <> ""%string /\ config.APISecret a <> ""%string.

(** A coin that [fetchExternalSymbols] lets through: it has a name and its
    score is at least the minimum. *)
Definition accepted (minScore : float64) (coin : CoinInfo) : Prop :=
  Pair coin <> ""%string /\ (minScore <=? Score coin)%float = true.

Definition emittedAccount (e : main.emitted) : string :=
  match e with
  | main.EmitShort accountID _ => accountID
  | main.EmitLong accountID _ => accountID
  end.

(** Who a snapshot is for and which pair it is about. *)
Definition emittedPair (e : main.emitted) : string * string :=
  (emittedAccount e, emittedSymbol e).

Definition isShortTerm (a : config.Account) : bool :=
  String.eqb (config.Strategy a) "short_term".

Definition isLongTerm (a : config.Account) : bool :=
  String.eqb (config.Strategy a) "long_term".

(** The snapshots a run for account [a] owes: one for each pair of the pool
    whose candles are there, in pool order. *)
Definition owed (candles : binance.Client -> string -> bool)
    (clients : gmap string binance.Client) (symbols : list string)
    (a : config.Account) : list (string * string) :=
  match clients !! config.ID a with
  | Some client =>
      map (fun symbol => (config.ID a, symbol))
          (List.filter (candles client) symbols)
  | None => []
  end.

(** An account whose client is in the table and answers the market-data
    requests for every pair of the pool whose candles it serves. *)
Definition served (candles : binance.Client -> string -> bool)
    `{Strconv} (clients : gmap string binance.Client) (symbols : list string)
    (a : config.Account) : Prop :=
  exists client,
    clients !! config.ID a = Some client /\
    Forall (fun symbol => candles client symbol = true ->
                          marketDataOk client symbol = true) symbols.

(** What a run may do to the cache: keep the invariant and the capacity,
    leave alone every entry outside [touched], drop none. *)
Definition frames (touched : list string) (mgr mgr' : utils.OICacheManager)
    : Prop :=
  wellFormed mgr' /\
  utils.maxSize mgr' = utils.maxSize mgr /\
  (forall key, key ∉ touched -> utils.Get mgr' key = utils.Get mgr key) /\
  (forall key, is_Some (utils.Get mgr key) -> is_Some (utils.Get mgr' key)).





(* ===================================================================== *)
(** ** Run-time model: basic facts *)
(* ===================================================================== *)

Arguments len : simpl never.

Lemma len_nil {A} : len (@nil A) = 0.
Proof. reflexivity. Qed.

Lemma len_cons {A} (x : A) (s : list A) : len (x :: s) = 1 + len s.
Proof. unfold len. cbn [length]. lia. Qed.

Lemma len_nonneg {A} (s : list A) : 0 <= len s.
Proof. unfold len. lia. Qed.

Lemma len_map {A B} (f : A -> B) (s : list A) : len (map f s) = len s.
Proof. unfold len. now rewrite length_map. Qed.

Lemma index_Ret {A} (s : list A) (i : Z) :
  0 <= i < len s ->
  exists x, index s i = Ret x /\ s !! Z.to_nat i = Some x.
Proof.
  intros Hi. unfold index.
  destruct (Z.ltb_spec i 0) as [?|_]; [lia|].
  destruct (s !! Z.to_nat i) as [x|] eqn:E.
  - now exists x.
  - apply lookup_ge_None in E. unfold len in Hi. lia.
Qed.

Lemma index_last_Ret {A} (s : list A) :
  0 < len s -> exists x, index s (len s - 1) = Ret x.
Proof.
  intros Hs. destruct (index_Ret s (len s - 1)) as (x & Hx & _); [lia|].
  now exists x.
Qed.

Lemma slice_to_Ret {A} (s : list A) (n : Z) :
  0 <= n <= len s -> slice_to s n = Ret (take (Z.to_nat n) s).
Proof.
  intros [H0 H1]. unfold slice_to.
  destruct (Z.leb_spec 0 n); [|lia].
  destruct (Z.leb_spec n (len s)); [reflexivity|lia].
Qed.

Lemma slice_to_negative {A} (s : list A) (n : Z) :
  n < 0 -> slice_to s n = Panic.
Proof.
  intros Hn. unfold slice_to.
  destruct (Z.leb_spec 0 n); [lia|reflexivity].
Qed.

(** Case analysis on the integer tests of the goal. *)
Ltac int_cases :=
  repeat match goal with
    | |- context [?a >=? ?b] =>
        rewrite (Z.geb_leb a b); destruct (Z.leb_spec b a); try lia
    | |- context [?a >? ?b] =>
        rewrite (Z.gtb_ltb a b); destruct (Z.ltb_spec b a); try lia
    | |- context [?a <? ?b] => destruct (Z.ltb_spec a b); try lia
    | |- context [?a <=? ?b] => destruct (Z.leb_spec a b); try lia
    | |- context [?a =? ?b] => destruct (Z.eqb_spec a b); try lia
    end.

(* ===================================================================== *)
(** ** Change rate (market.go, endpoints.go) *)
(* ===================================================================== *)

(** C4, as stated, fails for the indicators version: 1 against 3 is
    -66.666..., and the function returns the float64 nearest to -66.67. *)
Lemma calculateOIChangeRate_not_raw :
  is_zero 3 = false /\
  indicators.calculateOIChangeRate 1 3 <> ((1 - 3) / 3 * 100)%float /\
  indicators.calculateOIChangeRate 1 3 = (-0x1.0aae147ae147bp+6)%float.
Proof.
  split; [reflexivity|]. split; [|reflexivity].
  vm_compute. discriminate.
Qed.

(** C4 (amended): both functions return 0 for a zero previous value; for a
    non-zero one [CalculateOIChange] returns (c - p) / p * 100 and
    [calculateOIChangeRate] returns that value rounded to two decimals by
    [formatPercent]; so the second is the first one rounded. *)
Theorem change_rate_spec (c p : float64) :
  binance.CalculateOIChange c p =
    (if is_zero p then 0 else (c - p) / p * 100)%float /\
  indicators.calculateOIChangeRate c p =
    (if is_zero p then 0
     else indicators.formatPercent ((c - p) / p * 100))%float /\
  indicators.calculateOIChangeRate c p =
    indicators.formatPercent (binance.CalculateOIChange c p).
Proof.
  unfold binance.CalculateOIChange, indicators.calculateOIChangeRate.
  destruct (is_zero p); repeat split; reflexivity.
Qed.

(* ===================================================================== *)
(** ** Market data (market.go) *)
(* ===================================================================== *)

Section MarketData.
Context {Hstrconv : Strconv}.

Import indicators.

Lemma changeAt_is_Some current History need i :
  (Z.of_nat i < need)%Z ->
  is_Some (changeAt current History need i) <-> need <= len History.
Proof.
  intros Hi. unfold changeAt.
  destruct (Z.leb_spec need (len History)) as [Hle|Hlt].
  - split; [auto|intros _].
    destruct (History !! i) eqn:E; [cbn; eauto|].
    apply lookup_ge_None in E. unfold len in Hle. lia.
  - split; [intros [? ?]; discriminate|lia].
Qed.

Lemma CalculateMarketData_failed client symbol currentPrice oiCache :
  CalculateOIMetrics client symbol currentPrice = None \/
  CalculateFundingMetrics client symbol = None ->
  CalculateMarketData client symbol currentPrice oiCache = Ret None.
Proof.
  unfold CalculateMarketData. intros [->| ->]; [reflexivity|].
  now destruct (CalculateOIMetrics _ _ _).
Qed.

Lemma CalculateMarketData_assembled client symbol currentPrice oiCache
    oiMetrics fundingMetrics :
  CalculateOIMetrics client symbol currentPrice = Some oiMetrics ->
  CalculateFundingMetrics client symbol = Some fundingMetrics ->
  CalculateMarketData client symbol currentPrice (Some oiCache) =
    Ret (Some (assembled oiMetrics fundingMetrics (OICache_History oiCache))).
Proof.
  intros Hoi Hf. unfold CalculateMarketData. rewrite Hoi, Hf.
  unfold assembled, changeAt.
  destruct (OICache_History oiCache) as [|a [|b [|c [|d [|e l]]]]];
    rewrite ?len_cons, ?len_nil; try pose proof (len_nonneg l);
    int_cases; reflexivity.
Qed.

Lemma CalculateMarketData_nil_cache client symbol currentPrice
    oiMetrics fundingMetrics :
  CalculateOIMetrics client symbol currentPrice = Some oiMetrics ->
  CalculateFundingMetrics client symbol = Some fundingMetrics ->
  CalculateMarketData client symbol currentPrice None =
    Ret (Some (assembled oiMetrics fundingMetrics [])).
Proof.
  intros Hoi Hf. unfold CalculateMarketData. now rewrite Hoi, Hf.
Qed.

(** [CalculateMarketData] never panics, and returns nil exactly when one of
    the two fetches failed. *)
Lemma CalculateMarketData_total client symbol currentPrice oiCache :
  exists r, CalculateMarketData client symbol currentPrice oiCache = Ret r /\
    (r = None <->
       CalculateOIMetrics client symbol currentPrice = None \/
       CalculateFundingMetrics client symbol = None).
Proof.
  destruct (CalculateOIMetrics client symbol currentPrice) as [oi|] eqn:Hoi.
  2:{ exists None. split; [|split; auto].
      apply CalculateMarketData_failed. now left. }
  destruct (CalculateFundingMetrics client symbol) as [f|] eqn:Hf.
  2:{ exists None. split; [|split; auto].
      apply CalculateMarketData_failed. now right. }
  destruct oiCache as [c|].
  - exists (Some (assembled oi f (OICache_History c))).
    split; [apply CalculateMarketData_assembled; assumption|].
    split; [discriminate|intros [?|?]; discriminate].
  - exists (Some (assembled oi f [])).
    split; [apply CalculateMarketData_nil_cache; assumption|].
    split; [discriminate|intros [?|?]; discriminate].
Qed.

(** C1 (amended): with the market data returned (it is, unless a fetch
    failed, and the call never panics), a history of length k yields
    OIChange5m (slot 0) exactly when k >= 2, OIChange15m (slot 2) exactly
    when k >= 4 and OIChange25m (slot 4) exactly when k >= 5; a field that
    is not computable is nil, and a computed one is the rounded change of
    the current value against that slot. *)
Theorem CalculateMarketData_offsets client symbol currentPrice oiCache :
  exists r,
    CalculateMarketData client symbol currentPrice (Some oiCache) = Ret r /\
    (r = None <->
       CalculateOIMetrics client symbol currentPrice = None \/
       CalculateFundingMetrics client symbol = None) /\
    forall md, r = Some md ->
      let History := OICache_History oiCache in
      ((is_Some (OIChange5m md) <-> 2 <= len History) /\
       (is_Some (OIChange15m md) <-> 4 <= len History) /\
       (is_Some (OIChange25m md) <-> 5 <= len History)) /\
      exists current,
        OIChange5m md = changeAt current History 2 0 /\
        OIChange15m md = changeAt current History 4 2 /\
        OIChange25m md = changeAt current History 5 4.
Proof.
  destruct (CalculateMarketData_total client symbol currentPrice (Some oiCache))
    as (r & Hr & Hnone).
  exists r. split; [assumption|]. split; [assumption|].
  intros md ->.
  destruct (CalculateOIMetrics client symbol currentPrice) as [oi|] eqn:Hoi.
  2:{ destruct Hnone as [_ Hn]. discriminate Hn. now left. }
  destruct (CalculateFundingMetrics client symbol) as [f|] eqn:Hf.
  2:{ destruct Hnone as [_ Hn]. discriminate Hn. now right. }
  rewrite (CalculateMarketData_assembled _ _ _ _ _ _ Hoi Hf) in Hr.
  injection Hr as <-. cbn. split.
  - repeat split; try (apply changeAt_is_Some; lia);
      apply changeAt_is_Some; lia.
  - eexists. repeat split.
Qed.

(** Every market-data value [CalculateMarketData] returns has
    OIChange45m equal to OIChange25m and OIChange75m nil. *)
Lemma CalculateMarketData_mirror client symbol currentPrice oiCache md :
  CalculateMarketData client symbol currentPrice oiCache = Ret (Some md) ->
  mirrored md.
Proof.
  intros Hmd. unfold mirrored.
  destruct (CalculateOIMetrics client symbol currentPrice) as [oi|] eqn:Hoi.
  2:{ rewrite CalculateMarketData_failed in Hmd by now left. discriminate. }
  destruct (CalculateFundingMetrics client symbol) as [f|] eqn:Hf.
  2:{ rewrite CalculateMarketData_failed in Hmd by now right. discriminate. }
  destruct oiCache as [c|].
  - rewrite (CalculateMarketData_assembled _ _ _ _ _ _ Hoi Hf) in Hmd.
    injection Hmd as <-. cbn. repeat split; auto.
  - rewrite (CalculateMarketData_nil_cache _ _ _ _ _ Hoi Hf) in Hmd.
    injection Hmd as <-. cbn. repeat split; auto.
Qed.

(** *** Funding metrics *)

Lemma sumFundingRates_zero (rates : list binance.FundingRate) :
  rates <> [] -> (length rates <= 3)%nat ->
  Forall (fun fr =>
            ParseFloat (binance.FundingRate_FundingRate fr) = (0%float, None))
         rates ->
  exists count,
    sumFundingRates rates = (0%float, count) /\
    (count >? 0) = true /\
    (0 / float64_of_int count)%float = 0%float.
Proof.
  intros Hne Hlen Hall. unfold sumFundingRates.
  destruct rates as [|a [|b [|c [|d l]]]]; [congruence| | | |cbn in Hlen; lia].
  - inversion_clear Hall as [|? ? Ha _]. cbn. rewrite Ha.
    exists 1. repeat split.
  - inversion_clear Hall as [|? ? Ha Hall'].
    inversion_clear Hall' as [|? ? Hb _]. cbn. rewrite Ha, Hb.
    exists 2. repeat split.
  - inversion_clear Hall as [|? ? Ha Hall'].
    inversion_clear Hall' as [|? ? Hb Hall].
    inversion_clear Hall as [|? ? Hc _]. cbn. rewrite Ha, Hb, Hc.
    exists 3. repeat split.
Qed.

(** C10: with the current rate fetched and parsed and the history fetch
    failing, [CalculateFundingMetrics] returns a non-nil result with
    Avg3 = 0; an exchange that answers the history request with one to
    three rates that all parse to 0 gets the very same result. *)
Theorem CalculateFundingMetrics_history_failure
    client symbol premium currentRate e :
  binance.GetPremiumIndex client symbol = inl premium ->
  ParseFloat (binance.PremiumIndex_LastFundingRate premium) =
    (currentRate, None) ->
  binance.GetFundingRateHistory client symbol 3 = inr e ->
  CalculateFundingMetrics client symbol =
    Some {| FundingMetrics_Current := formatPercent (currentRate * 100);
            Avg3 := 0 |} /\
  forall client' rates,
    binance.GetPremiumIndex client' symbol = inl premium ->
    binance.GetFundingRateHistory client' symbol 3 = inl rates ->
    rates <> [] -> (length rates <= 3)%nat ->
    Forall (fun fr =>
              ParseFloat (binance.FundingRate_FundingRate fr) = (0%float, None))
           rates ->
    CalculateFundingMetrics client' symbol =
      CalculateFundingMetrics client symbol.
Proof.
  intros Hp Hparse Hhist.
  assert (Hres : CalculateFundingMetrics client symbol =
    Some {| FundingMetrics_Current := formatPercent (currentRate * 100);
            Avg3 := 0 |}).
  { unfold CalculateFundingMetrics. now rewrite Hp, Hparse, Hhist. }
  split; [exact Hres|].
  intros client' rates Hp' Hhist' Hne Hlen Hall.
  rewrite Hres. unfold CalculateFundingMetrics.
  rewrite Hp', Hparse, Hhist'.
  destruct (sumFundingRates_zero rates Hne Hlen Hall) as (count & -> & -> & ->).
  reflexivity.
Qed.

End MarketData.

(** C1, as stated, fails: a one-sample history (k = 1 >= 0 + 1) leaves
    OIChange5m nil, and a three-sample history (k = 3 >= 2 + 1) leaves
    OIChange15m nil. *)
Lemma CalculateMarketData_offsets_counterexample :
  (exists md,
     @indicators.CalculateMarketData demo.strconv demo.client "BTCUSDT" 105
       (Some (demo.oiCache [200]%float)) = Ret (Some md) /\
     len (indicators.OICache_History (demo.oiCache [200]%float)) >= 0 + 1 /\
     indicators.OIChange5m md = None) /\
  (exists md,
     @indicators.CalculateMarketData demo.strconv demo.client "BTCUSDT" 105
       (Some (demo.oiCache [200; 190; 180]%float)) = Ret (Some md) /\
     len (indicators.OICache_History (demo.oiCache [200; 190; 180]%float)) >= 2 + 1 /\
     indicators.OIChange5m md = Some 5%float /\
     indicators.OIChange15m md = None).
Proof.
  split; eexists; (split; [vm_compute; reflexivity|]);
    repeat split; vm_compute; discriminate.
Qed.

Lemma CalculateMarketData_offsets_witness :
  exists r,
    @indicators.CalculateMarketData demo.strconv demo.client "BTCUSDT" 105
      (Some (demo.oiCache [200; 190; 180; 170; 160]%float)) = Ret r /\
    is_Some r.
Proof.
  destruct (@CalculateMarketData_offsets demo.strconv demo.client "BTCUSDT"
              105%float (demo.oiCache [200; 190; 180; 170; 160]%float))
    as (r & Hr & _ & _).
  exists r. split; [exact Hr|].
  vm_compute in Hr. injection Hr as <-. eexists; reflexivity.
Defined.

Lemma CalculateFundingMetrics_history_failure_witness :
  @indicators.CalculateFundingMetrics demo.strconv
     demo.clientNoFundingHistory "BTCUSDT" =
    Some {| indicators.FundingMetrics_Current := 100; indicators.Avg3 := 0 |} /\
  @indicators.CalculateFundingMetrics demo.strconv demo.client "BTCUSDT" =
    @indicators.CalculateFundingMetrics demo.strconv
       demo.clientNoFundingHistory "BTCUSDT".
Proof.
  destruct (@CalculateFundingMetrics_history_failure demo.strconv
              demo.clientNoFundingHistory "BTCUSDT"
              (demo.premiumIndex "BTCUSDT") 1%float "timeout"%string
              eq_refl eq_refl eq_refl) as [Hres Hsame].
  split; [exact Hres|].
  apply (Hsame demo.client (replicate 3 (demo.fundingRate "BTCUSDT")));
    [reflexivity|reflexivity|discriminate|vm_compute; lia|repeat constructor].
Defined.

(* ===================================================================== *)
(** ** Timeframe indicators (common.go, short_term.go, long_term.go) *)
(* ===================================================================== *)

Lemma bind_Ret {A B} (a : A) (k : A -> outcome B) : (Ret a ≫= k) = k a.
Proof. reflexivity. Qed.

Lemma bind_Ret_inv {A B} (m : outcome A) (k : A -> outcome B) (b : B) :
  m ≫= k = Ret b -> exists a, m = Ret a /\ k a = Ret b.
Proof. destruct m as [a|]; [eauto|discriminate]. Qed.

Section Pipeline.
Context {Hstrconv : Strconv} {Htalib : Talib} {HtalibLen : TalibLen}.

Import indicators.

Lemma extractCloses_len klines : len (extractCloses klines) = len klines.
Proof. apply len_map. Qed.

Lemma CalculateEMA_Ret klines period :
  0 < len klines -> exists x, CalculateEMA klines period = Ret x.
Proof.
  intros Hk. unfold CalculateEMA. int_cases; [now eexists|].
  destruct (index_last_Ret (Ema (extractCloses klines) period)) as [x ->].
  { unfold len. rewrite Ema_len. fold (len (extractCloses klines)).
    now rewrite extractCloses_len. }
  now eexists.
Qed.

Lemma CalculateRSI_Ret klines period :
  0 < len klines -> exists x, CalculateRSI klines period = Ret x.
Proof.
  intros Hk. unfold CalculateRSI. int_cases; [now eexists|].
  destruct (index_last_Ret (Rsi (extractCloses klines) period)) as [x ->].
  { unfold len. rewrite Rsi_len. fold (len (extractCloses klines)).
    now rewrite extractCloses_len. }
  now eexists.
Qed.

Lemma CalculateATR_Ret klines period :
  0 < len klines -> exists x, CalculateATR klines period = Ret x.
Proof.
  intros Hk. unfold CalculateATR, extractHLC. int_cases; [now eexists|].
  match goal with |- context [index ?s _] =>
    destruct (index_last_Ret s) as [x ->] end.
  { unfold len. rewrite Atr_len, length_map. exact Hk. }
  now eexists.
Qed.

Lemma CalculateADX_Ret klines period :
  0 < len klines -> exists x, CalculateADX klines period = Ret x.
Proof.
  intros Hk. unfold CalculateADX, extractHLC. int_cases; [now eexists|].
  match goal with |- context [index ?s _] =>
    destruct (index_last_Ret s) as [x ->] end.
  { unfold len. rewrite Adx_len, length_map. exact Hk. }
  now eexists.
Qed.

Lemma index_same_len {A} (s t : list A) :
  0 < len s -> length t = length s -> exists x, index t (len s - 1) = Ret x.
Proof.
  intros Hs Hlen. destruct (index_Ret t (len s - 1)) as (x & Hx & _).
  - unfold len in *. lia.
  - now exists x.
Qed.

Lemma CalculateMACD_Ret klines :
  0 < len klines -> exists x, CalculateMACD klines = Ret x.
Proof.
  intros Hk. unfold CalculateMACD. int_cases; [now eexists|].
  pose proof (Macd_len (extractCloses klines) 12 26 9) as (Hl1 & Hl2 & Hl3).
  destruct (Macd (extractCloses klines) 12 26 9) as [[macd signal] histogram].
  cbn in Hl1, Hl2, Hl3.
  assert (Hm : 0 < len macd).
  { unfold len. rewrite Hl1. fold (len (extractCloses klines)).
    now rewrite extractCloses_len. }
  destruct (index_last_Ret macd Hm) as [a ->].
  destruct (index_same_len macd signal Hm) as [b ->]; [congruence|].
  destruct (index_same_len macd histogram Hm) as [c ->]; [congruence|].
  now eexists.
Qed.

Lemma CalculateBollingerBands_Ret klines period stdDev :
  0 < len klines -> exists x, CalculateBollingerBands klines period stdDev = Ret x.
Proof.
  intros Hk. unfold CalculateBollingerBands. int_cases; [now eexists|].
  pose proof (BBands_len (extractCloses klines) period stdDev stdDev SMA)
    as (Hl1 & Hl2 & Hl3).
  destruct (BBands (extractCloses klines) period stdDev stdDev SMA)
    as [[upper middle] lower].
  cbn in Hl1, Hl2, Hl3.
  assert (Hm : 0 < len upper).
  { unfold len. rewrite Hl1. fold (len (extractCloses klines)).
    now rewrite extractCloses_len. }
  destruct (index_last_Ret upper Hm) as [a ->].
  destruct (index_same_len upper middle Hm) as [b ->]; [congruence|].
  destruct (index_same_len upper lower Hm) as [c ->]; [congruence|].
  now eexists.
Qed.

Lemma CalculateStochRSI_Ret klines period :
  0 < len klines -> exists x, CalculateStochRSI klines period = Ret x.
Proof.
  intros Hk. unfold CalculateStochRSI. int_cases; [now eexists|].
  pose proof (StochRsi_len (extractCloses klines) period 5 3 SMA) as (Hl1 & Hl2).
  destruct (StochRsi (extractCloses klines) period 5 3 SMA) as [fastK fastD].
  cbn in Hl1, Hl2.
  assert (Hm : 0 < len fastK).
  { unfold len. rewrite Hl1. fold (len (extractCloses klines)).
    now rewrite extractCloses_len. }
  destruct (index_last_Ret fastK Hm) as [a ->].
  destruct (index_same_len fastK fastD Hm) as [b ->]; [congruence|].
  now eexists.
Qed.

(** A non-empty series always yields a timeframe block. *)
Lemma calculateTimeframeData_Ret klines timeframe :
  0 < len klines ->
  exists data, calculateTimeframeData klines timeframe = Ret (Some data).
Proof.
  intros Hk. unfold calculateTimeframeData.
  destruct (Z.eqb_spec (len klines) 0) as [?|_]; [lia|].
  destruct (index_last_Ret klines Hk) as [k ->].
  destruct (CalculateEMA_Ret klines 9 Hk) as [ema9 ->].
  destruct (CalculateEMA_Ret klines 21 Hk) as [ema21 ->].
  destruct (CalculateEMA_Ret klines 55 Hk) as [ema55 ->].
  destruct (CalculateMACD_Ret klines Hk) as [macd ->].
  destruct (CalculateRSI_Ret klines 14 Hk) as [rsi ->].
  destruct (CalculateBollingerBands_Ret klines 20 2%float Hk) as [bb ->].
  destruct (CalculateATR_Ret klines 14 Hk) as [atr ->].
  destruct (CalculateADX_Ret klines 14 Hk) as [adx ->].
  destruct (CalculateStochRSI_Ret klines 14 Hk) as [stoch ->].
  rewrite !bind_Ret.
  destruct (len klines >=? 28); rewrite !bind_Ret; now eexists.
Qed.

Lemma insufficient_test k1 k2 k3 :
  insufficient k1 k2 k3 ->
  (len k1 <? 55) || (len k2 <? 55) || (len k3 <? 55) = true.
Proof.
  unfold insufficient. intros Hi.
  destruct (Z.ltb_spec (len k1) 55); [reflexivity|].
  destruct (Z.ltb_spec (len k2) 55); [reflexivity|].
  destruct (Z.ltb_spec (len k3) 55); [reflexivity|lia].
Qed.

Lemma sufficient_test k1 k2 k3 :
  sufficient k1 k2 k3 ->
  (len k1 <? 55) || (len k2 <? 55) || (len k3 <? 55) = false.
Proof.
  unfold sufficient. intros (H1 & H2 & H3).
  destruct (Z.ltb_spec (len k1) 55); [lia|].
  destruct (Z.ltb_spec (len k2) 55); [lia|].
  destruct (Z.ltb_spec (len k3) 55); [lia|reflexivity].
Qed.

Lemma CalculateShortTermIndicators_insufficient symbol k1h k15m k5m now :
  insufficient k1h k15m k5m ->
  CalculateShortTermIndicators symbol k1h k15m k5m now = Ret None.
Proof.
  intros Hi. unfold CalculateShortTermIndicators.
  now rewrite insufficient_test.
Qed.

Lemma CalculateLongTermIndicators_insufficient symbol k4h k1h k15m now :
  insufficient k4h k1h k15m ->
  CalculateLongTermIndicators symbol k4h k1h k15m now = Ret None.
Proof.
  intros Hi. unfold CalculateLongTermIndicators.
  now rewrite insufficient_test.
Qed.

Lemma CalculateShortTermIndicators_sufficient symbol k1h k15m k5m now :
  sufficient k1h k15m k5m ->
  exists h1 m15 m5,
    CalculateShortTermIndicators symbol k1h k15m k5m now =
      Ret (Some {| Short_Symbol := symbol;
                   Short_Timestamp := now;
                   Short_MarketData := None;
                   Short_Timeframes :=
                     Some {| Short_H1 := Some h1;
                             Short_M15 := Some m15;
                             Short_M5 := Some m5 |} |}).
Proof.
  intros Hs. unfold CalculateShortTermIndicators.
  rewrite (sufficient_test _ _ _ Hs). destruct Hs as (H1 & H2 & H3).
  destruct (calculateTimeframeData_Ret k1h "1h") as [h1 ->]; [lia|].
  destruct (calculateTimeframeData_Ret k15m "15m") as [m15 ->]; [lia|].
  destruct (calculateTimeframeData_Ret k5m "5m") as [m5 ->]; [lia|].
  now exists h1, m15, m5.
Qed.

Lemma CalculateLongTermIndicators_sufficient symbol k4h k1h k15m now :
  sufficient k4h k1h k15m ->
  exists h4 h1 m15,
    CalculateLongTermIndicators symbol k4h k1h k15m now =
      Ret (Some {| Long_Symbol := symbol;
                   Long_Timestamp := now;
                   Long_MarketData := None;
                   Long_Timeframes :=
                     Some {| Long_H4 := Some h4;
                             Long_H1 := Some h1;
                             Long_M15 := Some m15 |} |}).
Proof.
  intros Hs. unfold CalculateLongTermIndicators.
  rewrite (sufficient_test _ _ _ Hs). destruct Hs as (H1 & H2 & H3).
  destruct (calculateTimeframeData_Ret k4h "4h") as [h4 ->]; [lia|].
  destruct (calculateTimeframeData_Ret k1h "1h") as [h1 ->]; [lia|].
  destruct (calculateTimeframeData_Ret k15m "15m") as [m15 ->]; [lia|].
  now exists h4, h1, m15.
Qed.

(** *** The values of a populated block *)

Lemma index_last_value (s : list float64) :
  0 < len s -> index s (len s - 1) = Ret (lastOf s).
Proof.
  intros Hs. destruct (index_Ret s (len s - 1)) as (x & -> & Hx); [lia|].
  unfold lastOf. rewrite last_lookup.
  replace (Nat.pred (length s)) with (Z.to_nat (len s - 1))
    by (unfold len; lia).
  now rewrite Hx.
Qed.

Lemma index_same_value (s t : list float64) :
  0 < len s -> length t = length s -> index t (len s - 1) = Ret (lastOf t).
Proof.
  intros Hs Hlen. replace (len s) with (len t) by (unfold len; lia).
  apply index_last_value. unfold len in *. lia.
Qed.

Lemma closes_nonempty klines :
  0 < len klines -> 0 < len (extractCloses klines).
Proof. now rewrite extractCloses_len. Qed.

Lemma CalculateEMA_value klines period :
  0 < len klines -> period <= len klines ->
  CalculateEMA klines period =
    Ret (formatPrice (lastOf (Ema (extractCloses klines) period))).
Proof.
  intros Hk Hp. unfold CalculateEMA.
  destruct (Z.ltb_spec (len klines) period); [lia|].
  rewrite index_last_value; [reflexivity|].
  unfold len. rewrite Ema_len. now apply closes_nonempty.
Qed.

Lemma CalculateRSI_value klines period :
  0 < len klines -> wrap_int (period + 1) <= len klines ->
  CalculateRSI klines period =
    Ret (formatPercent (lastOf (Rsi (extractCloses klines) period))).
Proof.
  intros Hk Hp. unfold CalculateRSI.
  destruct (Z.ltb_spec (len klines) (wrap_int (period + 1))); [lia|].
  rewrite index_last_value; [reflexivity|].
  unfold len. rewrite Rsi_len. now apply closes_nonempty.
Qed.

Lemma CalculateATR_value klines period :
  0 < len klines -> wrap_int (period + 1) <= len klines ->
  CalculateATR klines period =
    Ret (formatPrice (lastOf (Atr (extractHLC klines).1.1
                                  (extractHLC klines).1.2
                                  (extractCloses klines) period))).
Proof.
  intros Hk Hp. unfold CalculateATR, extractHLC, extractCloses.
  destruct (Z.ltb_spec (len klines) (wrap_int (period + 1))); [lia|].
  cbn [fst snd]. rewrite index_last_value; [reflexivity|].
  unfold len. rewrite Atr_len, length_map. exact Hk.
Qed.

Lemma CalculateADX_value klines period :
  0 < len klines -> wrap_int (period * 2) <= len klines ->
  CalculateADX klines period =
    Ret (formatPercent (lastOf (Adx (extractHLC klines).1.1
                                    (extractHLC klines).1.2
                                    (extractCloses klines) period))).
Proof.
  intros Hk Hp. unfold CalculateADX, extractHLC, extractCloses.
  destruct (Z.ltb_spec (len klines) (wrap_int (period * 2))); [lia|].
  cbn [fst snd]. rewrite index_last_value; [reflexivity|].
  unfold len. rewrite Adx_len, length_map. exact Hk.
Qed.

Lemma CalculateMACD_value klines :
  26 <= len klines ->
  CalculateMACD klines =
    Ret (Some {| DIF := formatMACD (lastOf (Macd (extractCloses klines) 12 26 9).1.1);
                 DEA := formatMACD (lastOf (Macd (extractCloses klines) 12 26 9).1.2);
                 Histogram :=
                   formatMACD (lastOf (Macd (extractCloses klines) 12 26 9).2) |}).
Proof.
  intros Hk. unfold CalculateMACD.
  destruct (Z.ltb_spec (len klines) 26); [lia|].
  pose proof (Macd_len (extractCloses klines) 12 26 9) as (Hl1 & Hl2 & Hl3).
  destruct (Macd (extractCloses klines) 12 26 9) as [[macd signal] histogram].
  cbn [fst snd] in *.
  assert (Hm : 0 < len macd).
  { unfold len. rewrite Hl1. apply closes_nonempty. lia. }
  rewrite (index_last_value macd Hm).
  rewrite (index_same_value macd signal Hm) by congruence.
  rewrite (index_same_value macd histogram Hm) by congruence.
  reflexivity.
Qed.

Lemma CalculateBollingerBands_value klines period stdDev :
  0 < len klines -> period <= len klines ->
  CalculateBollingerBands klines period stdDev =
    Ret (Some {| Upper := formatPrice (lastOf (BBands (extractCloses klines) period stdDev stdDev SMA).1.1);
                 Middle := formatPrice (lastOf (BBands (extractCloses klines) period stdDev stdDev SMA).1.2);
                 Lower := formatPrice (lastOf (BBands (extractCloses klines) period stdDev stdDev SMA).2) |}).
Proof.
  intros Hk Hp. unfold CalculateBollingerBands.
  destruct (Z.ltb_spec (len klines) period); [lia|].
  pose proof (BBands_len (extractCloses klines) period stdDev stdDev SMA)
    as (Hl1 & Hl2 & Hl3).
  destruct (BBands (extractCloses klines) period stdDev stdDev SMA)
    as [[upper middle] lower].
  cbn [fst snd] in *.
  assert (Hm : 0 < len upper).
  { unfold len. rewrite Hl1. now apply closes_nonempty. }
  rewrite (index_last_value upper Hm).
  rewrite (index_same_value upper middle Hm) by congruence.
  rewrite (index_same_value upper lower Hm) by congruence.
  reflexivity.
Qed.

Lemma CalculateStochRSI_value klines period :
  0 < len klines -> wrap_int (period * 2) <= len klines ->
  CalculateStochRSI klines period =
    Ret (Some {| StochRSI_K := formatPercent (lastOf (StochRsi (extractCloses klines) period 5 3 SMA).1);
                 StochRSI_D := formatPercent (lastOf (StochRsi (extractCloses klines) period 5 3 SMA).2) |}).
Proof.
  intros Hk Hp. unfold CalculateStochRSI.
  destruct (Z.ltb_spec (len klines) (wrap_int (period * 2))); [lia|].
  pose proof (StochRsi_len (extractCloses klines) period 5 3 SMA) as (Hl1 & Hl2).
  destruct (StochRsi (extractCloses klines) period 5 3 SMA) as [fastK fastD].
  cbn [fst snd] in *.
  assert (Hm : 0 < len fastK).
  { unfold len. rewrite Hl1. now apply closes_nonempty. }
  rewrite (index_last_value fastK Hm).
  rewrite (index_same_value fastK fastD Hm) by congruence.
  reflexivity.
Qed.

(** From 55 candles on every guard of [calculateTimeframeData] lets the
    series through and every read hits: the block is the populated one. *)
Lemma calculateTimeframeData_block klines timeframe :
  55 <= len klines ->
  exists data,
    blockOf klines = Some data /\
    calculateTimeframeData klines timeframe = Ret (Some data).
Proof.
  intros Hk. assert (Hpos : 0 < len klines) by lia.
  unfold calculateTimeframeData, blockOf.
  destruct (Z.eqb_spec (len klines) 0) as [?|_]; [lia|].
  destruct (index_Ret klines (len klines - 1)) as (k & -> & Hlast); [lia|].
  rewrite last_lookup.
  replace (Nat.pred (length klines)) with (Z.to_nat (len klines - 1))
    by (unfold len; lia).
  rewrite Hlast. cbn [fmap option_fmap option_map].
  rewrite !CalculateEMA_value by lia.
  rewrite CalculateMACD_value by lia.
  rewrite CalculateRSI_value by (change (wrap_int (14 + 1)) with 15; lia).
  rewrite CalculateBollingerBands_value by lia.
  rewrite CalculateATR_value by (change (wrap_int (14 + 1)) with 15; lia).
  rewrite !bind_Ret.
  destruct (Z.geb_spec (len klines) 28) as [_|?]; [|lia].
  rewrite CalculateADX_value by (change (wrap_int (14 * 2)) with 28; lia).
  rewrite CalculateStochRSI_value by (change (wrap_int (14 * 2)) with 28; lia).
  rewrite !bind_Ret.
  eexists. split; reflexivity.
Qed.

Lemma CalculateShortTermIndicators_blocks symbol k1h k15m k5m now :
  sufficient k1h k15m k5m ->
  exists h1 m15 m5,
    blockOf k1h = Some h1 /\ blockOf k15m = Some m15 /\
    blockOf k5m = Some m5 /\
    CalculateShortTermIndicators symbol k1h k15m k5m now =
      Ret (Some {| Short_Symbol := symbol;
                   Short_Timestamp := now;
                   Short_MarketData := None;
                   Short_Timeframes :=
                     Some {| Short_H1 := Some h1;
                             Short_M15 := Some m15;
                             Short_M5 := Some m5 |} |}).
Proof.
  intros Hs. unfold CalculateShortTermIndicators.
  rewrite (sufficient_test _ _ _ Hs). destruct Hs as (H1 & H2 & H3).
  destruct (calculateTimeframeData_block k1h "1h" H1) as (h1 & Hb1 & ->).
  destruct (calculateTimeframeData_block k15m "15m" H2) as (m15 & Hb2 & ->).
  destruct (calculateTimeframeData_block k5m "5m" H3) as (m5 & Hb3 & ->).
  now exists h1, m15, m5.
Qed.

Lemma CalculateLongTermIndicators_blocks symbol k4h k1h k15m now :
  sufficient k4h k1h k15m ->
  exists h4 h1 m15,
    blockOf k4h = Some h4 /\ blockOf k1h = Some h1 /\
    blockOf k15m = Some m15 /\
    CalculateLongTermIndicators symbol k4h k1h k15m now =
      Ret (Some {| Long_Symbol := symbol;
                   Long_Timestamp := now;
                   Long_MarketData := None;
                   Long_Timeframes :=
                     Some {| Long_H4 := Some h4;
                             Long_H1 := Some h1;
                             Long_M15 := Some m15 |} |}).
Proof.
  intros Hs. unfold CalculateLongTermIndicators.
  rewrite (sufficient_test _ _ _ Hs). destruct Hs as (H1 & H2 & H3).
  destruct (calculateTimeframeData_block k4h "4h" H1) as (h4 & Hb1 & ->).
  destruct (calculateTimeframeData_block k1h "1h" H2) as (h1 & Hb2 & ->).
  destruct (calculateTimeframeData_block k15m "15m" H3) as (m15 & Hb3 & ->).
  now exists h4, h1, m15.
Qed.

(** C5: with a series shorter than 55 among the three, both pipelines
    return nil; with all three at least 55 long, both return a snapshot
    (no market data yet) whose three timeframe blocks are all present and
    populated: each block holds the prices and the volume of the last
    candle of its series and the last values of the indicator series
    computed over that series, with MACD, the Bollinger bands and StochRSI
    filled in. *)
Theorem pipeline_needs_55_candles symbol k1 k2 k3 now :
  (insufficient k1 k2 k3 ->
     CalculateShortTermIndicators symbol k1 k2 k3 now = Ret None /\
     CalculateLongTermIndicators symbol k1 k2 k3 now = Ret None) /\
  (sufficient k1 k2 k3 ->
     exists b1 b2 b3,
       blockOf k1 = Some b1 /\ blockOf k2 = Some b2 /\ blockOf k3 = Some b3 /\
       is_Some (MACD b1) /\ is_Some (BB b1) /\ is_Some (StochRSI b1) /\
       is_Some (MACD b2) /\ is_Some (BB b2) /\ is_Some (StochRSI b2) /\
       is_Some (MACD b3) /\ is_Some (BB b3) /\ is_Some (StochRSI b3) /\
       CalculateShortTermIndicators symbol k1 k2 k3 now =
         Ret (Some {| Short_Symbol := symbol;
                      Short_Timestamp := now;
                      Short_MarketData := None;
                      Short_Timeframes :=
                        Some {| Short_H1 := Some b1;
                                Short_M15 := Some b2;
                                Short_M5 := Some b3 |} |}) /\
       CalculateLongTermIndicators symbol k1 k2 k3 now =
         Ret (Some {| Long_Symbol := symbol;
                      Long_Timestamp := now;
                      Long_MarketData := None;
                      Long_Timeframes :=
                        Some {| Long_H4 := Some b1;
                                Long_H1 := Some b2;
                                Long_M15 := Some b3 |} |})).
Proof.
  split.
  - intros Hi. split.
    + now apply CalculateShortTermIndicators_insufficient.
    + now apply CalculateLongTermIndicators_insufficient.
  - intros Hs.
    destruct (CalculateShortTermIndicators_blocks symbol k1 k2 k3 now Hs)
      as (b1 & b2 & b3 & Hb1 & Hb2 & Hb3 & Hshort).
    destruct (CalculateLongTermIndicators_blocks symbol k1 k2 k3 now Hs)
      as (c1 & c2 & c3 & Hc1 & Hc2 & Hc3 & Hlong).
    rewrite Hb1 in Hc1. rewrite Hb2 in Hc2. rewrite Hb3 in Hc3.
    injection Hc1 as <-. injection Hc2 as <-. injection Hc3 as <-.
    exists b1, b2, b3.
    split; [exact Hb1|]. split; [exact Hb2|]. split; [exact Hb3|].
    assert (Hfull : forall k b, blockOf k = Some b ->
              is_Some (MACD b) /\ is_Some (BB b) /\ is_Some (StochRSI b)).
    { intros k b. unfold blockOf. destruct (last k); [|discriminate].
      intros [= <-]. cbn. eauto. }
    destruct (Hfull _ _ Hb1) as (? & ? & ?).
    destruct (Hfull _ _ Hb2) as (? & ? & ?).
    destruct (Hfull _ _ Hb3) as (? & ? & ?).
    do 9 (split; [assumption|]). split; [exact Hshort|exact Hlong].
Qed.

(** *** With market data *)

Lemma ShortWithMarket_insufficient symbol k1h k15m k5m client oiCache now :
  insufficient k1h k15m k5m ->
  CalculateShortTermIndicatorsWithMarket symbol k1h k15m k5m client oiCache now
    = Ret None.
Proof.
  intros Hi. unfold CalculateShortTermIndicatorsWithMarket.
  now rewrite CalculateShortTermIndicators_insufficient.
Qed.

Lemma LongWithMarket_insufficient symbol k4h k1h k15m client oiCache now :
  insufficient k4h k1h k15m ->
  CalculateLongTermIndicatorsWithMarket symbol k4h k1h k15m client oiCache now
    = Ret None.
Proof.
  intros Hi. unfold CalculateLongTermIndicatorsWithMarket.
  now rewrite CalculateLongTermIndicators_insufficient.
Qed.

(** Past the 55-candle test, the outcome of the market-data variant is
    decided by [CalculateMarketData] alone: a nil there is dereferenced. *)
Lemma ShortWithMarket_sufficient symbol k1h k15m k5m now :
  sufficient k1h k15m k5m ->
  exists indicators m5,
    CalculateShortTermIndicators symbol k1h k15m k5m now = Ret (Some indicators) /\
    Short_Symbol indicators = symbol /\
    Short_MarketData indicators = None /\
    forall client oiCache,
      CalculateShortTermIndicatorsWithMarket
        symbol k1h k15m k5m client oiCache now =
      (marketData ← CalculateMarketData client symbol (ClosePrice m5) oiCache;
       match marketData with
       | Some _ => Ret (Some (set_Short_MarketData marketData indicators))
       | None => Panic
       end).
Proof.
  intros Hs.
  destruct (CalculateShortTermIndicators_sufficient symbol _ _ _ now Hs)
    as (h1 & m15 & m5 & Hind).
  eexists _, m5. split; [exact Hind|]. do 2 (split; [reflexivity|]).
  intros client oiCache. unfold CalculateShortTermIndicatorsWithMarket.
  rewrite Hind. cbn.
  destruct (CalculateMarketData client symbol (ClosePrice m5) oiCache)
    as [[md|]|]; reflexivity.
Qed.

Lemma LongWithMarket_sufficient symbol k4h k1h k15m now :
  sufficient k4h k1h k15m ->
  exists indicators m15,
    CalculateLongTermIndicators symbol k4h k1h k15m now = Ret (Some indicators) /\
    Long_Symbol indicators = symbol /\
    Long_MarketData indicators = None /\
    forall client oiCache,
      CalculateLongTermIndicatorsWithMarket
        symbol k4h k1h k15m client oiCache now =
      (marketData ← CalculateMarketData client symbol (ClosePrice m15) oiCache;
       match marketData with
       | Some _ => Ret (Some (set_Long_MarketData marketData indicators))
       | None => Panic
       end).
Proof.
  intros Hs.
  destruct (CalculateLongTermIndicators_sufficient symbol _ _ _ now Hs)
    as (h4 & h1 & m15 & Hind).
  eexists _, m15. split; [exact Hind|]. do 2 (split; [reflexivity|]).
  intros client oiCache. unfold CalculateLongTermIndicatorsWithMarket.
  rewrite Hind. cbn.
  destruct (CalculateMarketData client symbol (ClosePrice m15) oiCache)
    as [[md|]|]; reflexivity.
Qed.

Lemma marketDataFails_None client symbol currentPrice oiCache :
  marketDataFails client symbol ->
  CalculateMarketData client symbol currentPrice oiCache = Ret None.
Proof.
  intros [Hoi|Hf]; apply CalculateMarketData_failed; auto.
Qed.

Lemma CalculateShortTermIndicators_no_market symbol k1h k15m k5m now ind :
  CalculateShortTermIndicators symbol k1h k15m k5m now = Ret (Some ind) ->
  Short_MarketData ind = None.
Proof.
  unfold CalculateShortTermIndicators.
  destruct ((len k1h <? 55) || (len k15m <? 55) || (len k5m <? 55));
    [discriminate|].
  intros Hrun.
  apply bind_Ret_inv in Hrun as (h1 & _ & Hrun).
  apply bind_Ret_inv in Hrun as (m15 & _ & Hrun).
  apply bind_Ret_inv in Hrun as (m5 & _ & Hrun).
  apply bind_Ret_inv in Hrun as (? & _ & Hrun).
  apply bind_Ret_inv in Hrun as (? & _ & Hrun).
  apply bind_Ret_inv in Hrun as (? & _ & Hrun).
  now injection Hrun as <-.
Qed.

Lemma CalculateLongTermIndicators_no_market symbol k4h k1h k15m now ind :
  CalculateLongTermIndicators symbol k4h k1h k15m now = Ret (Some ind) ->
  Long_MarketData ind = None.
Proof.
  unfold CalculateLongTermIndicators.
  destruct ((len k4h <? 55) || (len k1h <? 55) || (len k15m <? 55));
    [discriminate|].
  intros Hrun.
  apply bind_Ret_inv in Hrun as (h4 & _ & Hrun).
  apply bind_Ret_inv in Hrun as (h1 & _ & Hrun).
  apply bind_Ret_inv in Hrun as (m15 & _ & Hrun).
  apply bind_Ret_inv in Hrun as (? & _ & Hrun).
  apply bind_Ret_inv in Hrun as (? & _ & Hrun).
  apply bind_Ret_inv in Hrun as (? & _ & Hrun).
  now injection Hrun as <-.
Qed.

(** The market data of a snapshot is what [CalculateMarketData] returned. *)
Lemma ShortWithMarket_market_data
    symbol k1h k15m k5m client oiCache now result md :
  CalculateShortTermIndicatorsWithMarket symbol k1h k15m k5m client oiCache now
    = Ret (Some result) ->
  Short_MarketData result = Some md ->
  exists currentPrice,
    CalculateMarketData client symbol currentPrice oiCache = Ret (Some md).
Proof.
  unfold CalculateShortTermIndicatorsWithMarket. intros Hrun Hmd.
  apply bind_Ret_inv in Hrun as ([ind|] & Hind & Hrun); [|discriminate].
  apply bind_Ret_inv in Hrun as (timeframes & _ & Hrun).
  apply bind_Ret_inv in Hrun as (m5 & _ & Hrun).
  apply bind_Ret_inv in Hrun as (marketData & Hmarket & Hrun).
  apply bind_Ret_inv in Hrun as (md' & Hderef & Hrun).
  destruct marketData as [md0|]; [|discriminate].
  injection Hrun as <-. cbn in Hmd. injection Hmd as ->.
  now exists (ClosePrice m5).
Qed.

Lemma LongWithMarket_market_data
    symbol k4h k1h k15m client oiCache now result md :
  CalculateLongTermIndicatorsWithMarket symbol k4h k1h k15m client oiCache now
    = Ret (Some result) ->
  Long_MarketData result = Some md ->
  exists currentPrice,
    CalculateMarketData client symbol currentPrice oiCache = Ret (Some md).
Proof.
  unfold CalculateLongTermIndicatorsWithMarket. intros Hrun Hmd.
  apply bind_Ret_inv in Hrun as ([ind|] & Hind & Hrun); [|discriminate].
  apply bind_Ret_inv in Hrun as (timeframes & _ & Hrun).
  apply bind_Ret_inv in Hrun as (m15 & _ & Hrun).
  apply bind_Ret_inv in Hrun as (marketData & Hmarket & Hrun).
  apply bind_Ret_inv in Hrun as (md' & Hderef & Hrun).
  destruct marketData as [md0|]; [|discriminate].
  injection Hrun as <-. cbn in Hmd. injection Hmd as ->.
  now exists (ClosePrice m15).
Qed.

(** C8: in every market-data value produced, by [CalculateMarketData] and
    hence in every snapshot of the two market-data pipelines (the plain
    pipelines carry none), OIChange45m is present exactly when OIChange25m
    is, with the same value, and OIChange75m is nil. *)
Theorem OIChange45m_mirrors_OIChange25m
    client symbol currentPrice oiCache k1 k2 k3 now md :
  (CalculateMarketData client symbol currentPrice oiCache = Ret (Some md) ->
   mirrored md) /\
  (forall result,
     CalculateShortTermIndicatorsWithMarket symbol k1 k2 k3 client oiCache now
       = Ret (Some result) ->
     Short_MarketData result = Some md -> mirrored md) /\
  (forall result,
     CalculateLongTermIndicatorsWithMarket symbol k1 k2 k3 client oiCache now
       = Ret (Some result) ->
     Long_MarketData result = Some md -> mirrored md) /\
  (forall result,
     CalculateShortTermIndicators symbol k1 k2 k3 now = Ret (Some result) ->
     Short_MarketData result = None) /\
  (forall result,
     CalculateLongTermIndicators symbol k1 k2 k3 now = Ret (Some result) ->
     Long_MarketData result = None).
Proof.
  split; [apply CalculateMarketData_mirror|].
  split; [|split; [|split]].
  - intros result Hrun Hmd.
    destruct (ShortWithMarket_market_data _ _ _ _ _ _ _ _ _ Hrun Hmd)
      as [price Hprice].
    exact (CalculateMarketData_mirror _ _ _ _ _ Hprice).
  - intros result Hrun Hmd.
    destruct (LongWithMarket_market_data _ _ _ _ _ _ _ _ _ Hrun Hmd)
      as [price Hprice].
    exact (CalculateMarketData_mirror _ _ _ _ _ Hprice).
  - intros result. apply CalculateShortTermIndicators_no_market.
  - intros result. apply CalculateLongTermIndicators_no_market.
Qed.

(** C2 (what the code does): with enough candles and a failing market-data
    fetch, the indicators are computed, and both market-data variants then
    panic on the nil [marketData] they log instead of returning them. *)
Theorem WithMarket_panics_on_fetch_failure
    symbol k1 k2 k3 client oiCache now :
  sufficient k1 k2 k3 ->
  marketDataFails client symbol ->
  (exists indicators,
     CalculateShortTermIndicators symbol k1 k2 k3 now = Ret (Some indicators) /\
     CalculateShortTermIndicatorsWithMarket symbol k1 k2 k3 client oiCache now
       = Panic) /\
  (exists indicators,
     CalculateLongTermIndicators symbol k1 k2 k3 now = Ret (Some indicators) /\
     CalculateLongTermIndicatorsWithMarket symbol k1 k2 k3 client oiCache now
       = Panic).
Proof.
  intros Hs Hfail. split.
  - destruct (ShortWithMarket_sufficient symbol _ _ _ now Hs)
      as (ind & m5 & Hind & _ & _ & ->).
    exists ind. split; [exact Hind|]. now rewrite marketDataFails_None.
  - destruct (LongWithMarket_sufficient symbol _ _ _ now Hs)
      as (ind & m15 & Hind & _ & _ & ->).
    exists ind. split; [exact Hind|]. now rewrite marketDataFails_None.
Qed.

End Pipeline.

Lemma demo_talib_len : @TalibLen demo.talib.
Proof. constructor; intros; cbn; repeat split; reflexivity. Qed.

Lemma pipeline_needs_55_candles_witness :
  @indicators.CalculateShortTermIndicators demo.strconv demo.talib "BTCUSDT"
     (demo.klines 55) (demo.klines 54) (demo.klines 55) 1700000000 = Ret None /\
  exists b,
    @indicators.CalculateShortTermIndicators demo.strconv demo.talib "BTCUSDT"
       (demo.klines 55) (demo.klines 55) (demo.klines 55) 1700000000 =
      Ret (Some {| indicators.Short_Symbol := "BTCUSDT";
                   indicators.Short_Timestamp := 1700000000;
                   indicators.Short_MarketData := None;
                   indicators.Short_Timeframes :=
                     Some {| indicators.Short_H1 := Some b;
                             indicators.Short_M15 := Some b;
                             indicators.Short_M5 := Some b |} |}) /\
    indicators.ClosePrice b = 105%float /\
    indicators.HighPrice b = 110%float /\
    indicators.EMA55 b = 105%float /\
    indicators.Volume b = 7%float /\
    is_Some (indicators.MACD b) /\ is_Some (indicators.StochRSI b).
Proof.
  split.
  - apply (@pipeline_needs_55_candles demo.strconv demo.talib demo_talib_len
             "BTCUSDT" (demo.klines 55) (demo.klines 54) (demo.klines 55)
             1700000000).
    right; left. reflexivity.
  - destruct (@pipeline_needs_55_candles demo.strconv demo.talib demo_talib_len
                "BTCUSDT"%string (demo.klines 55) (demo.klines 55)
                (demo.klines 55) 1700000000) as [_ Hfull].
    destruct Hfull
      as (b1 & b2 & b3 & Hb1 & Hb2 & Hb3 & Hmacd & _ & Hstoch & _ & _ & _ & _
          & _ & _ & Hshort & _).
    + repeat split; vm_compute; discriminate.
    + rewrite Hb1 in Hb2, Hb3. injection Hb2 as <-. injection Hb3 as <-.
      exists b1. split; [exact Hshort|].
      vm_compute in Hb1. injection Hb1 as <-.
      repeat split; try reflexivity; eauto.
Defined.

Lemma WithMarket_panics_on_fetch_failure_witness :
  @indicators.CalculateShortTermIndicatorsWithMarket demo.strconv demo.talib
     "BTCUSDT" (demo.klines 55) (demo.klines 55) (demo.klines 55)
     demo.clientNoOpenInterest (Some (demo.oiCache [200%float])) 1700000000
    = Panic /\
  @indicators.CalculateLongTermIndicatorsWithMarket demo.strconv demo.talib
     "BTCUSDT" (demo.klines 55) (demo.klines 55) (demo.klines 55)
     demo.clientNoOpenInterest (Some (demo.oiCache [200%float])) 1700000000
    = Panic.
Proof.
  destruct (@WithMarket_panics_on_fetch_failure demo.strconv demo.talib
              demo_talib_len "BTCUSDT"%string
              (demo.klines 55) (demo.klines 55) (demo.klines 55)
              demo.clientNoOpenInterest (Some (demo.oiCache [200%float]))
              1700000000)
    as [(? & _ & Hshort) (? & _ & Hlong)].
  - repeat split; vm_compute; discriminate.
  - left. intros currentPrice. reflexivity.
  - split; [exact Hshort|exact Hlong].
Defined.

Lemma OIChange45m_mirrors_OIChange25m_witness :
  exists md,
    @indicators.CalculateMarketData demo.strconv demo.client "BTCUSDT" 105
      (Some (demo.oiCache [200; 190; 180; 170; 160]%float)) = Ret (Some md) /\
    indicators.OIChange45m md = indicators.OIChange25m md /\
    indicators.OIChange25m md = Some 31.25%float /\
    indicators.OIChange75m md = None.
Proof.
  eexists. split; [vm_compute; reflexivity|].
  match goal with |- indicators.OIChange45m ?md = _ /\ _ =>
    destruct (@OIChange45m_mirrors_OIChange25m demo.strconv demo.talib
                demo.client "BTCUSDT"%string 105%float
                (Some (demo.oiCache [200; 190; 180; 170; 160]%float))
                [] [] [] 0 md) as [Hmirror _]
  end.
  destruct Hmirror as (H45 & _ & H75); [vm_compute; reflexivity|].
  split; [exact H45|]. split; [reflexivity|exact H75].
Defined.

(* ===================================================================== *)
(** ** History cache (oi_cache.go, market.go) *)
(* ===================================================================== *)

Lemma take_app_take {A} (n : nat) (a b : list A) :
  take n (a ++ take n b) = take n (a ++ b).
Proof.
  rewrite !take_app, take_take. f_equal. f_equal. lia.
Qed.

Lemma NewOICacheManager_wellFormed n : wellFormed (utils.NewOICacheManager n).
Proof.
  split.
  - cbn. destruct (Z.leb_spec n 0); lia.
  - intros key cache. cbn. rewrite lookup_empty. discriminate.
Qed.

(** One [Update]: the entry of [symbol] gets the new sample in front and is
    cut to the capacity; nothing else changes. *)
Lemma Update_spec m symbol oi timestamp :
  wellFormed m ->
  exists m',
    utils.Update m symbol oi timestamp = Ret m' /\
    wellFormed m' /\
    utils.maxSize m' = utils.maxSize m /\
    historyOf (utils.Get m' symbol) =
      take (Z.to_nat (utils.maxSize m)) (oi :: historyOf (utils.Get m symbol)) /\
    timestampsOf (utils.Get m' symbol) =
      take (Z.to_nat (utils.maxSize m))
           (timestamp :: timestampsOf (utils.Get m symbol)) /\
    forall other, other <> symbol -> utils.Get m' other = utils.Get m other.
Proof.
  intros [Hpos Hlen]. unfold utils.Update, utils.Get.
  set (cache := match utils.caches m !! symbol with
                | Some c => c
                | None => _
                end).
  assert (Hc : length (utils.OICache_Timestamps cache) =
               length (utils.OICache_History cache)).
  { subst cache. destruct (utils.caches m !! symbol) eqn:E; [|reflexivity].
    now apply (Hlen symbol). }
  assert (Hh : historyOf (utils.caches m !! symbol) = utils.OICache_History cache).
  { subst cache. now destruct (utils.caches m !! symbol). }
  assert (Ht : timestampsOf (utils.caches m !! symbol) =
               utils.OICache_Timestamps cache).
  { subst cache. now destruct (utils.caches m !! symbol). }
  rewrite Hh, Ht. clearbody cache.
  set (N := utils.maxSize m) in *.
  set (history := oi :: utils.OICache_History cache) in *.
  set (timestamps := timestamp :: utils.OICache_Timestamps cache) in *.
  assert (Hts : length timestamps = length history).
  { subst timestamps history. cbn [length]. lia. }
  assert (Hcut : exists h t,
    (if len history >? N
     then h ← slice_to history N; t ← slice_to timestamps N; mret (h, t)
     else mret (history, timestamps)) = Ret (h, t) /\
    h = take (Z.to_nat N) history /\
    t = take (Z.to_nat N) timestamps).
  { rewrite Z.gtb_ltb.
    destruct (Z.ltb_spec N (len history)) as [Hgt|Hle].
    - rewrite !slice_to_Ret.
      + eexists _, _. repeat split.
      + unfold len in *. lia.
      + unfold len in *. lia.
    - eexists _, _. split; [reflexivity|].
      unfold len in Hle.
      split; rewrite take_ge; auto; lia. }
  destruct Hcut as (h & t & -> & -> & ->).
  eexists. split; [reflexivity|]. cbn.
  split; [|split; [reflexivity|]].
  - split; [exact Hpos|]. intros key c. cbn.
    destruct (decide (key = symbol)) as [->|Hne].
    + rewrite lookup_insert_eq. intros [= <-]. cbn.
      unfold len. rewrite !length_take. lia.
    + rewrite lookup_insert_ne by congruence. apply Hlen.
  - rewrite lookup_insert_eq. cbn. repeat split.
    intros other Hne. now rewrite lookup_insert_ne by congruence.
Qed.

Lemma historyOf_bounded m key :
  wellFormed m ->
  (length (historyOf (utils.Get m key)) <= Z.to_nat (utils.maxSize m))%nat.
Proof.
  intros [Hpos Hlen]. unfold utils.Get.
  destruct (utils.caches m !! key) as [c|] eqn:E; cbn; [|lia].
  destruct (Hlen key c E) as [_ Hle]. unfold len in Hle. lia.
Qed.

Lemma applyUpdates_spec updates : forall m key,
  wellFormed m ->
  exists m',
    applyUpdates m updates = Ret m' /\
    wellFormed m' /\
    utils.maxSize m' = utils.maxSize m /\
    historyOf (utils.Get m' key) =
      take (Z.to_nat (utils.maxSize m))
           (rev (valuesFor key updates) ++ historyOf (utils.Get m key)).
Proof.
  induction updates as [|[[k v] t] updates IH]; intros m key Hwf.
  - exists m. cbn [applyUpdates valuesFor rev app].
    split; [reflexivity|]. split; [exact Hwf|]. split; [reflexivity|].
    symmetry. apply take_ge. now apply historyOf_bounded.
  - destruct (Update_spec m k v t Hwf)
      as (m1 & Hup & Hwf1 & Hmax1 & Hhist1 & _ & Hother).
    destruct (IH m1 key Hwf1) as (m' & Hrun & Hwf' & Hmax' & Hhist').
    exists m'. cbn [applyUpdates]. rewrite Hup, bind_Ret.
    split; [exact Hrun|]. split; [exact Hwf'|]. split; [congruence|].
    rewrite Hhist', Hmax1. cbn [valuesFor].
    destruct (decide (k = key)) as [->|Hne].
    + rewrite Hhist1. cbn [rev]. rewrite <- app_assoc. cbn [app].
      apply take_app_take.
    + rewrite Hother by congruence. reflexivity.
Qed.

(** The pure helper keeps the same prefix, for a capacity that is not
    negative. *)
Lemma UpdateOICache_spec cache newOI timestamp maxSize :
  0 <= maxSize ->
  (forall c, cache = Some c ->
     length (indicators.OICache_Timestamps c) =
     length (indicators.OICache_History c)) ->
  exists c',
    indicators.UpdateOICache cache newOI timestamp maxSize = Ret c' /\
    length (indicators.OICache_Timestamps c') =
      length (indicators.OICache_History c') /\
    indicators.OICache_History c' =
      take (Z.to_nat maxSize)
           (newOI :: from_option indicators.OICache_History [] cache).
Proof.
  intros Hmax Hlen. unfold indicators.UpdateOICache.
  set (c := match cache with Some c => c | None => _ end).
  assert (Hc : length (indicators.OICache_Timestamps c) =
               length (indicators.OICache_History c)).
  { subst c. destruct cache; [now apply Hlen|reflexivity]. }
  assert (Hh : from_option indicators.OICache_History [] cache =
               indicators.OICache_History c).
  { subst c. now destruct cache. }
  rewrite Hh. clearbody c.
  set (history := newOI :: indicators.OICache_History c).
  set (timestamps := timestamp :: indicators.OICache_Timestamps c).
  assert (Hts : length timestamps = length history).
  { subst timestamps history. cbn [length]. lia. }
  rewrite Z.gtb_ltb.
  destruct (Z.ltb_spec maxSize (len history)) as [Hgt|Hle].
  - rewrite !slice_to_Ret by (unfold len in *; lia).
    eexists. split; [reflexivity|]. cbn. split; [|reflexivity].
    rewrite !length_take. lia.
  - eexists. split; [reflexivity|]. cbn. split; [exact Hts|].
    symmetry. apply take_ge. unfold len in Hle. lia.
Qed.

(** A negative capacity makes the slice expression of the helper panic. *)
Lemma UpdateOICache_negative_capacity cache newOI timestamp maxSize :
  maxSize < 0 ->
  indicators.UpdateOICache cache newOI timestamp maxSize = Panic.
Proof.
  intros Hneg. unfold indicators.UpdateOICache.
  set (c := match cache with Some c => c | None => _ end).
  rewrite len_cons, Z.gtb_ltb.
  pose proof (len_nonneg (indicators.OICache_History c)).
  destruct (Z.ltb_spec maxSize (1 + len (indicators.OICache_History c)))
    as [_|?]; [|lia].
  rewrite !slice_to_negative by exact Hneg. reflexivity.
Qed.

Lemma applyUpdateOICache_spec samples maxSize : forall cache,
  0 <= maxSize ->
  (forall c, cache = Some c ->
     length (indicators.OICache_Timestamps c) =
       length (indicators.OICache_History c) /\
     len (indicators.OICache_History c) <= maxSize) ->
  exists cache',
    applyUpdateOICache cache samples maxSize = Ret cache' /\
    from_option indicators.OICache_History [] cache' =
      take (Z.to_nat maxSize)
           (rev (map fst samples) ++
            from_option indicators.OICache_History [] cache).
Proof.
  induction samples as [|[v t] samples IH]; intros cache Hmax Hwf.
  - exists cache. split; [reflexivity|]. cbn.
    symmetry. apply take_ge.
    destruct cache as [c|]; cbn; [|lia].
    destruct (Hwf c eq_refl) as [_ Hle]. unfold len in Hle. lia.
  - destruct (UpdateOICache_spec cache v t maxSize Hmax)
      as (c1 & Hup & Hlen1 & Hhist1).
    { intros c Hc. now apply Hwf. }
    destruct (IH (Some c1) Hmax) as (cache' & Hrun & Hhist').
    { intros c [= <-]. split; [exact Hlen1|].
      rewrite Hhist1. unfold len. rewrite length_take. lia. }
    exists cache'. cbn [applyUpdateOICache]. rewrite Hup, bind_Ret.
    split; [exact Hrun|].
    rewrite Hhist'. cbn [from_option map fst rev]. rewrite Hhist1.
    rewrite <- app_assoc. cbn [app]. apply take_app_take.
Qed.

(** C3: after any run of updates on a manager built by
    [NewOICacheManager], whose capacity is the requested one (5 when the
    request is not positive), [Get] shows at most capacity values, namely the
    newest capacity-many values written under that key, newest first.  The
    pure helper [UpdateOICache], threaded from nil with a capacity that is
    not negative, keeps the same. *)
Theorem cache_keeps_newest_maxSize
    (n : Z) (updates : list (string * float64 * Z)) (key : string)
    (samples : list (float64 * Z)) (maxSize : Z) :
  (exists m,
     applyUpdates (utils.NewOICacheManager n) updates = Ret m /\
     utils.maxSize m = (if n <=? 0 then 5 else n) /\
     historyOf (utils.Get m key) =
       take (Z.to_nat (utils.maxSize m)) (rev (valuesFor key updates)) /\
     len (historyOf (utils.Get m key)) <= utils.maxSize m /\
     len (historyOf (utils.Get m key)) =
       Z.min (utils.maxSize m) (len (valuesFor key updates))) /\
  (0 <= maxSize ->
   exists cache,
     applyUpdateOICache None samples maxSize = Ret cache /\
     from_option indicators.OICache_History [] cache =
       take (Z.to_nat maxSize) (rev (map fst samples)) /\
     len (from_option indicators.OICache_History [] cache) =
       Z.min maxSize (len samples)).
Proof.
  split.
  - destruct (applyUpdates_spec updates (utils.NewOICacheManager n) key
                (NewOICacheManager_wellFormed n))
      as (m & Hrun & Hwf & Hmax & Hhist).
    exists m. split; [exact Hrun|]. split; [exact Hmax|].
    assert (Hh : historyOf (utils.Get m key) =
                 take (Z.to_nat (utils.maxSize m)) (rev (valuesFor key updates))).
    { rewrite Hhist, Hmax. unfold utils.Get.
      cbn [utils.caches utils.NewOICacheManager].
      rewrite lookup_empty. cbn [historyOf]. now rewrite app_nil_r. }
    split; [exact Hh|].
    destruct Hwf as [Hpos _].
    rewrite Hh. unfold len. rewrite length_take, length_rev. lia.
  - intros Hmax.
    destruct (applyUpdateOICache_spec samples maxSize None Hmax)
      as (cache & Hrun & Hhist); [discriminate|].
    exists cache. split; [exact Hrun|].
    cbn [from_option] in Hhist. rewrite app_nil_r in Hhist.
    split; [exact Hhist|].
    rewrite Hhist. unfold len.
    rewrite length_take, length_rev, length_map. lia.
Qed.

Lemma cache_keeps_newest_maxSize_witness :
  (exists m,
     applyUpdates (utils.NewOICacheManager 5)
       (map (fun v => ("BTCUSDT"%string, float64_of_int v, 1700000000 + 300 * v))
            [10; 11; 12; 13; 14; 15; 16]) = Ret m /\
     historyOf (utils.Get m "BTCUSDT") = [16; 15; 14; 13; 12]%float) /\
  (exists cache,
     applyUpdateOICache None
       (map (fun v => (float64_of_int v, 1700000000 + 300 * v))
            [10; 11; 12; 13; 14; 15; 16]) 5 = Ret cache /\
     from_option indicators.OICache_History [] cache =
       [16; 15; 14; 13; 12]%float).
Proof.
  destruct (cache_keeps_newest_maxSize 5
    (map (fun v => ("BTCUSDT"%string, float64_of_int v, 1700000000 + 300 * v))
         [10; 11; 12; 13; 14; 15; 16])
    "BTCUSDT"
    (map (fun v => (float64_of_int v, 1700000000 + 300 * v))
         [10; 11; 12; 13; 14; 15; 16])
    5) as [(m & Hrun & Hmax & Hhist & _) Hpure].
  split.
  - exists m. split; [exact Hrun|]. rewrite Hhist, Hmax. reflexivity.
  - destruct Hpure as (cache & Hrun' & Hhist' & _); [lia|].
    exists cache. split; [exact Hrun'|]. rewrite Hhist'. reflexivity.
Defined.

Lemma wrap64_id z : int64 z -> utils.wrap64 z = z.
Proof.
  unfold int64, utils.wrap64. intros Hz.
  rewrite Z.mod_small; lia.
Qed.

(** C9: as long as the age [now - newest] fits in an int64, [IsExpired]
    returns true exactly for an unknown key, for an entry without samples,
    and for an entry whose newest sample is more than [maxAge] seconds
    old. *)
Theorem IsExpired_spec m symbol maxAge now :
  (forall latest,
     head (timestampsOf (utils.Get m symbol)) = Some latest ->
     int64 (now - latest)) ->
  exists expired,
    utils.IsExpired m symbol maxAge now = Ret expired /\
    (expired = true <->
       utils.Get m symbol = None \/
       (exists cache, utils.Get m symbol = Some cache /\
                      utils.OICache_Timestamps cache = []) \/
       (exists cache latest,
          utils.Get m symbol = Some cache /\
          head (utils.OICache_Timestamps cache) = Some latest /\
          maxAge < now - latest)).
Proof.
  intros Hfit. unfold utils.IsExpired.
  destruct (utils.Get m symbol) as [cache|] eqn:Hget.
  2:{ exists true. split; [reflexivity|]. split; auto. }
  cbn [timestampsOf] in Hfit.
  destruct (utils.OICache_Timestamps cache) as [|latest rest] eqn:Hts.
  { exists true. split; [reflexivity|]. split; [|reflexivity].
    intros _. right; left. now exists cache. }
  rewrite len_cons. pose proof (len_nonneg rest).
  destruct (Z.eqb_spec (1 + len rest) 0) as [?|_]; [lia|].
  change (index (latest :: rest) 0) with (Ret latest). rewrite bind_Ret.
  rewrite (wrap64_id (now - latest)) by (apply Hfit; reflexivity).
  eexists. split; [reflexivity|].
  rewrite Z.gtb_ltb, Z.ltb_lt. split.
  - intros Hold. right; right. exists cache, latest. rewrite Hts. auto.
  - intros [?|[(c & [= <-] & Hnil)|(c & l & [= <-] & Hhead & Hold)]].
    + discriminate.
    + rewrite Hts in Hnil. discriminate.
    + rewrite Hts in Hhead. injection Hhead as <-. exact Hold.
Qed.

Lemma IsExpired_spec_witness :
  utils.IsExpired
    {| utils.caches :=
         {[ "BTCUSDT"%string :=
              {| utils.OICache_Symbol := "BTCUSDT";
                 utils.OICache_History := [210%float];
                 utils.OICache_Timestamps := [1700000000] |} ]};
       utils.maxSize := 5 |}
    "BTCUSDT" 3600 1700003601 = Ret true.
Proof.
  destruct (IsExpired_spec
    {| utils.caches :=
         {[ "BTCUSDT"%string :=
              {| utils.OICache_Symbol := "BTCUSDT";
                 utils.OICache_History := [210%float];
                 utils.OICache_Timestamps := [1700000000] |} ]};
       utils.maxSize := 5 |}
    "BTCUSDT" 3600 1700003601) as (expired & Hrun & Hiff).
  - intros latest Hl. vm_compute in Hl. injection Hl as <-.
    unfold int64. lia.
  - rewrite Hrun. f_equal. apply Hiff. right; right.
    eexists _, 1700000000. split; [vm_compute; reflexivity|].
    split; [reflexivity|lia].
Defined.

(** Outside that range the subtraction wraps: a newest sample at the
    smallest int64 is reported fresh. *)
Lemma IsExpired_wraps :
  utils.IsExpired
    {| utils.caches :=
         {[ "BTCUSDT"%string :=
              {| utils.OICache_Symbol := "BTCUSDT";
                 utils.OICache_History := [210%float];
                 utils.OICache_Timestamps := [- 2 ^ 63] |} ]};
       utils.maxSize := 5 |}
    "BTCUSDT" 3600 1700000000 = Ret false.
Proof. vm_compute. reflexivity. Qed.

(* ===================================================================== *)
(** ** Per-tick fan-out (main.go) *)
(* ===================================================================== *)

Section Fanout.
Context {Hstrconv : Strconv} {Htalib : Talib} {HtalibLen : TalibLen}.

Import indicators.

Lemma marketDataOk_true client symbol :
  marketDataOk client symbol = true ->
  forall currentPrice, exists oiMetrics fundingMetrics,
    CalculateOIMetrics client symbol currentPrice = Some oiMetrics /\
    CalculateFundingMetrics client symbol = Some fundingMetrics.
Proof.
  unfold marketDataOk, CalculateOIMetrics. intros Hok currentPrice.
  destruct (binance.GetOpenInterest client symbol) as [oi|]; [|discriminate].
  destruct (ParseFloat (binance.OpenInterest_OpenInterest oi)) as [v [e|]];
    [discriminate|].
  destruct (CalculateFundingMetrics client symbol) as [f|]; [|discriminate].
  now eexists _, f.
Qed.

Lemma candlesOk_true client symbol i1 i2 i3 :
  candlesOk client symbol i1 i2 i3 = true ->
  exists k1 k2 k3,
    binance.GetKlines client symbol i1 100 = inl k1 /\
    binance.GetKlines client symbol i2 100 = inl k2 /\
    binance.GetKlines client symbol i3 100 = inl k3 /\
    sufficient k1 k2 k3.
Proof.
  unfold candlesOk, sufficient.
  destruct (binance.GetKlines client symbol i1 100) as [k1|]; [|discriminate].
  destruct (binance.GetKlines client symbol i2 100) as [k2|]; [|discriminate].
  destruct (binance.GetKlines client symbol i3 100) as [k3|]; [|discriminate].
  intros Hok. exists k1, k2, k3. repeat split; try reflexivity;
    destruct (Z.leb_spec 55 (len k1)); destruct (Z.leb_spec 55 (len k2));
    destruct (Z.leb_spec 55 (len k3)); try discriminate; lia.
Qed.

Lemma candlesOk_false_fetched client symbol i1 i2 i3 k1 k2 k3 :
  candlesOk client symbol i1 i2 i3 = false ->
  binance.GetKlines client symbol i1 100 = inl k1 ->
  binance.GetKlines client symbol i2 100 = inl k2 ->
  binance.GetKlines client symbol i3 100 = inl k3 ->
  insufficient k1 k2 k3.
Proof.
  unfold candlesOk, insufficient. intros Hok E1 E2 E3.
  rewrite E1, E2, E3 in Hok.
  destruct (Z.leb_spec 55 (len k1)); destruct (Z.leb_spec 55 (len k2));
    destruct (Z.leb_spec 55 (len k3)); try discriminate; lia.
Qed.

Lemma readOICache_history mgr symbol :
  OICache_History (main.readOICache mgr symbol) =
    historyOf (utils.Get mgr symbol).
Proof. unfold main.readOICache. now destruct (utils.Get mgr symbol). Qed.

(** A pair whose candles fail is skipped: nothing emitted, cache as it was,
    no panic. *)
Lemma processShortTermSymbol_skipped client mgr accountID now symbol :
  shortCandlesOk client symbol = false ->
  main.processShortTermSymbol client mgr accountID now symbol = Ret (mgr, []).
Proof.
  intros Hbad. unfold main.processShortTermSymbol.
  destruct (binance.GetKlines client symbol "1h" 100) as [k1|] eqn:E1;
    [|reflexivity].
  destruct (binance.GetKlines client symbol "15m" 100) as [k2|] eqn:E2;
    [|reflexivity].
  destruct (binance.GetKlines client symbol "5m" 100) as [k3|] eqn:E3;
    [|reflexivity].
  rewrite ShortWithMarket_insufficient; [reflexivity|].
  exact (candlesOk_false_fetched _ _ _ _ _ _ _ _ Hbad E1 E2 E3).
Qed.

Lemma processLongTermSymbol_skipped client mgr accountID now symbol :
  longCandlesOk client symbol = false ->
  main.processLongTermSymbol client mgr accountID now symbol = Ret (mgr, []).
Proof.
  intros Hbad. unfold main.processLongTermSymbol.
  destruct (binance.GetKlines client symbol "4h" 100) as [k1|] eqn:E1;
    [|reflexivity].
  destruct (binance.GetKlines client symbol "1h" 100) as [k2|] eqn:E2;
    [|reflexivity].
  destruct (binance.GetKlines client symbol "15m" 100) as [k3|] eqn:E3;
    [|reflexivity].
  rewrite LongWithMarket_insufficient; [reflexivity|].
  exact (candlesOk_false_fetched _ _ _ _ _ _ _ _ Hbad E1 E2 E3).
Qed.

(** A pair whose candles and market data are all there: the snapshot carries
    the market data assembled from the history read before the update, and
    the cache then takes the new open-interest value in front. *)
Lemma processShortTermSymbol_ready client mgr accountID now symbol :
  wellFormed mgr ->
  shortCandlesOk client symbol = true ->
  marketDataOk client symbol = true ->
  exists result oiMetrics fundingMetrics mgr',
    main.processShortTermSymbol client mgr accountID now symbol =
      Ret (mgr', [main.EmitShort accountID result]) /\
    Short_Symbol result = symbol /\
    Short_MarketData result =
      Some (assembled oiMetrics fundingMetrics
              (historyOf (utils.Get mgr symbol))) /\
    utils.Update mgr symbol
      (OICurrent (assembled oiMetrics fundingMetrics
                    (historyOf (utils.Get mgr symbol)))) now = Ret mgr' /\
    wellFormed mgr'.
Proof.
  intros Hwf Hcandles Hmarket. unfold main.processShortTermSymbol.
  destruct (candlesOk_true _ _ _ _ _ Hcandles)
    as (k1 & k2 & k3 & -> & -> & -> & Hs).
  destruct (ShortWithMarket_sufficient symbol _ _ _ now Hs)
    as (ind & m5 & _ & Hsym & _ & ->).
  destruct (marketDataOk_true _ _ Hmarket (ClosePrice m5))
    as (oi & f & Hoi & Hf).
  rewrite (CalculateMarketData_assembled _ _ _ _ _ _ Hoi Hf).
  rewrite readOICache_history, !bind_Ret.
  set (md := assembled oi f (historyOf (utils.Get mgr symbol))).
  destruct (Update_spec mgr symbol (OICurrent md) now Hwf)
    as (mgr' & Hup & Hwf' & _).
  exists (set_Short_MarketData (Some md) ind), oi, f, mgr'.
  cbn [Short_MarketData set_Short_MarketData Short_Symbol].
  rewrite Hup, bind_Ret.
  split; [reflexivity|]. split; [exact Hsym|]. split; [reflexivity|].
  split; [exact Hup|exact Hwf'].
Qed.

Lemma processLongTermSymbol_ready client mgr accountID now symbol :
  wellFormed mgr ->
  longCandlesOk client symbol = true ->
  marketDataOk client symbol = true ->
  exists result oiMetrics fundingMetrics mgr',
    main.processLongTermSymbol client mgr accountID now symbol =
      Ret (mgr', [main.EmitLong accountID result]) /\
    Long_Symbol result = symbol /\
    Long_MarketData result =
      Some (assembled oiMetrics fundingMetrics
              (historyOf (utils.Get mgr symbol))) /\
    utils.Update mgr symbol
      (OICurrent (assembled oiMetrics fundingMetrics
                    (historyOf (utils.Get mgr symbol)))) now = Ret mgr' /\
    wellFormed mgr'.
Proof.
  intros Hwf Hcandles Hmarket. unfold main.processLongTermSymbol.
  destruct (candlesOk_true _ _ _ _ _ Hcandles)
    as (k1 & k2 & k3 & -> & -> & -> & Hs).
  destruct (LongWithMarket_sufficient symbol _ _ _ now Hs)
    as (ind & m15 & _ & Hsym & _ & ->).
  destruct (marketDataOk_true _ _ Hmarket (ClosePrice m15))
    as (oi & f & Hoi & Hf).
  rewrite (CalculateMarketData_assembled _ _ _ _ _ _ Hoi Hf).
  rewrite readOICache_history, !bind_Ret.
  set (md := assembled oi f (historyOf (utils.Get mgr symbol))).
  destruct (Update_spec mgr symbol (OICurrent md) now Hwf)
    as (mgr' & Hup & Hwf' & _).
  exists (set_Long_MarketData (Some md) ind), oi, f, mgr'.
  cbn [Long_MarketData set_Long_MarketData Long_Symbol].
  rewrite Hup, bind_Ret.
  split; [reflexivity|]. split; [exact Hsym|]. split; [reflexivity|].
  split; [exact Hup|exact Hwf'].
Qed.


(** *** One pair: what is fetched, what is read, what is stored *)









(** *** A tick: the pairs in sequence *)







Lemma processShortTermStrategy_skips client symbols : forall mgr accountID now,
  wellFormed mgr ->
  Forall (fun symbol => shortCandlesOk client symbol = true ->
                        marketDataOk client symbol = true) symbols ->
  exists mgr' outs,
    main.processShortTermStrategy client symbols mgr accountID now =
      Ret (mgr', outs) /\
    wellFormed mgr' /\
    map emittedSymbol outs = List.filter (shortCandlesOk client) symbols.
Proof.
  induction symbols as [|symbol symbols IH]; intros mgr accountID now Hwf Hall.
  - exists mgr, []. split; [reflexivity|]. split; [exact Hwf|reflexivity].
  - inversion_clear Hall as [|? ? Hhead Htail].
    cbn [main.processShortTermStrategy List.filter].
    destruct (shortCandlesOk client symbol) eqn:Hcandles.
    + destruct (processShortTermSymbol_ready client mgr accountID now symbol
                  Hwf Hcandles (Hhead eq_refl))
        as (result & oi & f & mgr1 & Hstep & Hsym & _ & _ & Hwf1).
      destruct (IH mgr1 accountID now Hwf1 Htail)
        as (mgr' & outs & Hrest & Hwf' & Hsyms).
      exists mgr', (main.EmitShort accountID result :: outs).
      split; [|split; [exact Hwf'|]].
      * rewrite Hstep, bind_Ret. cbv beta iota. now rewrite Hrest.
      * cbn [map emittedSymbol]. now rewrite Hsym, Hsyms.
    + destruct (IH mgr accountID now Hwf Htail)
        as (mgr' & outs & Hrest & Hwf' & Hsyms).
      exists mgr', outs. split; [|split; [exact Hwf'|exact Hsyms]].
      rewrite processShortTermSymbol_skipped by exact Hcandles.
      rewrite bind_Ret. cbv beta iota. now rewrite Hrest.
Qed.

Lemma processLongTermStrategy_skips client symbols : forall mgr accountID now,
  wellFormed mgr ->
  Forall (fun symbol => longCandlesOk client symbol = true ->
                        marketDataOk client symbol = true) symbols ->
  exists mgr' outs,
    main.processLongTermStrategy client symbols mgr accountID now =
      Ret (mgr', outs) /\
    wellFormed mgr' /\
    map emittedSymbol outs = List.filter (longCandlesOk client) symbols.
Proof.
  induction symbols as [|symbol symbols IH]; intros mgr accountID now Hwf Hall.
  - exists mgr, []. split; [reflexivity|]. split; [exact Hwf|reflexivity].
  - inversion_clear Hall as [|? ? Hhead Htail].
    cbn [main.processLongTermStrategy List.filter].
    destruct (longCandlesOk client symbol) eqn:Hcandles.
    + destruct (processLongTermSymbol_ready client mgr accountID now symbol
                  Hwf Hcandles (Hhead eq_refl))
        as (result & oi & f & mgr1 & Hstep & Hsym & _ & _ & Hwf1).
      destruct (IH mgr1 accountID now Hwf1 Htail)
        as (mgr' & outs & Hrest & Hwf' & Hsyms).
      exists mgr', (main.EmitLong accountID result :: outs).
      split; [|split; [exact Hwf'|]].
      * rewrite Hstep, bind_Ret. cbv beta iota. now rewrite Hrest.
      * cbn [map emittedSymbol]. now rewrite Hsym, Hsyms.
    + destruct (IH mgr accountID now Hwf Htail)
        as (mgr' & outs & Hrest & Hwf' & Hsyms).
      exists mgr', outs. split; [|split; [exact Hwf'|exact Hsyms]].
      rewrite processLongTermSymbol_skipped by exact Hcandles.
      rewrite bind_Ret. cbv beta iota. now rewrite Hrest.
Qed.

(** C6: a pair whose candle fetch fails or whose candles are too few is
    skipped, emitting nothing and leaving the cache as it was; the loop
    goes on and returns normally, having emitted one snapshot for every
    other symbol of the pool, in pool order (their market-data fetches
    being up).  Both strategies. *)
Theorem candle_failures_are_skipped client symbols mgr accountID now :
  wellFormed mgr ->
  (forall symbol,
     (shortCandlesOk client symbol = false ->
      main.processShortTermSymbol client mgr accountID now symbol =
        Ret (mgr, [])) /\
     (longCandlesOk client symbol = false ->
      main.processLongTermSymbol client mgr accountID now symbol =
        Ret (mgr, []))) /\
  (Forall (fun symbol => shortCandlesOk client symbol = true ->
                         marketDataOk client symbol = true) symbols ->
   exists mgr' outs,
     main.processShortTermStrategy client symbols mgr accountID now =
       Ret (mgr', outs) /\
     map emittedSymbol outs = List.filter (shortCandlesOk client) symbols) /\
  (Forall (fun symbol => longCandlesOk client symbol = true ->
                         marketDataOk client symbol = true) symbols ->
   exists mgr' outs,
     main.processLongTermStrategy client symbols mgr accountID now =
       Ret (mgr', outs) /\
     map emittedSymbol outs = List.filter (longCandlesOk client) symbols).
Proof.
  intros Hwf. split; [|split].
  - intros symbol. split; intros Hbad.
    + now apply processShortTermSymbol_skipped.
    + now apply processLongTermSymbol_skipped.
  - intros Hall.
    destruct (processShortTermStrategy_skips client symbols mgr accountID now
                Hwf Hall) as (mgr' & outs & Hrun & _ & Hsyms).
    now exists mgr', outs.
  - intros Hall.
    destruct (processLongTermStrategy_skips client symbols mgr accountID now
                Hwf Hall) as (mgr' & outs & Hrun & _ & Hsyms).
    now exists mgr', outs.
Qed.

End Fanout.

Lemma candle_failures_are_skipped_witness :
  exists mgr' outs,
    @main.processShortTermStrategy demo.strconv demo.talib
       demo.clientNoEthCandles demo.pool (utils.NewOICacheManager 5)
       "account-1" 1700000000 = Ret (mgr', outs) /\
    map emittedSymbol outs =
      ["BTCUSDT"; "BNBUSDT"; "SOLUSDT"; "XRPUSDT"]%string.
Proof.
  destruct (@candle_failures_are_skipped demo.strconv demo.talib
              demo_talib_len demo.clientNoEthCandles demo.pool
              (utils.NewOICacheManager 5) "account-1"%string 1700000000
              (NewOICacheManager_wellFormed 5)) as (_ & Hshort & _).
  destruct Hshort as (mgr' & outs & Hrun & Hsyms).
  - repeat constructor; intros _; vm_compute; reflexivity.
  - exists mgr', outs. split; [exact Hrun|]. rewrite Hsyms.
    vm_compute. reflexivity.
Defined.



(* ===================================================================== *)
(** ** History cache: the rest of the manager (oi_cache.go) *)
(* ===================================================================== *)

(** What one [Update] stores, in full. *)
Lemma Update_entry m symbol oi timestamp :
  wellFormed m ->
  utils.Update m symbol oi timestamp =
    Ret {| utils.caches :=
             <[symbol :=
                 {| utils.OICache_Symbol :=
                      from_option utils.OICache_Symbol symbol
                                  (utils.Get m symbol);
                    utils.OICache_History :=
                      take (Z.to_nat (utils.maxSize m))
                           (oi :: historyOf (utils.Get m symbol));
                    utils.OICache_Timestamps :=
                      take (Z.to_nat (utils.maxSize m))
                           (timestamp :: timestampsOf (utils.Get m symbol)) |}]>
               (utils.caches m);
           utils.maxSize := utils.maxSize m |}.
Proof.
  intros [Hpos Hlen]. unfold utils.Update, utils.Get.
  set (cache := match utils.caches m !! symbol with
                | Some c => c
                | None => _
                end).
  assert (Hc : length (utils.OICache_Timestamps cache) =
               length (utils.OICache_History cache)).
  { subst cache. destruct (utils.caches m !! symbol) eqn:E; [|reflexivity].
    now apply (Hlen symbol). }
  assert (Hh : historyOf (utils.caches m !! symbol) = utils.OICache_History cache).
  { subst cache. now destruct (utils.caches m !! symbol). }
  assert (Ht : timestampsOf (utils.caches m !! symbol) =
               utils.OICache_Timestamps cache).
  { subst cache. now destruct (utils.caches m !! symbol). }
  assert (Hs : from_option utils.OICache_Symbol symbol (utils.caches m !! symbol)
               = utils.OICache_Symbol cache).
  { subst cache. now destruct (utils.caches m !! symbol). }
  rewrite Hh, Ht, Hs. clearbody cache.
  set (N := utils.maxSize m) in *.
  set (history := oi :: utils.OICache_History cache) in *.
  set (timestamps := timestamp :: utils.OICache_Timestamps cache) in *.
  assert (Hts : length timestamps = length history).
  { subst timestamps history. cbn [length]. lia. }
  rewrite Z.gtb_ltb.
  destruct (Z.ltb_spec N (len history)) as [Hgt|Hle].
  - rewrite !slice_to_Ret by (unfold len in *; lia). reflexivity.
  - unfold len in Hle. rewrite !take_ge by lia. reflexivity.
Qed.

(** The state every manager is in: what [NewOICacheManager] builds and
    [Update], [Clear], [ClearAll] and [CleanExpired] keep. *)
Lemma populated_wellFormed m : populated m -> wellFormed m.
Proof.
  intros [Hpos Hall]. split; [exact Hpos|].
  intros key cache Hget. destruct (Hall key cache Hget) as (_ & _ & ? & ?).
  now split.
Qed.

Lemma NewOICacheManager_populated n : populated (utils.NewOICacheManager n).
Proof.
  split.
  - cbn. destruct (Z.leb_spec n 0); lia.
  - intros key cache. cbn. rewrite lookup_empty. discriminate.
Qed.

Lemma Update_populated m symbol oi timestamp :
  populated m ->
  exists m', utils.Update m symbol oi timestamp = Ret m' /\ populated m'.
Proof.
  intros Hpop. pose proof (populated_wellFormed m Hpop) as Hwf.
  rewrite (Update_entry m symbol oi timestamp Hwf).
  eexists. split; [reflexivity|].
  destruct Hpop as [Hpos Hall]. split; [exact Hpos|].
  intros key cache. cbn [utils.caches utils.maxSize].
  destruct (decide (key = symbol)) as [->|Hne].
  - rewrite lookup_insert_eq. intros [= <-]. cbn.
    unfold utils.Get.
    destruct (utils.caches m !! symbol) as [c|] eqn:E; cbn.
    + destruct (Hall symbol c E) as (Hsym & Hne & Hlen & Hmax).
      unfold len in *. rewrite !length_take. cbn [length].
      repeat split; try lia. exact Hsym.
    + unfold len. rewrite !length_take. cbn [length].
      repeat split; lia.
  - rewrite lookup_insert_ne by congruence. apply Hall.
Qed.

Lemma Update_lookup m symbol oi timestamp m' key :
  wellFormed m ->
  utils.Update m symbol oi timestamp = Ret m' ->
  utils.maxSize m' = utils.maxSize m /\
  (key <> symbol -> utils.Get m' key = utils.Get m key) /\
  (key = symbol ->
   is_Some (utils.Get m' key) /\
   historyOf (utils.Get m' key) =
     take (Z.to_nat (utils.maxSize m)) (oi :: historyOf (utils.Get m key)) /\
   timestampsOf (utils.Get m' key) =
     take (Z.to_nat (utils.maxSize m))
          (timestamp :: timestampsOf (utils.Get m key))).
Proof.
  intros Hwf Hup. rewrite (Update_entry m symbol oi timestamp Hwf) in Hup.
  injection Hup as <-. split; [reflexivity|]. split.
  - intros Hne. unfold utils.Get. cbn [utils.caches].
    now rewrite lookup_insert_ne by congruence.
  - intros ->. unfold utils.Get. cbn [utils.caches].
    rewrite lookup_insert_eq. cbn.
    split; [eauto|]. split; reflexivity.
Qed.

Lemma applyUpdates_samples updates : forall m key,
  populated m ->
  exists m',
    applyUpdates m updates = Ret m' /\
    populated m' /\
    utils.maxSize m' = utils.maxSize m /\
    historyOf (utils.Get m' key) =
      take (Z.to_nat (utils.maxSize m))
           ((rev (samplesFor key updates)).*1 ++ historyOf (utils.Get m key)) /\
    timestampsOf (utils.Get m' key) =
      take (Z.to_nat (utils.maxSize m))
           ((rev (samplesFor key updates)).*2 ++ timestampsOf (utils.Get m key)) /\
    (utils.Get m' key = None <->
     utils.Get m key = None /\ samplesFor key updates = []).
Proof.
  induction updates as [|[[k v] t] updates IH]; intros m key Hpop.
  - exists m. cbn [applyUpdates samplesFor rev fmap list_fmap app].
    split; [reflexivity|]. split; [exact Hpop|]. split; [reflexivity|].
    destruct Hpop as [Hpos Hall]. unfold utils.Get.
    destruct (utils.caches m !! key) as [c|] eqn:E; cbn.
    + destruct (Hall key c E) as (_ & _ & Hlen & Hmax). unfold len in Hmax.
      rewrite !take_ge by lia.
      split; [reflexivity|]. split; [reflexivity|].
      split; [discriminate|intros [? _]; discriminate].
    + rewrite !take_nil. split; [reflexivity|]. split; [reflexivity|].
      split; auto.
  - destruct (Update_populated m k v t Hpop) as (m1 & Hup & Hpop1).
    pose proof (populated_wellFormed m Hpop) as Hwf.
    destruct (Update_lookup m k v t m1 key Hwf Hup) as (Hmax1 & Hother & Hsame).
    destruct (IH m1 key Hpop1) as (m' & Hrun & Hpop' & Hmax' & Hh & Ht & Hnone).
    exists m'. cbn [applyUpdates]. rewrite Hup, bind_Ret.
    split; [exact Hrun|]. split; [exact Hpop'|]. split; [congruence|].
    rewrite Hh, Ht, Hmax1. cbn [samplesFor].
    destruct (decide (k = key)) as [->|Hne].
    + destruct (Hsame eq_refl) as (Hsome & Hh1 & Ht1).
      rewrite Hh1, Ht1. cbn [rev]. rewrite !fmap_app, <- !app_assoc.
      cbn [fmap list_fmap app fst snd].
      split; [apply take_app_take|]. split; [apply take_app_take|].
      split.
      * intros Hn. apply Hnone in Hn as [Hn _].
        rewrite Hn in Hsome. now destruct Hsome.
      * intros [_ ?]. discriminate.
    + assert (Hne' : key <> k) by congruence.
      rewrite (Hother Hne') in *.
      split; [reflexivity|]. split; [reflexivity|exact Hnone].
Qed.

(** X1: values and timestamps stay paired.  After any run of updates on a
    fresh manager, a key that was written has an entry carrying that key
    whose values and timestamps are the two halves of the same newest
    capacity-many samples, so it is never empty; a key that was never
    written has no entry. *)
Theorem cache_samples_stay_paired
    (n : Z) (updates : list (string * float64 * Z)) (key : string) :
  exists m,
    applyUpdates (utils.NewOICacheManager n) updates = Ret m /\
    (utils.Get m key = None <-> samplesFor key updates = []) /\
    forall cache, utils.Get m key = Some cache ->
      let kept := take (Z.to_nat (utils.maxSize m))
                       (rev (samplesFor key updates)) in
      utils.OICache_Symbol cache = key /\
      utils.OICache_History cache = kept.*1 /\
      utils.OICache_Timestamps cache = kept.*2 /\
      kept <> [].
Proof.
  destruct (applyUpdates_samples updates (utils.NewOICacheManager n) key
              (NewOICacheManager_populated n))
    as (m & Hrun & Hpop & Hmax & Hh & Ht & Hnone).
  exists m. split; [exact Hrun|].
  assert (Hnew : utils.Get (utils.NewOICacheManager n) key = None).
  { unfold utils.Get. cbn. apply lookup_empty. }
  rewrite Hnew in Hh, Ht, Hnone. cbn [historyOf timestampsOf] in Hh, Ht.
  rewrite app_nil_r, <- fmap_take, <- Hmax in Hh.
  rewrite app_nil_r, <- fmap_take, <- Hmax in Ht.
  split; [rewrite Hnone; tauto|].
  intros cache Hget kept. rewrite Hget in Hh, Ht. cbn in Hh, Ht.
  destruct Hpop as [_ Hall]. destruct (Hall key cache Hget) as (Hsym & Hone & _).
  split; [exact Hsym|]. split; [exact Hh|]. split; [exact Ht|].
  intros Hkept. subst kept. rewrite Hkept in Hh. rewrite Hh in Hone.
  unfold len in Hone. cbn in Hone. lia.
Qed.

(** X2: an update writes under its own key only.  On a manager in use
    [Update] returns, keeps the manager's invariant and capacity, leaves the
    entry of every other key as it was, and raises the number of keys by one
    exactly when the key was not there. *)
Theorem Update_touches_one_key m symbol oi timestamp :
  populated m ->
  exists m',
    utils.Update m symbol oi timestamp = Ret m' /\
    populated m' /\
    (forall other, other <> symbol -> utils.Get m' other = utils.Get m other) /\
    utils.GetCacheCount m' =
      utils.GetCacheCount m + (match utils.Get m symbol with Some _ => 0 | None => 1 end) /\
    utils.maxSize m' = utils.maxSize m.
Proof.
  intros Hpop. destruct (Update_populated m symbol oi timestamp Hpop)
    as (m' & Hup & Hpop').
  exists m'. split; [exact Hup|]. split; [exact Hpop'|].
  pose proof (populated_wellFormed m Hpop) as Hwf.
  rewrite (Update_entry m symbol oi timestamp Hwf) in Hup.
  injection Hup as <-. split; [|split; [|reflexivity]].
  - intros other Hne. unfold utils.Get. cbn [utils.caches].
    now rewrite lookup_insert_ne by congruence.
  - unfold utils.GetCacheCount, utils.Get. cbn [utils.caches].
    rewrite map_size_insert.
    destruct (utils.caches m !! symbol); cbn; lia.
Qed.

Lemma Clear_populated m symbol : populated m -> populated (utils.Clear m symbol).
Proof.
  intros [Hpos Hall]. split; [exact Hpos|].
  intros key cache. cbn. intros Hget.
  apply lookup_delete_Some in Hget as [_ Hget]. now apply Hall.
Qed.

(** X3: [Clear] forgets one key and [ClearAll] all of them.  After
    [Clear] the key reads as absent, every other key reads as before, the
    count drops by one exactly when the key was there, and a later update
    of the key starts a one-sample history; after [ClearAll] every key is
    absent, the count is zero, the capacity is kept, and any later update
    starts a one-sample history. *)
Theorem Clear_forgets_one_key m symbol :
  populated m ->
  utils.Get (utils.Clear m symbol) symbol = None /\
  (forall other, other <> symbol ->
     utils.Get (utils.Clear m symbol) other = utils.Get m other) /\
  utils.GetCacheCount (utils.Clear m symbol) =
    utils.GetCacheCount m - (match utils.Get m symbol with Some _ => 1 | None => 0 end) /\
  (forall oi timestamp, exists m',
     utils.Update (utils.Clear m symbol) symbol oi timestamp = Ret m' /\
     utils.Get m' symbol =
       Some {| utils.OICache_Symbol := symbol;
               utils.OICache_History := [oi];
               utils.OICache_Timestamps := [timestamp] |}) /\
  (forall key, utils.Get (utils.ClearAll m) key = None) /\
  utils.GetCacheCount (utils.ClearAll m) = 0 /\
  utils.maxSize (utils.ClearAll m) = utils.maxSize m /\
  (forall key oi timestamp, exists m',
     utils.Update (utils.ClearAll m) key oi timestamp = Ret m' /\
     historyOf (utils.Get m' key) = [oi]).
Proof.
  intros Hpop.
  assert (Hget : utils.Get (utils.Clear m symbol) symbol = None).
  { unfold utils.Get, utils.Clear. cbn. apply lookup_delete_eq. }
  split; [exact Hget|]. split; [|split; [|split; [|split; [|split; [|split]]]]].
  - intros other Hne. unfold utils.Get, utils.Clear. cbn.
    now rewrite lookup_delete_ne by congruence.
  - unfold utils.GetCacheCount, utils.Get, utils.Clear. cbn.
    rewrite map_size_delete.
    destruct (utils.caches m !! symbol) eqn:E; cbn; [|lia].
    assert (size (utils.caches m) <> 0%nat); [|lia].
    apply map_size_non_empty_iff. intros Hemp. rewrite Hemp in E.
    now rewrite lookup_empty in E.
  - intros oi timestamp.
    pose proof (populated_wellFormed _ (Clear_populated m symbol Hpop)) as Hwf.
    rewrite (Update_entry _ symbol oi timestamp Hwf). eexists.
    split; [reflexivity|]. rewrite Hget. unfold utils.Get. cbn [utils.caches].
    rewrite lookup_insert_eq. cbn.
    destruct Hpop as [Hpos _].
    destruct (Z.to_nat (utils.maxSize m)) eqn:E; [lia|]. cbn.
    now rewrite !take_nil.
  - intros key. unfold utils.Get. cbn. apply lookup_empty.
  - unfold utils.GetCacheCount. cbn. now rewrite map_size_empty.
  - reflexivity.
  - intros key oi timestamp.
    assert (Hwf : wellFormed (utils.ClearAll m)).
    { split; [apply Hpop|]. intros k c. cbn. rewrite lookup_empty. discriminate. }
    rewrite (Update_entry _ key oi timestamp Hwf). eexists.
    split; [reflexivity|]. unfold utils.Get. cbn [utils.caches utils.ClearAll].
    rewrite lookup_insert_eq, lookup_empty. cbn.
    destruct Hpop as [Hpos _].
    destruct (Z.to_nat (utils.maxSize m)) eqn:E; [lia|]. cbn.
    now rewrite take_nil.
Qed.

(** X4: [GetSymbols] lists exactly the keys that [Get] finds, each once,
    as many as [GetCacheCount] counts, and the copy [GetAll] hands out agrees
    with [Get] on every key. *)
Theorem GetSymbols_lists_each_key_once m :
  (forall symbol, symbol ∈ utils.GetSymbols m <-> is_Some (utils.Get m symbol)) /\
  NoDup (utils.GetSymbols m) /\
  len (utils.GetSymbols m) = utils.GetCacheCount m /\
  (forall symbol cache,
     utils.GetAll m !! symbol = Some cache <-> utils.Get m symbol = Some cache).
Proof.
  unfold utils.GetSymbols, utils.Get, utils.GetCacheCount, utils.GetAll.
  split; [|split; [|split]].
  - intros symbol. rewrite list_elem_of_fmap. split.
    + intros ([k c] & -> & Hin). apply elem_of_map_to_list in Hin. eauto.
    + intros [c Hc]. exists (symbol, c). split; [reflexivity|].
      now apply elem_of_map_to_list.
  - apply NoDup_fst_map_to_list.
  - unfold len. now rewrite length_fmap, length_map_to_list.
  - reflexivity.
Qed.

Lemma total_records_bounds (caches : gmap string utils.OICache) (lo hi : Z) :
  (forall key cache, caches !! key = Some cache ->
     lo <= len (utils.OICache_History cache) <= hi) ->
  lo * Z.of_nat (size caches) <=
    map_fold (fun _ cache totalRecords =>
                totalRecords + len (utils.OICache_History cache)) 0 caches
    <= hi * Z.of_nat (size caches).
Proof.
  apply (map_fold_weak_ind
    (fun r (m : gmap string utils.OICache) =>
       (forall key cache, m !! key = Some cache ->
          lo <= len (utils.OICache_History cache) <= hi) ->
       lo * Z.of_nat (size m) <= r <= hi * Z.of_nat (size m))).
  - intros _. rewrite map_size_empty. lia.
  - intros i x m r Hfresh IH Hall.
    rewrite map_size_insert, Hfresh. cbn.
    assert (lo <= len (utils.OICache_History x) <= hi).
    { apply (Hall i). apply lookup_insert_eq. }
    assert (lo * Z.of_nat (size m) <= r <= hi * Z.of_nat (size m)).
    { apply IH. intros key cache Hget. apply (Hall key).
      rewrite lookup_insert_ne; [exact Hget|]. intros ->. congruence. }
    lia.
Qed.

(** X5: the statistics of a manager in use.  [GetStats] reports the
    number of keys and the capacity; the total number of records lies
    between the number of keys and capacity times the number of keys, and is
    zero exactly when there are no keys. *)
Theorem GetStats_bounds m :
  populated m ->
  let stats := utils.GetStats m in
  utils.symbol_count stats = utils.GetCacheCount m /\
  utils.max_size stats = utils.maxSize m /\
  utils.symbol_count stats <= utils.total_records stats /\
  utils.total_records stats <= utils.max_size stats * utils.symbol_count stats /\
  (utils.total_records stats = 0 <-> utils.symbol_count stats = 0).
Proof.
  intros [Hpos Hall]. cbn.
  pose proof (total_records_bounds (utils.caches m) 1 (utils.maxSize m)) as Hb.
  unfold utils.GetCacheCount.
  split; [reflexivity|]. split; [reflexivity|].
  assert (Hrange : forall key cache, utils.caches m !! key = Some cache ->
            1 <= len (utils.OICache_History cache) <= utils.maxSize m).
  { intros key cache Hget. destruct (Hall key cache Hget) as (_ & ? & _ & ?). lia. }
  specialize (Hb Hrange). lia.
Qed.

Lemma CleanExpired_fold (maxAge now : Z) (start : gmap string utils.OICache) :
  forall visited : gmap string utils.OICache,
  let r :=
    map_fold
      (fun symbol cache '(caches', cleaned) =>
         match utils.OICache_Timestamps cache with
         | [] => (delete symbol caches', cleaned + 1)
         | latestTimestamp :: _ =>
             if utils.wrap64 (now - latestTimestamp) >? maxAge
             then (delete symbol caches', cleaned + 1)
             else (caches', cleaned)
         end)
      (start, 0) visited in
  (forall key,
     r.1 !! key =
       match visited !! key with
       | Some cache => if entryExpired maxAge now cache then None else start !! key
       | None => start !! key
       end) /\
  r.2 = Z.of_nat (size (filter (fun kc => entryExpired maxAge now kc.2 = true)
                               visited)).
Proof.
  intros visited.
  apply (map_fold_weak_ind
    (fun (r : gmap string utils.OICache * Z) (v : gmap string utils.OICache) =>
       (forall key,
          r.1 !! key =
            match v !! key with
            | Some cache =>
                if entryExpired maxAge now cache then None else start !! key
            | None => start !! key
            end) /\
       r.2 = Z.of_nat (size (filter (fun kc => entryExpired maxAge now kc.2 = true)
                                    v)))).
  - split; [intros key; now rewrite lookup_empty|].
    now rewrite map_filter_empty, map_size_empty.
  - intros i x v [cs k] Hfresh [IHl IHc]. cbn [fst snd] in IHl, IHc.
    assert (Hstep :
      (match utils.OICache_Timestamps x with
       | [] => (delete i cs, k + 1)
       | latestTimestamp :: _ =>
           if utils.wrap64 (now - latestTimestamp) >? maxAge
           then (delete i cs, k + 1) else (cs, k)
       end) = if entryExpired maxAge now x then (delete i cs, k + 1) else (cs, k)).
    { unfold entryExpired. destruct (utils.OICache_Timestamps x); reflexivity. }
    rewrite Hstep. clear Hstep.
    rewrite map_filter_insert. cbn [snd].
    destruct (entryExpired maxAge now x) eqn:Hexp; cbn [fst snd].
    + rewrite decide_True by reflexivity. split.
      * intros key. destruct (decide (key = i)) as [->|Hne].
        -- now rewrite lookup_delete_eq, lookup_insert_eq, Hexp.
        -- rewrite lookup_delete_ne, lookup_insert_ne by congruence. apply IHl.
      * rewrite map_size_insert, map_lookup_filter_None_2 by (now left).
        cbn. lia.
    + rewrite decide_False by discriminate. split.
      * intros key. destruct (decide (key = i)) as [->|Hne].
        -- rewrite lookup_insert_eq, Hexp, IHl, Hfresh. reflexivity.
        -- rewrite lookup_insert_ne by congruence. apply IHl.
      * now rewrite delete_id.
Qed.
Lemma IsExpired_entry m symbol maxAge now :
  utils.IsExpired m symbol maxAge now =
    Ret (match utils.Get m symbol with
         | Some cache => entryExpired maxAge now cache
         | None => true
         end).
Proof.
  unfold utils.IsExpired, entryExpired.
  destruct (utils.Get m symbol) as [cache|]; [|reflexivity].
  destruct (utils.OICache_Timestamps cache) as [|latest rest]; [reflexivity|].
  rewrite len_cons. pose proof (len_nonneg rest).
  destruct (Z.eqb_spec (1 + len rest) 0) as [?|_]; [lia|]. reflexivity.
Qed.

Lemma CleanExpired_caches m maxAge now :
  utils.caches (utils.CleanExpired m maxAge now).1 =
    filter (fun kc => ~ entryExpired maxAge now kc.2 = true) (utils.caches m) /\
  (utils.CleanExpired m maxAge now).2 =
    Z.of_nat (size (filter (fun kc => entryExpired maxAge now kc.2 = true)
                           (utils.caches m))) /\
  utils.maxSize (utils.CleanExpired m maxAge now).1 = utils.maxSize m.
Proof.
  unfold utils.CleanExpired.
  pose proof (CleanExpired_fold maxAge now (utils.caches m) (utils.caches m))
    as [Hl Hc].
  destruct (map_fold _ _ _) as [cs k]. cbn [fst snd] in *.
  split; [|split; [exact Hc|reflexivity]].
  apply map_eq. intros key. rewrite Hl. symmetry.
  destruct (utils.caches m !! key) as [c|] eqn:E.
  - destruct (entryExpired maxAge now c) eqn:Hexp.
    + apply map_lookup_filter_None_2. right. intros c' Hc'. cbn.
      rewrite E in Hc'. injection Hc' as <-. rewrite Hexp. tauto.
    + apply map_lookup_filter_Some_2; [exact E|]. cbn. rewrite Hexp. discriminate.
  - apply map_lookup_filter_None_2. now left.
Qed.

(** X6: [CleanExpired] removes exactly the expired entries.  An entry
    stays, unchanged, when its newest timestamp is at most [maxAge] old, and
    goes otherwise; what goes is what [IsExpired] reports as expired; the
    count returned is the number of entries removed; the capacity and the
    manager's invariant are kept; and cleaning again at the same time
    removes nothing. *)
Theorem CleanExpired_removes_exactly_the_expired m maxAge now :
  let m' := (utils.CleanExpired m maxAge now).1 in
  let cleaned := (utils.CleanExpired m maxAge now).2 in
  (forall key,
     utils.Get m' key =
       match utils.Get m key with
       | Some cache =>
           if entryExpired maxAge now cache then None else Some cache
       | None => None
       end) /\
  (forall key, is_Some (utils.Get m key) ->
     (utils.IsExpired m key maxAge now = Ret true <-> utils.Get m' key = None)) /\
  (forall key,
     utils.IsExpired m' key maxAge now = Ret true <-> utils.Get m' key = None) /\
  cleaned = utils.GetCacheCount m - utils.GetCacheCount m' /\
  0 <= cleaned /\
  utils.maxSize m' = utils.maxSize m /\
  (populated m -> populated m') /\
  utils.CleanExpired m' maxAge now = (m', 0).
Proof.
  intros m' cleaned.
  destruct (CleanExpired_caches m maxAge now) as (Hcs & Hk & Hmax).
  fold m' in Hcs, Hmax. fold cleaned in Hk.
  assert (Hget : forall key,
     utils.Get m' key =
       match utils.Get m key with
       | Some cache =>
           if entryExpired maxAge now cache then None else Some cache
       | None => None
       end).
  { intros key. unfold utils.Get. rewrite Hcs, map_lookup_filter.
    destruct (utils.caches m !! key) as [c|]; [|reflexivity]. cbn.
    destruct (entryExpired maxAge now c); [|reflexivity].
    rewrite option_guard_False by tauto. reflexivity. }
  split; [exact Hget|]. split; [|split; [|split; [|split; [|split; [|split]]]]].
  - intros key [c Hc]. rewrite IsExpired_entry, Hget, Hc.
    destruct (entryExpired maxAge now c); split; congruence.
  - intros key. rewrite IsExpired_entry.
    destruct (utils.Get m' key) as [c|] eqn:E; [|tauto].
    rewrite Hget in E. destruct (utils.Get m key) as [c0|]; [|discriminate].
    destruct (entryExpired maxAge now c0) eqn:Hexp; [discriminate|].
    injection E as <-. rewrite Hexp. split; congruence.
  - unfold utils.GetCacheCount. rewrite Hk, Hcs.
    rewrite <- (map_filter_union_complement
                  (fun kc => entryExpired maxAge now kc.2 = true)
                  (utils.caches m)) at 2.
    rewrite map_size_disj_union by apply map_disjoint_filter_complement.
    lia.
  - rewrite Hk. lia.
  - exact Hmax.
  - intros [Hpos Hall]. split; [now rewrite Hmax|].
    intros key cache Hc. rewrite Hmax. apply Hall.
    fold (utils.Get m' key) in Hc. rewrite Hget in Hc.
    unfold utils.Get in Hc. destruct (utils.caches m !! key) as [c|]; [|discriminate].
    destruct (entryExpired maxAge now c); [discriminate|]. exact Hc.
  - destruct (CleanExpired_caches m' maxAge now) as (Hcs' & Hk' & Hmax').
    destruct (utils.CleanExpired m' maxAge now) as [m'' k''] eqn:E.
    cbn [fst snd] in *.
    assert (Hsame : utils.caches m'' = utils.caches m').
    { rewrite Hcs', Hcs. rewrite map_filter_filter.
      apply map_filter_ext. intros key c Hc. cbn. tauto. }
    f_equal.
    + destruct m'' as [cs'' ms''], m' as [cs' ms'] eqn:Em'. cbn in *. congruence.
    + rewrite Hk', Hcs.
      replace (filter _ (filter _ (utils.caches m))) with
        (∅ : gmap string utils.OICache); [now rewrite map_size_empty|].
      symmetry. apply map_empty. intros key.
      apply map_lookup_filter_None_2.
      destruct (filter _ (utils.caches m) !! key) as [c|] eqn:Ef; [|now left].
      right. intros c' [= <-]. apply map_lookup_filter_Some in Ef as [_ Hn].
      exact Hn.
Qed.

Lemma demo_manager_populated : populated demo.manager.
Proof.
  split; [reflexivity|]. intros key cache Hget.
  unfold demo.manager, utils.caches in Hget.
  apply lookup_singleton_Some in Hget as [<- <-].
  split; [reflexivity|]. split; [vm_compute; discriminate|].
  split; [reflexivity|vm_compute; discriminate].
Qed.

Lemma Update_touches_one_key_witness :
  exists m',
    utils.Update demo.manager "ETHUSDT" 310%float 1700000000 = Ret m' /\
    utils.Get m' "BTCUSDT" = utils.Get demo.manager "BTCUSDT" /\
    utils.GetCacheCount m' = 2.
Proof.
  destruct (Update_touches_one_key demo.manager "ETHUSDT" 310%float 1700000000
              demo_manager_populated) as (m' & Hup & _ & Hother & Hcount & _).
  exists m'. split; [exact Hup|]. split; [apply Hother; discriminate|].
  rewrite Hcount. reflexivity.
Defined.

Lemma Clear_forgets_one_key_witness :
  utils.Get (utils.Clear demo.manager "BTCUSDT") "BTCUSDT" = None /\
  utils.GetCacheCount (utils.Clear demo.manager "BTCUSDT") = 0 /\
  utils.GetCacheCount (utils.ClearAll demo.manager) = 0.
Proof.
  destruct (Clear_forgets_one_key demo.manager "BTCUSDT" demo_manager_populated)
    as (Hgone & _ & Hcount & _ & _ & Hall & _).
  split; [exact Hgone|]. split; [rewrite Hcount; reflexivity|exact Hall].
Defined.

Lemma GetStats_bounds_witness :
  utils.symbol_count (utils.GetStats demo.manager) = 1 /\
  utils.symbol_count (utils.GetStats demo.manager)
    <= utils.total_records (utils.GetStats demo.manager) /\
  utils.total_records (utils.GetStats demo.manager)
    <= utils.max_size (utils.GetStats demo.manager)
       * utils.symbol_count (utils.GetStats demo.manager).
Proof.
  destruct (GetStats_bounds demo.manager demo_manager_populated)
    as (Hcount & _ & Hlow & Hhigh & _).
  split; [rewrite Hcount; reflexivity|]. split; [exact Hlow|exact Hhigh].
Defined.

(* ===================================================================== *)
(** ** Open-interest helpers of market.go *)
(* ===================================================================== *)

(** A guarded read [if len s >= i+1 { p = s[i] }] against the lookup. *)
Ltac guarded_read h i iz need :=
  rewrite Z.geb_leb;
  destruct (Z.leb_spec need (len h)) as [Hle|Hlt];
  [ let x := fresh "x" in let Hx := fresh "Hx" in let Hi := fresh "Hi" in
    destruct (index_Ret h iz) as (x & Hi & Hx); [lia|];
    change (Z.to_nat iz) with i in Hx;
    rewrite Hi, Hx, !bind_Ret; destruct (is_zero x); reflexivity
  | let E := fresh "E" in
    destruct (h !! i) eqn:E;
    [apply lookup_lt_Some in E; unfold len in Hlt; lia | reflexivity] ].

(** X7: [CalculateOIChangeWithHistory] never panics and reads one slot
    of the history: slot 0 for "1h", slot 3 for "4h", slot 23 for "24h".
    The result is the change rate of the current value against that slot,
    and 0 when the history is too short to have the slot or the interval is
    any other string. *)
Theorem CalculateOIChangeWithHistory_spec currentOI historicalOI interval :
  indicators.CalculateOIChangeWithHistory currentOI historicalOI interval =
    Ret (match intervalSlot interval with
         | Some slot =>
             match historicalOI !! slot with
             | Some previousOI =>
                 indicators.calculateOIChangeRate currentOI previousOI
             | None => 0%float
             end
         | None => 0%float
         end).
Proof.
  unfold indicators.CalculateOIChangeWithHistory, intervalSlot.
  destruct (Z.eqb_spec (len historicalOI) 0) as [Hemp|Hne].
  { destruct historicalOI; [|rewrite len_cons in Hemp;
                              pose proof (len_nonneg historicalOI); lia].
    destruct (String.eqb interval "1h"); [reflexivity|].
    destruct (String.eqb interval "4h"); [reflexivity|].
    destruct (String.eqb interval "24h"); reflexivity. }
  unfold indicators.calculateOIChangeRate.
  destruct (String.eqb interval "1h"); [guarded_read historicalOI 0%nat 0 1|].
  destruct (String.eqb interval "4h"); [guarded_read historicalOI 3%nat 3 4|].
  destruct (String.eqb interval "24h"); [guarded_read historicalOI 23%nat 23 24|].
  reflexivity.
Qed.

(* ===================================================================== *)
(** ** Decision helpers (market.go): float order facts *)
(* ===================================================================== *)

Lemma extremeHigh_SF :
  Prim2SF indicators.extremeHigh = S754_finite false 7205759403792794 (-56).
Proof. reflexivity. Qed.

Lemma high_SF :
  Prim2SF indicators.high = S754_finite false 7205759403792794 (-57).
Proof. reflexivity. Qed.

Lemma low_SF :
  Prim2SF indicators.low = S754_finite true 7205759403792794 (-57).
Proof. reflexivity. Qed.

Lemma extremeLow_SF :
  Prim2SF indicators.extremeLow = S754_finite true 7205759403792794 (-56).
Proof. reflexivity. Qed.

Lemma zero_SF : Prim2SF 0%float = S754_zero false.
Proof. reflexivity. Qed.

Lemma above_extremeHigh_above_high (r : float64) :
  (indicators.extremeHigh <? r)%float = true ->
  (indicators.high <? r)%float = true.
Proof.
  rewrite !FloatAxioms.ltb_spec, extremeHigh_SF, high_SF. unfold SFltb.
  destruct (Prim2SF r) as [[]|[]| |[] m e]; cbn [SFcompare];
    try discriminate; try reflexivity.
  destruct (Z.compare_spec (-56) e), (Z.compare_spec (-57) e);
    try lia; try discriminate; try reflexivity.
Qed.

Lemma below_extremeLow_below_low (r : float64) :
  (r <? indicators.extremeLow)%float = true ->
  (r <? indicators.low)%float = true.
Proof.
  rewrite !FloatAxioms.ltb_spec, extremeLow_SF, low_SF. unfold SFltb.
  destruct (Prim2SF r) as [[]|[]| |[] m e]; cbn [SFcompare];
    try discriminate; try reflexivity.
  destruct (Z.compare_spec e (-56)), (Z.compare_spec e (-57));
    try lia; try discriminate; try reflexivity.
Qed.

Lemma above_high_not_below_low (r : float64) :
  (indicators.high <? r)%float = true ->
  (r <? indicators.low)%float = false.
Proof.
  rewrite !FloatAxioms.ltb_spec, high_SF, low_SF. unfold SFltb.
  destruct (Prim2SF r) as [[]|[]| |[] m e]; cbn [SFcompare];
    try discriminate; try reflexivity.
Qed.

Lemma positive_not_negative (x : float64) :
  (0 <? x)%float = true -> (x <? 0)%float = false.
Proof.
  rewrite !FloatAxioms.ltb_spec, zero_SF. unfold SFltb.
  destruct (Prim2SF x) as [[]|[]| |[] m e]; cbn [SFcompare];
    try discriminate; try reflexivity.
Qed.

(** Neither above nor below zero: a zero of either sign, or NaN. *)
Lemma no_sign_iff (x : float64) :
  (0 <? x)%float = false /\ (x <? 0)%float = false <->
  is_zero x = true \/ (x =? x)%float = false.
Proof.
  unfold is_zero. rewrite !FloatAxioms.ltb_spec, !FloatAxioms.eqb_spec, zero_SF. unfold SFltb, SFeqb.
  destruct (Prim2SF x) as [[]|[]| |[] m e]; cbn [SFcompare];
    rewrite ?Z.compare_refl, ?Pos.compare_cont_refl; cbn;
    split; try tauto; try (intros [?|?]; discriminate);
    try (intros [? ?]; discriminate).
Qed.

(** X8: [ShouldTradeBasedOnFunding].  A long is allowed unless the
    funding rate is above 0.05, a short unless it is below -0.05; any other
    direction is refused as unknown; no rate refuses both directions, and a
    rate that is not a number allows both. *)
Theorem ShouldTradeBasedOnFunding_spec (fundingRate : float64)
    (direction : string) :
  let allowed d := (indicators.ShouldTradeBasedOnFunding fundingRate d).1 in
  allowed "long"%string = negb (indicators.high <? fundingRate)%float /\
  allowed "short"%string = negb (fundingRate <? indicators.low)%float /\
  (direction <> "long"%string -> direction <> "short"%string ->
   indicators.ShouldTradeBasedOnFunding fundingRate direction =
     (false, "未知交易方向"%string)) /\
  (allowed "long"%string = true \/ allowed "short"%string = true) /\
  ((fundingRate =? fundingRate)%float = false ->
   allowed "long"%string = true /\ allowed "short"%string = true).
Proof.
  intros allowed.
  assert (Hlong : allowed "long"%string
                  = negb (indicators.high <? fundingRate)%float).
  { subst allowed. unfold indicators.ShouldTradeBasedOnFunding. cbn [String.eqb Ascii.eqb Bool.eqb].
    destruct (indicators.extremeHigh <? fundingRate)%float eqn:E1.
    - now rewrite (above_extremeHigh_above_high _ E1).
    - destruct (indicators.high <? fundingRate)%float; reflexivity. }
  assert (Hshort : allowed "short"%string
                   = negb (fundingRate <? indicators.low)%float).
  { subst allowed. unfold indicators.ShouldTradeBasedOnFunding. cbn [String.eqb Ascii.eqb Bool.eqb].
    destruct (fundingRate <? indicators.extremeLow)%float eqn:E1.
    - now rewrite (below_extremeLow_below_low _ E1).
    - destruct (fundingRate <? indicators.low)%float; reflexivity. }
  split; [exact Hlong|]. split; [exact Hshort|]. split; [|split].
  - intros Hl Hs. unfold indicators.ShouldTradeBasedOnFunding.
    apply String.eqb_neq in Hl, Hs. now rewrite Hl, Hs.
  - rewrite Hlong, Hshort.
    destruct (indicators.high <? fundingRate)%float eqn:E; [|now left].
    right. now rewrite (above_high_not_below_low _ E).
  - intros Hnan. rewrite Hlong, Hshort.
    rewrite !FloatAxioms.ltb_spec. rewrite FloatAxioms.eqb_spec in Hnan. unfold SFltb, SFeqb in *.
    destruct (Prim2SF fundingRate) as [[]|[]| |[] m e]; cbn [SFcompare] in *;
      rewrite ?Z.compare_refl, ?Pos.compare_cont_refl in Hnan;
      try discriminate.
    rewrite ?high_SF, ?low_SF. split; reflexivity.
Qed.

(** X9: [AnalyzeOIAndPrice] names the quadrant of the two changes.  Each
    of the four trend messages is returned exactly when the price change
    and the open-interest change have the corresponding strict signs, and
    the "no clear change" message exactly when one of the two is neither
    above nor below zero (a zero or not a number). *)
Theorem AnalyzeOIAndPrice_quadrants (priceChange oiChange : float64) :
  let up x := (0 <? x)%float in
  let down x := (x <? 0)%float in
  let verdict := indicators.AnalyzeOIAndPrice priceChange oiChange in
  (verdict = "价格上涨+OI增加：真实多头趋势，新资金进场"%string <->
     up priceChange = true /\ up oiChange = true) /\
  (verdict = "价格上涨+OI减少：空头平仓推动，可能反转"%string <->
     up priceChange = true /\ down oiChange = true) /\
  (verdict = "价格下跌+OI增加：真实空头趋势，新空单进场"%string <->
     down priceChange = true /\ up oiChange = true) /\
  (verdict = "价格下跌+OI减少：多头平仓推动，可能反转"%string <->
     down priceChange = true /\ down oiChange = true) /\
  (verdict = "价格和OI无明显变化，市场震荡"%string <->
     (up priceChange = false /\ down priceChange = false) \/
     (up oiChange = false /\ down oiChange = false)).
Proof.
  intros up down verdict. subst verdict. unfold indicators.AnalyzeOIAndPrice.
  fold (up priceChange) (up oiChange) (down priceChange) (down oiChange).
  pose proof (positive_not_negative priceChange) as Hp.
  pose proof (positive_not_negative oiChange) as Ho.
  fold (up priceChange) (down priceChange) in Hp.
  fold (up oiChange) (down oiChange) in Ho.
  destruct (up priceChange), (down priceChange);
    try (specialize (Hp eq_refl); discriminate Hp);
    destruct (up oiChange), (down oiChange);
    try (specialize (Ho eq_refl); discriminate Ho);
    cbn [andb]; repeat split; try tauto; try discriminate; try reflexivity.
  all: try (intros Hmsg; exfalso; revert Hmsg; apply String.eqb_neq; reflexivity).
  all: try (intros [? ?]; discriminate).
  all: try (intros [[? ?]|[? ?]]; discriminate).
  all: try (left; split; reflexivity).
  all: try (right; split; reflexivity).
Qed.

(* ===================================================================== *)
(** ** Timeframe blocks and indicator wrappers (short_term.go, long_term.go, common.go) *)
(* ===================================================================== *)

Section TimeframeExtras.
Context {Hstrconv : Strconv} {Htalib : Talib} {HtalibLen : TalibLen}.

Import indicators.

Lemma CalculateMACD_present klines :
  0 < len klines ->
  exists r, CalculateMACD klines = Ret r /\ (is_Some r <-> 26 <= len klines).
Proof.
  intros Hk. unfold CalculateMACD.
  destruct (Z.ltb_spec (len klines) 26) as [Hlt|Hge].
  { exists None. split; [reflexivity|]. split; [intros [? ?]; discriminate|lia]. }
  pose proof (Macd_len (extractCloses klines) 12 26 9) as (Hl1 & Hl2 & Hl3).
  destruct (Macd (extractCloses klines) 12 26 9) as [[macd signal] histogram].
  cbn in Hl1, Hl2, Hl3.
  assert (Hm : 0 < len macd).
  { unfold len. rewrite Hl1. fold (len (extractCloses klines)).
    now rewrite extractCloses_len. }
  destruct (index_last_Ret macd Hm) as [a ->].
  destruct (index_same_len macd signal Hm) as [b ->]; [congruence|].
  destruct (index_same_len macd histogram Hm) as [c ->]; [congruence|].
  eexists. split; [reflexivity|]. split; [lia|eauto].
Qed.

Lemma CalculateBollingerBands_present klines period stdDev :
  0 < len klines ->
  exists r, CalculateBollingerBands klines period stdDev = Ret r /\
            (is_Some r <-> period <= len klines).
Proof.
  intros Hk. unfold CalculateBollingerBands.
  destruct (Z.ltb_spec (len klines) period) as [Hlt|Hge].
  { exists None. split; [reflexivity|]. split; [intros [? ?]; discriminate|lia]. }
  pose proof (BBands_len (extractCloses klines) period stdDev stdDev SMA)
    as (Hl1 & Hl2 & Hl3).
  destruct (BBands (extractCloses klines) period stdDev stdDev SMA)
    as [[upper middle] lower].
  cbn in Hl1, Hl2, Hl3.
  assert (Hm : 0 < len upper).
  { unfold len. rewrite Hl1. fold (len (extractCloses klines)).
    now rewrite extractCloses_len. }
  destruct (index_last_Ret upper Hm) as [a ->].
  destruct (index_same_len upper middle Hm) as [b ->]; [congruence|].
  destruct (index_same_len upper lower Hm) as [c ->]; [congruence|].
  eexists. split; [reflexivity|]. split; [lia|eauto].
Qed.

Lemma CalculateStochRSI_present klines period :
  0 < len klines ->
  exists r, CalculateStochRSI klines period = Ret r /\
            (is_Some r <-> wrap_int (period * 2) <= len klines).
Proof.
  intros Hk. unfold CalculateStochRSI.
  destruct (Z.ltb_spec (len klines) (wrap_int (period * 2))) as [Hlt|Hge].
  { exists None. split; [reflexivity|]. split; [intros [? ?]; discriminate|lia]. }
  pose proof (StochRsi_len (extractCloses klines) period 5 3 SMA) as (Hl1 & Hl2).
  destruct (StochRsi (extractCloses klines) period 5 3 SMA) as [fastK fastD].
  cbn in Hl1, Hl2.
  assert (Hm : 0 < len fastK).
  { unfold len. rewrite Hl1. fold (len (extractCloses klines)).
    now rewrite extractCloses_len. }
  destruct (index_last_Ret fastK Hm) as [a ->].
  destruct (index_same_len fastK fastD Hm) as [b ->]; [congruence|].
  eexists. split; [reflexivity|]. split; [lia|eauto].
Qed.

Lemma CalculateEMA_short klines period :
  0 < len klines ->
  exists x, CalculateEMA klines period = Ret x /\
            (len klines < period -> x = 0%float).
Proof.
  intros Hk. unfold CalculateEMA.
  destruct (Z.ltb_spec (len klines) period) as [Hlt|Hge].
  { exists 0%float. split; [reflexivity|auto]. }
  destruct (index_last_Ret (Ema (extractCloses klines) period)) as [x ->].
  { unfold len. rewrite Ema_len. fold (len (extractCloses klines)).
    now rewrite extractCloses_len. }
  eexists. split; [reflexivity|lia].
Qed.

(** The calls of [calculateTimeframeData] on a non-empty series, each
    replaced by its result. *)
Ltac timeframe_steps klines Hk :=
  unfold calculateTimeframeData;
  destruct (Z.eqb_spec (len klines) 0) as [?|_]; [lia|];
  destruct (index_last_Ret klines Hk) as [k ->];
  destruct (CalculateEMA_short klines 9 Hk) as (ema9 & -> & H9);
  destruct (CalculateEMA_short klines 21 Hk) as (ema21 & -> & H21);
  destruct (CalculateEMA_short klines 55 Hk) as (ema55 & -> & H55);
  destruct (CalculateMACD_present klines Hk) as (macd & -> & Hmacd);
  destruct (CalculateRSI_Ret klines 14 Hk) as [rsi ->];
  destruct (CalculateBollingerBands_present klines 20 2%float Hk)
    as (bb & -> & Hbb);
  destruct (CalculateATR_Ret klines 14 Hk) as [atr ->];
  destruct (CalculateADX_Ret klines 14 Hk) as [adx ->];
  destruct (CalculateStochRSI_present klines 14 Hk) as (stoch & -> & Hstoch);
  change (wrap_int (14 * 2)) with 28 in Hstoch;
  rewrite !bind_Ret; rewrite Z.geb_leb.

Lemma calculateTimeframeData_groups klines timeframe :
  0 < len klines ->
  exists data,
    calculateTimeframeData klines timeframe = Ret (Some data) /\
    (is_Some (MACD data) <-> 26 <= len klines) /\
    (is_Some (BB data) <-> 20 <= len klines) /\
    (is_Some (StochRSI data) <-> 28 <= len klines).
Proof.
  intros Hk. timeframe_steps klines Hk.
  destruct (Z.leb_spec 28 (len klines)) as [H28|H28]; rewrite !bind_Ret;
    eexists; (split; [reflexivity|]); cbn;
    (split; [exact Hmacd|]); (split; [exact Hbb|]).
  - rewrite Hstoch. lia.
  - split; [intros [? ?]; discriminate|lia].
Qed.

(** X10: the fields of a timeframe block.  [calculateTimeframeData]
    returns no block for an empty candle series and otherwise a block
    without panicking, in which MACD is present exactly from 26 candles, the
    Bollinger bands from 20, StochRSI from 28; ADX and VWAP are present only
    from 28 candles and only when positive; an EMA whose period exceeds the
    number of candles is 0; Ichimoku and CVD are never filled in. *)
Theorem calculateTimeframeData_fields klines timeframe :
  (klines = [] -> calculateTimeframeData klines timeframe = Ret None) /\
  (klines <> [] ->
   exists data,
     calculateTimeframeData klines timeframe = Ret (Some data) /\
     (is_Some (MACD data) <-> 26 <= len klines) /\
     (is_Some (BB data) <-> 20 <= len klines) /\
     (is_Some (StochRSI data) <-> 28 <= len klines) /\
     (forall adx, ADX data = Some adx ->
        28 <= len klines /\ (0 <? adx)%float = true) /\
     (forall vwap, VWAP data = Some vwap ->
        28 <= len klines /\ (0 <? vwap)%float = true) /\
     (len klines < 55 -> EMA55 data = 0%float) /\
     (len klines < 21 -> EMA21 data = 0%float) /\
     (len klines < 9 -> EMA9 data = 0%float) /\
     Ichimoku data = None /\ CVD data = None).
Proof.
  split; [intros ->; reflexivity|].
  intros Hne.
  assert (Hk : 0 < len klines).
  { destruct klines; [congruence|]. rewrite len_cons.
    pose proof (len_nonneg klines). lia. }
  timeframe_steps klines Hk.
  destruct (Z.leb_spec 28 (len klines)) as [H28|H28]; rewrite !bind_Ret;
    eexists; (split; [reflexivity|]); cbn;
    (split; [exact Hmacd|]); (split; [exact Hbb|]).
  - split; [rewrite Hstoch; lia|].
    split.
    { intros a. destruct (0 <? adx)%float eqn:E; [|discriminate].
      intros [= <-]. now split. }
    split.
    { intros v. destruct (0 <? CalculateVWAP klines)%float eqn:E; [|discriminate].
      intros [= <-]. now split. }
    repeat split; assumption.
  - split.
    { split; [intros [? ?]; discriminate|lia]. }
    split; [intros ?; discriminate|]. split; [intros ?; discriminate|].
    repeat split; assumption.
Qed.

Lemma timeframe_block_complete klines timeframe :
  55 <= len klines ->
  exists data,
    calculateTimeframeData klines timeframe = Ret (Some data) /\
    complete data.
Proof.
  intros Hk.
  destruct (calculateTimeframeData_groups klines timeframe)
    as (data & Hrun & Hmacd & Hbb & Hstoch); [lia|].
  exists data. split; [exact Hrun|]. unfold complete.
  rewrite Hmacd, Hbb, Hstoch. lia.
Qed.

(** X11: every snapshot the two indicator pipelines return carries all
    three timeframe blocks, each with MACD, Bollinger bands and StochRSI
    present. *)
Theorem snapshot_blocks_are_complete symbol k1 k2 k3 now :
  (forall result,
     CalculateShortTermIndicators symbol k1 k2 k3 now = Ret (Some result) ->
     exists h1 m15 m5,
       Short_Timeframes result =
         Some {| Short_H1 := Some h1; Short_M15 := Some m15;
                 Short_M5 := Some m5 |} /\
       complete h1 /\ complete m15 /\ complete m5) /\
  (forall result,
     CalculateLongTermIndicators symbol k1 k2 k3 now = Ret (Some result) ->
     exists h4 h1 m15,
       Long_Timeframes result =
         Some {| Long_H4 := Some h4; Long_H1 := Some h1;
                 Long_M15 := Some m15 |} /\
       complete h4 /\ complete h1 /\ complete m15).
Proof.
  split; intros result.
  - unfold CalculateShortTermIndicators.
    destruct (Z.ltb_spec (len k1) 55); [discriminate|].
    destruct (Z.ltb_spec (len k2) 55); [discriminate|].
    destruct (Z.ltb_spec (len k3) 55); [discriminate|]. cbn [orb].
    destruct (timeframe_block_complete k1 "1h") as (h1 & -> & ?); [lia|].
    destruct (timeframe_block_complete k2 "15m") as (m15 & -> & ?); [lia|].
    destruct (timeframe_block_complete k3 "5m") as (m5 & -> & ?); [lia|].
    rewrite !bind_Ret. cbn. intros [= <-]. now exists h1, m15, m5.
  - unfold CalculateLongTermIndicators.
    destruct (Z.ltb_spec (len k1) 55); [discriminate|].
    destruct (Z.ltb_spec (len k2) 55); [discriminate|].
    destruct (Z.ltb_spec (len k3) 55); [discriminate|]. cbn [orb].
    destruct (timeframe_block_complete k1 "4h") as (h4 & -> & ?); [lia|].
    destruct (timeframe_block_complete k2 "1h") as (h1 & -> & ?); [lia|].
    destruct (timeframe_block_complete k3 "15m") as (m15 & -> & ?); [lia|].
    rewrite !bind_Ret. cbn. intros [= <-]. now exists h4, h1, m15.
Qed.

Lemma wrap_int_id z : - 2 ^ 63 <= z < 2 ^ 63 -> wrap_int z = z.
Proof.
  unfold wrap_int. intros Hz.
  rewrite Z.mod_small by lia. lia.
Qed.

Lemma last_read (s : list float64) (n : nat) :
  (0 < n)%nat -> length s = n -> exists x, index s (len s - 1) = Ret x.
Proof.
  intros Hn Hs. apply index_last_Ret. unfold len. lia.
Qed.

Lemma same_read (s t : list float64) (n : nat) :
  (0 < n)%nat -> length s = n -> length t = n ->
  exists x, index t (len s - 1) = Ret x.
Proof.
  intros Hn Hs Ht. replace (len s) with (len t) by (unfold len; lia).
  apply index_last_Ret. unfold len. lia.
Qed.

(** X12: the guards of the indicator wrappers of common.go.  For a
    positive period below 2^62 (so that [period+1] and [period*2] stay in
    the range of [int]) no wrapper panics on a candle series for which
    go-talib answers the calls that get past the guards with series as
    long as the series, the empty series included: EMA, RSI, ATR and ADX
    return 0 below their minimum number of candles (period, period + 1,
    period + 1, twice the period), and StochRSI, the Bollinger bands and
    MACD return a value exactly from theirs (twice the period, period,
    26). *)
Theorem indicator_wrappers_guards klines period stdDev :
  0 < period < 2 ^ 62 ->
  sameLengthAt klines period stdDev ->
  (exists x, CalculateEMA klines period = Ret x /\
             (len klines < period -> x = 0%float)) /\
  (exists x, CalculateRSI klines period = Ret x /\
             (len klines < period + 1 -> x = 0%float)) /\
  (exists x, CalculateATR klines period = Ret x /\
             (len klines < period + 1 -> x = 0%float)) /\
  (exists x, CalculateADX klines period = Ret x /\
             (len klines < period * 2 -> x = 0%float)) /\
  (exists r, CalculateStochRSI klines period = Ret r /\
             (is_Some r <-> period * 2 <= len klines)) /\
  (exists r, CalculateBollingerBands klines period stdDev = Ret r /\
             (is_Some r <-> period <= len klines)) /\
  (exists r, CalculateMACD klines = Ret r /\
             (is_Some r <-> 26 <= len klines)).
Proof.
  intros Hperiod (Hema & Hrsi & Hadx & Hmacd).
  pose proof (len_nonneg klines) as Hlen.
  assert (Hcloses : length (extractCloses klines) = length klines)
    by apply length_map.
  assert (Hpos : forall n, 0 < n -> n <= len klines -> (0 < length klines)%nat)
    by (unfold len; lia).
  split; [|split; [|split; [|split; [|split; [|split]]]]].
  - unfold CalculateEMA.
    destruct (Z.ltb_spec (len klines) period) as [Hlt|Hge].
    { exists 0%float. split; [reflexivity|auto]. }
    destruct (Hema Hge) as (He & _).
    destruct (last_read (Ema (extractCloses klines) period) (length klines))
      as [x ->]; [apply (Hpos period); lia|congruence|].
    eexists. split; [reflexivity|lia].
  - unfold CalculateRSI. rewrite wrap_int_id by lia.
    destruct (Z.ltb_spec (len klines) (period + 1)) as [Hlt|Hge].
    { exists 0%float. split; [reflexivity|auto]. }
    destruct (Hrsi Hge) as (Hr & _).
    destruct (last_read (Rsi (extractCloses klines) period) (length klines))
      as [x ->]; [apply (Hpos period); lia|congruence|].
    eexists. split; [reflexivity|lia].
  - unfold CalculateATR, extractHLC. rewrite wrap_int_id by lia.
    destruct (Z.ltb_spec (len klines) (period + 1)) as [Hlt|Hge].
    { exists 0%float. split; [reflexivity|auto]. }
    destruct (Hrsi Hge) as (_ & Ha).
    match goal with |- context [index ?s _] =>
      destruct (last_read s (length klines)) as [x ->] end;
      [apply (Hpos period); lia|exact (eq_trans Ha Hcloses)|].
    eexists. split; [reflexivity|lia].
  - unfold CalculateADX, extractHLC. rewrite wrap_int_id by lia.
    destruct (Z.ltb_spec (len klines) (period * 2)) as [Hlt|Hge].
    { exists 0%float. split; [reflexivity|auto]. }
    destruct (Hadx Hge) as (Ha & _).
    match goal with |- context [index ?s _] =>
      destruct (last_read s (length klines)) as [x ->] end;
      [apply (Hpos period); lia|exact (eq_trans Ha Hcloses)|].
    eexists. split; [reflexivity|lia].
  - unfold CalculateStochRSI. rewrite wrap_int_id by lia.
    destruct (Z.ltb_spec (len klines) (period * 2)) as [Hlt|Hge].
    { exists None. split; [reflexivity|].
      split; [intros [? ?]; discriminate|lia]. }
    destruct (Hadx Hge) as (_ & Hk & Hd).
    destruct (StochRsi (extractCloses klines) period 5 3 SMA) as [fastK fastD].
    cbn [fst snd] in Hk, Hd.
    destruct (last_read fastK (length klines)) as [k ->];
      [apply (Hpos period); lia|congruence|].
    destruct (same_read fastK fastD (length klines)) as [d ->];
      [apply (Hpos period); lia|congruence|congruence|].
    eexists. split; [reflexivity|]. split; [lia|eauto].
  - unfold CalculateBollingerBands.
    destruct (Z.ltb_spec (len klines) period) as [Hlt|Hge].
    { exists None. split; [reflexivity|].
      split; [intros [? ?]; discriminate|lia]. }
    destruct (Hema Hge) as (_ & Hu & Hm & Hl).
    destruct (BBands (extractCloses klines) period stdDev stdDev SMA)
      as [[upper middle] lower].
    cbn [fst snd] in Hu, Hm, Hl.
    destruct (last_read upper (length klines)) as [u ->];
      [apply (Hpos period); lia|congruence|].
    destruct (same_read upper middle (length klines)) as [m ->];
      [apply (Hpos period); lia|congruence|congruence|].
    destruct (same_read upper lower (length klines)) as [l ->];
      [apply (Hpos period); lia|congruence|congruence|].
    eexists. split; [reflexivity|]. split; [lia|eauto].
  - unfold CalculateMACD.
    destruct (Z.ltb_spec (len klines) 26) as [Hlt|Hge].
    { exists None. split; [reflexivity|].
      split; [intros [? ?]; discriminate|lia]. }
    destruct (Hmacd Hge) as (Hm & Hs & Hh).
    destruct (Macd (extractCloses klines) 12 26 9) as [[macd signal] histogram].
    cbn [fst snd] in Hm, Hs, Hh.
    destruct (last_read macd (length klines)) as [a ->];
      [apply (Hpos 26); lia|congruence|].
    destruct (same_read macd signal (length klines)) as [b ->];
      [apply (Hpos 26); lia|congruence|congruence|].
    destruct (same_read macd histogram (length klines)) as [c ->];
      [apply (Hpos 26); lia|congruence|congruence|].
    eexists. split; [reflexivity|]. split; [lia|eauto].
Qed.

End TimeframeExtras.

Lemma calculateTimeframeData_fields_witness :
  exists data,
    @indicators.calculateTimeframeData demo.strconv demo.talib
       (demo.klines 27) "1h" = Ret (Some data) /\
    is_Some (indicators.MACD data) /\ is_Some (indicators.BB data) /\
    ~ is_Some (indicators.StochRSI data) /\
    indicators.EMA55 data = 0%float.
Proof.
  destruct (@calculateTimeframeData_fields demo.strconv demo.talib
              demo_talib_len (demo.klines 27) "1h"%string) as [_ Hdata].
  destruct Hdata as (data & Hrun & Hmacd & Hbb & Hstoch & _ & _ & H55 & _).
  - vm_compute. discriminate.
  - exists data. split; [exact Hrun|].
    split; [apply Hmacd; vm_compute; discriminate|].
    split; [apply Hbb; vm_compute; discriminate|].
    split; [|apply H55; vm_compute; reflexivity].
    intros Hsome. apply Hstoch in Hsome. vm_compute in Hsome.
    now apply Hsome.
Defined.

Lemma snapshot_blocks_are_complete_witness :
  exists result h1 m15 m5,
    @indicators.CalculateShortTermIndicators demo.strconv demo.talib "BTCUSDT"
       (demo.klines 55) (demo.klines 55) (demo.klines 55) 1700000000 =
      Ret (Some result) /\
    indicators.Short_Timeframes result =
      Some {| indicators.Short_H1 := Some h1;
              indicators.Short_M15 := Some m15;
              indicators.Short_M5 := Some m5 |} /\
    complete h1 /\ complete m15 /\ complete m5.
Proof.
  destruct (@CalculateShortTermIndicators_sufficient demo.strconv demo.talib
              demo_talib_len "BTCUSDT"%string
              (demo.klines 55) (demo.klines 55) (demo.klines 55) 1700000000)
    as (a & b & c & Hrun).
  - repeat split; vm_compute; discriminate.
  - destruct (@snapshot_blocks_are_complete demo.strconv demo.talib
                demo_talib_len "BTCUSDT"%string
                (demo.klines 55) (demo.klines 55) (demo.klines 55) 1700000000)
      as [Hshort _].
    destruct (Hshort _ Hrun) as (h1 & m15 & m5 & Hblocks & H1 & H15 & H5).
    eexists _, h1, m15, m5. split; [exact Hrun|]. split; [exact Hblocks|].
    split; [exact H1|]. split; [exact H15|exact H5].
Defined.

Lemma indicator_wrappers_guards_witness :
  @indicators.CalculateEMA demo.strconv demo.talib (demo.klines 10) 14
    = Ret 0%float /\
  @indicators.CalculateMACD demo.strconv demo.talib (demo.klines 10)
    = Ret None /\
  exists x,
    @indicators.CalculateRSI demo.strconv demo.talib (demo.klines 30) 14
      = Ret x.
Proof.
  split; [|split].
  - destruct (@indicator_wrappers_guards demo.strconv demo.talib
                (demo.klines 10) 14 2%float)
      as ((x & Hx & Hzero) & _); [lia| |].
    + repeat split; intros Hle; vm_compute in Hle; now destruct Hle.
    + rewrite Hx. f_equal. apply Hzero. vm_compute. reflexivity.
  - destruct (@indicator_wrappers_guards demo.strconv demo.talib
                (demo.klines 10) 14 2%float)
      as (_ & _ & _ & _ & _ & _ & (r & Hr & Hmacd)); [lia| |].
    + repeat split; intros Hle; vm_compute in Hle; now destruct Hle.
    + rewrite Hr. f_equal. destruct r as [macd|]; [|reflexivity].
      assert (Hsome : is_Some (Some macd)) by now eexists.
      apply Hmacd in Hsome. vm_compute in Hsome. now destruct Hsome.
  - destruct (@indicator_wrappers_guards demo.strconv demo.talib
                (demo.klines 30) 14 2%float)
      as (_ & (x & Hx & _) & _); [lia| |].
    + repeat split; intros _; reflexivity.
    + now exists x.
Defined.

(* ===================================================================== *)
(** ** Configuration (config.go, accounts.go) *)
(* ===================================================================== *)

Lemma Account_Validate_None a :
  config.Account_Validate a = None <-> validAccount a.
Proof.
  unfold config.Account_Validate, validAccount.
  destruct (String.eqb_spec (config.ID a) "").
  { split; [discriminate|]. intros [? _]. congruence. }
  destruct (String.eqb_spec (config.Name a) "").
  { split; [discriminate|]. intros (_ & ? & _). congruence. }
  destruct (String.eqb_spec (config.Strategy a) "short_term"),
           (String.eqb_spec (config.Strategy a) "long_term"); cbn [negb andb];
    try (split; [discriminate|]; intros (_ & _ & [?|?] & _); congruence).
  all: destruct (String.eqb_spec (config.PromptType a) "minimal"),
           (String.eqb_spec (config.PromptType a) "detailed"); cbn [negb andb];
    try (split; [discriminate|]; intros (_ & _ & _ & [?|?] & _); congruence).
  all: destruct (String.eqb_spec (config.APIKey a) "");
    try (split; [discriminate|]; intros (_ & _ & _ & _ & ? & _); congruence).
  all: destruct (String.eqb_spec (config.APISecret a) "");
    try (split; [discriminate|]; intros (_ & _ & _ & _ & _ & ?); congruence).
  all: split; [intros _|reflexivity]; repeat split; auto.
Qed.

(** X13: [Account.Validate] accepts an account exactly when its ID, name,
    API key and API secret are non-empty, its strategy is short_term or
    long_term and its prompt type is minimal or detailed.  The display
    names fall back to the "unknown" strings exactly for a strategy or
    prompt type outside these, hence never for an accepted account. *)
Theorem Account_Validate_spec (a : config.Account) :
  (config.Account_Validate a = None <-> validAccount a) /\
  (config.GetStrategyName a = "未知"%string <->
     config.Strategy a <> "short_term"%string /\
     config.Strategy a <> "long_term"%string) /\
  (config.GetPromptTypeName a = "未知"%string <->
     config.PromptType a <> "minimal"%string /\
     config.PromptType a <> "detailed"%string) /\
  (config.GetPromptTypeDescription a = "未知类型"%string <->
     config.PromptType a <> "minimal"%string /\
     config.PromptType a <> "detailed"%string) /\
  (config.Account_Validate a = None ->
     config.GetStrategyName a <> "未知"%string /\
     config.GetPromptTypeName a <> "未知"%string /\
     config.GetPromptTypeDescription a <> "未知类型"%string).
Proof.
  assert (Hs : config.GetStrategyName a = "未知"%string <->
     config.Strategy a <> "short_term"%string /\
     config.Strategy a <> "long_term"%string).
  { unfold config.GetStrategyName.
    destruct (String.eqb_spec (config.Strategy a) "short_term").
    { split; [intros H; exfalso; revert H; apply String.eqb_neq; reflexivity|tauto]. }
    destruct (String.eqb_spec (config.Strategy a) "long_term").
    { split; [intros H; exfalso; revert H; apply String.eqb_neq; reflexivity|tauto]. }
    tauto. }
  assert (Hp : config.GetPromptTypeName a = "未知"%string <->
     config.PromptType a <> "minimal"%string /\
     config.PromptType a <> "detailed"%string).
  { unfold config.GetPromptTypeName.
    destruct (String.eqb_spec (config.PromptType a) "minimal").
    { split; [intros H; exfalso; revert H; apply String.eqb_neq; reflexivity|tauto]. }
    destruct (String.eqb_spec (config.PromptType a) "detailed").
    { split; [intros H; exfalso; revert H; apply String.eqb_neq; reflexivity|tauto]. }
    tauto. }
  assert (Hd : config.GetPromptTypeDescription a = "未知类型"%string <->
     config.PromptType a <> "minimal"%string /\
     config.PromptType a <> "detailed"%string).
  { unfold config.GetPromptTypeDescription.
    destruct (String.eqb_spec (config.PromptType a) "minimal").
    { split; [intros H; exfalso; revert H; apply String.eqb_neq; reflexivity|tauto]. }
    destruct (String.eqb_spec (config.PromptType a) "detailed").
    { split; [intros H; exfalso; revert H; apply String.eqb_neq; reflexivity|tauto]. }
    tauto. }
  split; [apply Account_Validate_None|]. split; [exact Hs|].
  split; [exact Hp|]. split; [exact Hd|].
  intros Hv. apply Account_Validate_None in Hv as (_ & _ & Hst & Hpt & _).
  rewrite Hs, Hp, Hd. repeat split; intros [? ?]; destruct Hst, Hpt; congruence.
Qed.

Lemma validateAccounts_None accounts : forall i,
  config.validateAccounts i accounts = None <-> Forall validAccount accounts.
Proof.
  induction accounts as [|a accounts IH]; intros i; cbn [config.validateAccounts].
  - split; [constructor|reflexivity].
  - destruct (config.Account_Validate a) eqn:E.
    + split; [discriminate|]. intros Hall. inversion_clear Hall as [|? ? Ha _].
      apply Account_Validate_None in Ha. congruence.
    + rewrite IH. apply Account_Validate_None in E. split.
      * now constructor.
      * intros Hall. now inversion_clear Hall.
Qed.

Section ConfigExtras.
Context {Hfiles : ConfigFiles config.ProxyConfig config.BinanceConfig config.Account}.

(** X14: what a successful [Load] guarantees.  The configuration it
    returns has a futures URL, names an accounts file, holds at least one
    account, every account passes [Account.Validate], and the accounts are
    those [LoadAccounts] reads from that file beside the configuration
    file. *)
Theorem Load_checks (configPath : string) (cfg : config.Config) :
  config.Load configPath = inl cfg ->
  config.FuturesURL (config.Binance cfg) <> ""%string /\
  config.AccountsConfig cfg <> ""%string /\
  config.Accounts cfg <> [] /\
  Forall validAccount (config.Accounts cfg) /\
  config.LoadAccounts
    (filepath_Join (filepath_Dir configPath) (config.AccountsConfig cfg))
    = inl (config.Accounts cfg).
Proof.
  unfold config.Load.
  destruct (ReadFile configPath) as [data|]; [|discriminate].
  destruct (UnmarshalConfig data) as [[[proxy binance] accountsConfig]|];
    [|discriminate].
  destruct (String.eqb_spec accountsConfig "") as [->|Hne]; cbn [negb].
  { unfold config.Config_Validate. cbn [config.Binance config.Accounts].
    destruct (String.eqb (config.FuturesURL binance) ""); [discriminate|].
    rewrite len_nil. discriminate. }
  cbv zeta.
  match goal with
  | |- context [config.LoadAccounts ?p] =>
      destruct (config.LoadAccounts p) as [accounts|] eqn:Hload; [|discriminate]
  end.
  unfold config.Config_Validate. cbn [config.Binance config.Accounts].
  destruct (String.eqb_spec (config.FuturesURL binance) ""); [discriminate|].
  destruct (Z.eqb_spec (len accounts) 0); [discriminate|].
  intros [= <-]. cbn.
  split; [assumption|]. split; [assumption|].
  split; [intros ->; now rewrite len_nil in *|].
  split; [|exact Hload].
  revert Hload. unfold config.LoadAccounts.
  destruct (ReadFile _); [|discriminate].
  destruct (UnmarshalAccounts _) as [accs|]; [|discriminate].
  destruct (config.validateAccounts 0 accs) eqn:Hv; [discriminate|].
  intros [= <-]. now apply (validateAccounts_None accs 0).
Qed.

End ConfigExtras.

Lemma foldl_enabled accounts : forall acc,
  foldl (fun enabled a => if config.Enabled a then enabled ++ [a] else enabled)
        acc accounts = acc ++ List.filter config.Enabled accounts.
Proof.
  induction accounts as [|a accounts IH]; intros acc; cbn.
  - now rewrite app_nil_r.
  - rewrite IH. destruct (config.Enabled a); [|reflexivity].
    now rewrite <- app_assoc.
Qed.

Lemma GetEnabledAccounts_filter c :
  config.GetEnabledAccounts c = List.filter config.Enabled (config.Accounts c).
Proof. unfold config.GetEnabledAccounts. now rewrite foldl_enabled. Qed.

(** X15: account lookups.  [GetEnabledAccounts] is the enabled accounts
    in configuration order; [GetAccountByID] finds none exactly when no
    account has the ID (enabled or not), and otherwise returns the first
    account of the list that has it. *)
Theorem account_lookups (c : config.Config) (id : string) :
  config.GetEnabledAccounts c = List.filter config.Enabled (config.Accounts c) /\
  (forall a, a ∈ config.GetEnabledAccounts c <->
             a ∈ config.Accounts c /\ config.Enabled a = true) /\
  (config.GetAccountByID c id = None <->
     forall a, a ∈ config.Accounts c -> config.ID a <> id) /\
  (forall a, config.GetAccountByID c id = Some a ->
     exists before after,
       config.Accounts c = before ++ a :: after /\
       config.ID a = id /\
       forall b, b ∈ before -> config.ID b <> id).
Proof.
  split; [apply GetEnabledAccounts_filter|]. split; [|split].
  - intros a. rewrite GetEnabledAccounts_filter, !list_elem_of_In, filter_In.
    tauto.
  - unfold config.GetAccountByID.
    induction (config.Accounts c) as [|b l IH]; cbn.
    + split; [intros _ a Ha; now apply elem_of_nil in Ha|reflexivity].
    + destruct (String.eqb_spec (config.ID b) id) as [Hid|Hid].
      * split; [discriminate|]. intros Hall. exfalso.
        apply (Hall b); [left|exact Hid].
      * rewrite IH. split.
        -- intros Hall a Ha. apply elem_of_cons in Ha as [->|Ha]; auto.
        -- intros Hall a Ha. apply Hall. now right.
  - unfold config.GetAccountByID.
    induction (config.Accounts c) as [|b l IH]; cbn; [discriminate|].
    intros a. destruct (String.eqb_spec (config.ID b) id) as [Hid|Hid].
    + intros [= <-]. exists [], l. repeat split; auto.
      intros b0 Hb0. now apply elem_of_nil in Hb0.
    + intros Hfind. destruct (IH a Hfind) as (before & after & -> & Ha & Hbefore).
      exists (b :: before), after. repeat split; auto.
      intros b0 Hb0. apply elem_of_cons in Hb0 as [->|Hb0]; auto.
Qed.

Lemma Load_checks_witness :
  @config.Load demo.files "config/config.json" = inl demo.cfg /\
  Forall validAccount demo.accounts.
Proof.
  assert (Hload : @config.Load demo.files "config/config.json" = inl demo.cfg)
    by reflexivity.
  split; [exact Hload|].
  destruct (@Load_checks demo.files "config/config.json"%string demo.cfg Hload)
    as (_ & _ & _ & Hvalid & _).
  exact Hvalid.
Defined.

(* ===================================================================== *)
(** ** Symbol pool (symbols.go) *)
(* ===================================================================== *)

Lemma foldl_add_elem (l : list string) : forall (acc : gset string) s,
  s ∈ foldl (fun symbolMap symbol => {[symbol]} ∪ symbolMap) acc l
  <-> s ∈ acc \/ s ∈ l.
Proof.
  induction l as [|x l IH]; intros acc s; cbn.
  - rewrite elem_of_nil. tauto.
  - rewrite IH, elem_of_cons, elem_of_union, elem_of_singleton. tauto.
Qed.

Lemma foldl_delete_elem (l : list string) : forall (acc : gset string) s,
  s ∈ foldl (fun symbolMap symbol => symbolMap ∖ {[symbol]}) acc l
  <-> s ∈ acc /\ s ∉ l.
Proof.
  induction l as [|x l IH]; intros acc s; cbn.
  - rewrite elem_of_nil. tauto.
  - rewrite IH, not_elem_of_cons, elem_of_difference, elem_of_singleton. tauto.
Qed.

Lemma collectCoins_elem minScore coins : forall (acc : gset string) s,
  s ∈ utils.collectCoins minScore coins acc
  <-> s ∈ acc \/ exists coin, coin ∈ coins /\ accepted minScore coin /\ Pair coin = s.
Proof.
  unfold utils.collectCoins, accepted.
  induction coins as [|c coins IH]; intros acc s; cbn.
  - split; [auto|]. intros [?|(coin & Hin & _)]; [assumption|].
    now apply elem_of_nil in Hin.
  - rewrite IH. clear IH. split.
    + intros [Hacc|(coin & Hin & Hok & Heq)].
      * destruct (decide (Pair c = "")) as [|Hne]; [now left|].
        destruct (minScore <=? Score c)%float eqn:Hle; [|now left].
        apply elem_of_union in Hacc as [Hc|Hacc]; [|now left].
        apply elem_of_singleton in Hc. right. exists c.
        split; [left|]. auto.
      * right. exists coin. split; [now right|]. auto.
    + intros [Hacc|(coin & Hin & Hok & Heq)].
      * left. destruct (decide (Pair c = "")); [assumption|].
        destruct (minScore <=? Score c)%float; [|assumption].
        apply elem_of_union. now right.
      * apply elem_of_cons in Hin as [->|Hin].
        -- left. destruct Hok as [Hne Hle].
           destruct (decide (Pair c = "")); [contradiction|].
           rewrite Hle. apply elem_of_union. left. now apply elem_of_singleton.
        -- right. exists coin. auto.
Qed.

Section SymbolExtras.
Context {Hapi : ExternalAPI}.

(** Two readings of the same step of [fetchExternalSymbols] agree. *)
Ltac steps_agree :=
  repeat match goal with
         | E : ?t = _, H : ?t = _ |- _ => rewrite E in H
         | H : inl _ = inr _ |- _ => discriminate H
         | H : inr _ = inl _ |- _ => discriminate H
         | H : true = false |- _ => discriminate H
         | H : false = true |- _ => discriminate H
         | H : inl _ = inl _ |- _ => injection H as H
         | H : inr _ = inr _ |- _ => injection H as H
         | H : ?x = ?y |- _ => first [subst x | subst y]
         end.

(** X16: [fetchExternalSymbols].  It fails exactly when the request fails
    ("请求失败: " before the request's error), the read of the body fails
    ("读取响应失败: " before that error), the body does not decode
    ("解析JSON失败: " before that error) or the decoded response says it did
    not succeed ("API返回失败"); otherwise it returns, without duplicates,
    exactly the names of the coins of the two lists that are named and
    score at least [minScore]. *)
Theorem fetchExternalSymbols_spec (url : string) (minScore : float64) :
  (forall err, utils.fetchExternalSymbols url minScore = inr err <->
     (exists e, http_Get url = inr e /\ err = "请求失败: " +:+ e) \/
     (exists resp e,
        http_Get url = inl resp /\ io_ReadAll resp = inr e /\
        err = "读取响应失败: " +:+ e) \/
     (exists resp body e,
        http_Get url = inl resp /\ io_ReadAll resp = inl body /\
        json_Unmarshal body = inr e /\ err = "解析JSON失败: " +:+ e) \/
     (exists resp body response,
        http_Get url = inl resp /\ io_ReadAll resp = inl body /\
        json_Unmarshal body = inl response /\
        Success response = false /\ err = "API返回失败"%string)) /\
  (forall symbols, utils.fetchExternalSymbols url minScore = inl symbols <->
     exists resp body response,
       http_Get url = inl resp /\ io_ReadAll resp = inl body /\
       json_Unmarshal body = inl response /\ Success response = true /\
       symbols =
         elements (utils.collectCoins minScore (BottomCoins response)
                     (utils.collectCoins minScore (TopCoins response) ∅))) /\
  (forall symbols, utils.fetchExternalSymbols url minScore = inl symbols ->
     exists resp body response,
       http_Get url = inl resp /\ io_ReadAll resp = inl body /\
       json_Unmarshal body = inl response /\
       NoDup symbols /\
       forall s, s ∈ symbols <->
         exists coin, coin ∈ TopCoins response ++ BottomCoins response /\
                      accepted minScore coin /\ Pair coin = s).
Proof.
  unfold utils.fetchExternalSymbols.
  destruct (http_Get url) as [resp|e1] eqn:E1.
  2:{ split; [|split]; [intros err; split| |]; [| |intros symbols; split|];
        try discriminate.
      - intros [= <-]. left. now exists e1.
      - intros [(e & He & ->)|[(? & ? & ? & _)|[(? & ? & ? & ? & _)|
                (? & ? & ? & ? & _)]]]; by steps_agree.
      - intros (? & ? & ? & ? & _). discriminate. }
  destruct (io_ReadAll resp) as [body|e2] eqn:E2.
  2:{ split; [|split]; [intros err; split| |]; [| |intros symbols; split|];
        try discriminate.
      - intros [= <-]. right; left. exists resp, e2. auto.
      - intros [(e & ? & _)|[(r & e & ? & He & ->)|
                [(r & b & e & ? & Hb & _)|(r & b & x & ? & Hb & _)]]];
          by steps_agree.
      - intros (r & b & x & ? & Hb & _). by steps_agree. }
  destruct (json_Unmarshal body) as [response|e3] eqn:E3.
  2:{ split; [|split]; [intros err; split| |]; [| |intros symbols; split|];
        try discriminate.
      - intros [= <-]. right; right; left. exists resp, body, e3. auto.
      - intros [(e & ? & _)|[(r & e & ? & He & _)|
                [(r & b & e & ? & Hb & Hj & ->)|
                 (r & b & x & ? & Hb & Hj & _)]]];
          by steps_agree.
      - intros (r & b & x & ? & Hb & Hj & _). by steps_agree. }
  destruct (Success response) eqn:Hs; cbn [negb].
  - split; [|split].
    + intros err. split; [discriminate|].
      intros [(e & ? & _)|[(r & e & ? & He & _)|
              [(r & b & e & ? & Hb & Hj & _)|
               (r & b & x & ? & Hb & Hj & Hx & _)]]];
        by steps_agree.
    + intros symbols. split.
      * intros [= <-]. exists resp, body, response. auto.
      * intros (r & b & x & ? & Hb & Hj & _ & ->). by steps_agree.
    + intros symbols [= <-]. exists resp, body, response.
      split; [reflexivity|]. split; [exact E2|]. split; [exact E3|].
      split; [apply NoDup_elements|].
      intros s. rewrite elem_of_elements, !collectCoins_elem.
      split.
      * intros [[Hempty|(coin & Hin & Hok)]|(coin & Hin & Hok)].
        -- now apply elem_of_empty in Hempty.
        -- exists coin. split; [apply elem_of_app; now left|assumption].
        -- exists coin. split; [apply elem_of_app; now right|assumption].
      * intros (coin & Hin & Hok).
        apply elem_of_app in Hin as [Hin|Hin]; [left; right|right];
          exists coin; auto.
  - split; [|split]; [intros err; split| |]; [| |intros symbols; split|];
      try discriminate.
    + intros [= <-]. right; right; right. exists resp, body, response. auto.
    + intros [(e & ? & _)|[(r & e & ? & He & _)|
              [(r & b & e & ? & Hb & Hj & _)|
               (r & b & x & ? & Hb & Hj & Hx & ->)]]];
        by steps_agree.
    + intros (r & b & x & ? & Hb & Hj & Hx & _). by steps_agree.
Qed.

(** X17: [GetSymbolPool] never fails and returns a list without
    duplicates that holds exactly the symbols that are not excluded and are
    either a default symbol or, when the external source is switched on
    with a URL and its fetch succeeds, one of the fetched symbols.  A failed
    fetch leaves the defaults. *)
Theorem GetSymbolPool_spec (defaultSymbols excludeSymbols : list string)
    (externalURL : string) (useExternal : bool) (minScore : float64) :
  exists symbols,
    utils.GetSymbolPool defaultSymbols excludeSymbols externalURL useExternal
      minScore = inl symbols /\
    NoDup symbols /\
    forall s, s ∈ symbols <->
      (s ∉ excludeSymbols) /\
      (s ∈ defaultSymbols \/
       useExternal = true /\ externalURL <> ""%string /\
       exists externalSymbols,
         utils.fetchExternalSymbols externalURL minScore = inl externalSymbols /\
         s ∈ externalSymbols).
Proof.
  unfold utils.GetSymbolPool. eexists. split; [reflexivity|].
  split; [apply NoDup_elements|].
  intros s. rewrite elem_of_elements, foldl_delete_elem.
  destruct useExternal; cbn [andb].
  - destruct (String.eqb_spec externalURL "") as [->|Hne]; cbn [negb].
    + rewrite foldl_add_elem. split.
      * intros [[Hempty|Hd] Hex]; [now apply elem_of_empty in Hempty|auto].
      * intros [Hex [Hd|(_ & Hne & _)]]; [auto|congruence].
    + destruct (utils.fetchExternalSymbols externalURL minScore)
        as [externalSymbols|err].
      * rewrite !foldl_add_elem. split.
        -- intros [[[Hempty|Hd]|He] Hex].
           ++ now apply elem_of_empty in Hempty.
           ++ auto.
           ++ split; [assumption|]. right. eauto 6.
        -- intros [Hex [Hd|(_ & _ & ext & [= <-] & He)]]; auto.
      * rewrite foldl_add_elem. split.
        -- intros [[Hempty|Hd] Hex]; [now apply elem_of_empty in Hempty|auto].
        -- intros [Hex [Hd|(_ & _ & ext & Hext & _)]]; [auto|discriminate].
  - rewrite foldl_add_elem. split.
    + intros [[Hempty|Hd] Hex]; [now apply elem_of_empty in Hempty|auto].
    + intros [Hex [Hd|(Hu & _)]]; [auto|discriminate].
Qed.

End SymbolExtras.

(* ===================================================================== *)
(** ** The passes of main *)
(* ===================================================================== *)

Section ClientTable.
Context {Hexchange : binance.Exchange}.

Lemma foldl_clients_miss (mk : config.Account -> binance.Client) l :
  forall (acc : gmap string binance.Client) id,
  (forall b, b ∈ l -> config.ID b <> id) ->
  foldl (fun clients account => <[config.ID account := mk account]> clients)
        acc l !! id = acc !! id.
Proof.
  induction l as [|x l IH]; intros acc id Hall; cbn; [reflexivity|].
  rewrite IH by (intros b Hb; apply Hall; now right).
  apply lookup_insert_ne. apply Hall. left.
Qed.

Lemma foldl_clients_hit (mk : config.Account -> binance.Client) before a after :
  forall (acc : gmap string binance.Client),
  (forall b, b ∈ after -> config.ID b <> config.ID a) ->
  foldl (fun clients account => <[config.ID account := mk account]> clients)
        acc (before ++ a :: after) !! config.ID a = Some (mk a).
Proof.
  intros acc Hafter. rewrite foldl_app. cbn.
  rewrite foldl_clients_miss by exact Hafter.
  apply lookup_insert_eq.
Qed.

Lemma last_with_ID (l : list config.Account) id :
  (exists b, b ∈ l /\ config.ID b = id) ->
  exists before a after,
    l = before ++ a :: after /\ config.ID a = id /\
    forall b, b ∈ after -> config.ID b <> id.
Proof.
  induction l as [|x l IH]; intros (b & Hb & Hid).
  - now apply elem_of_nil in Hb.
  - destruct (decide (Exists (fun c => config.ID c = id) l)) as [Hl|Hl].
    + apply Exists_exists in Hl.
      destruct (IH Hl) as (before & a & after & -> & Ha & Hafter).
      now exists (x :: before), a, after.
    + rewrite Exists_exists in Hl. apply elem_of_cons in Hb as [->|Hb].
      * exists [], x, l. split; [reflexivity|]. split; [exact Hid|].
        intros c Hc Hcid. apply Hl. now exists c.
      * exfalso. apply Hl. now exists b.
Qed.

(** X18: the client table of [main].  An ID has no client exactly when
    no enabled account carries it; every enabled account finds a client
    under its ID; and when several enabled accounts share an ID the client
    is the one built for the last of them.  That client is [NewClient]
    applied to the futures URL, the account's API key, its API secret and
    the proxy URL, in this order. *)
Theorem buildClients_spec (cfg : config.Config) (id : string) :
  (main.buildClients cfg !! id = None <->
     forall a, a ∈ config.GetEnabledAccounts cfg -> config.ID a <> id) /\
  (forall before a after,
     config.GetEnabledAccounts cfg = before ++ a :: after ->
     config.ID a = id ->
     (forall b, b ∈ after -> config.ID b <> id) ->
     main.buildClients cfg !! id =
       Some (binance.NewClient (config.FuturesURL (config.Binance cfg))
                               (config.APIKey a) (config.APISecret a)
                               (config.GetProxyURL cfg))) /\
  (forall a, a ∈ config.GetEnabledAccounts cfg ->
     is_Some (main.buildClients cfg !! config.ID a)).
Proof.
  set (mk := fun account : config.Account =>
         binance.NewClient (config.FuturesURL (config.Binance cfg))
           (config.APIKey account) (config.APISecret account)
           (config.GetProxyURL cfg)).
  assert (Hfold : main.buildClients cfg =
            foldl (fun clients account =>
                     <[config.ID account := mk account]> clients)
                  (∅ : gmap string binance.Client)
                  (config.GetEnabledAccounts cfg)) by reflexivity.
  rewrite Hfold. clear Hfold.
  assert (Hhit : forall a, a ∈ config.GetEnabledAccounts cfg ->
            is_Some (foldl (fun clients account =>
                       <[config.ID account := mk account]> clients)
                       (∅ : gmap string binance.Client)
                       (config.GetEnabledAccounts cfg) !! config.ID a)).
  { intros a Ha.
    destruct (last_with_ID (config.GetEnabledAccounts cfg) (config.ID a))
      as (before & a' & after & -> & Ha' & Hafter); [now exists a|].
    rewrite <- Ha'. rewrite foldl_clients_hit; [now eexists|].
    intros b Hb. rewrite Ha'. now apply Hafter. }
  split; [|split].
  - split.
    + intros Hnone a Ha <-. destruct (Hhit a Ha) as [client Hclient].
      rewrite Hnone in Hclient. discriminate.
    + intros Hall. rewrite foldl_clients_miss by exact Hall.
      apply lookup_empty.
  - intros before a after -> <- Hafter.
    now rewrite (foldl_clients_hit mk).
  - exact Hhit.
Qed.

End ClientTable.

Section Ticks.
Context {Hstrconv : Strconv} {Htalib : Talib} {HtalibLen : TalibLen}.

Lemma processShortTermStrategy_pairs client symbols : forall mgr accountID now,
  wellFormed mgr ->
  Forall (fun symbol => shortCandlesOk client symbol = true ->
                        marketDataOk client symbol = true) symbols ->
  exists mgr' outs,
    main.processShortTermStrategy client symbols mgr accountID now =
      Ret (mgr', outs) /\
    wellFormed mgr' /\
    map emittedPair outs =
      map (fun symbol => (accountID, symbol))
          (List.filter (shortCandlesOk client) symbols).
Proof.
  induction symbols as [|symbol symbols IH]; intros mgr accountID now Hwf Hall.
  - exists mgr, []. split; [reflexivity|]. split; [exact Hwf|reflexivity].
  - inversion_clear Hall as [|? ? Hhead Htail].
    cbn [main.processShortTermStrategy List.filter].
    destruct (shortCandlesOk client symbol) eqn:Hcandles.
    + destruct (processShortTermSymbol_ready client mgr accountID now symbol
                  Hwf Hcandles (Hhead eq_refl))
        as (result & oi & f & mgr1 & Hstep & Hsym & _ & _ & Hwf1).
      destruct (IH mgr1 accountID now Hwf1 Htail)
        as (mgr' & outs & Hrest & Hwf' & Hsyms).
      exists mgr', (main.EmitShort accountID result :: outs).
      split; [|split; [exact Hwf'|]].
      * rewrite Hstep, bind_Ret. cbv beta iota. now rewrite Hrest.
      * cbn [map]. rewrite Hsyms. unfold emittedPair at 1.
        cbn [emittedAccount emittedSymbol]. now rewrite Hsym.
    + destruct (IH mgr accountID now Hwf Htail)
        as (mgr' & outs & Hrest & Hwf' & Hsyms).
      exists mgr', outs. split; [|split; [exact Hwf'|exact Hsyms]].
      rewrite processShortTermSymbol_skipped by exact Hcandles.
      rewrite bind_Ret. cbv beta iota. now rewrite Hrest.
Qed.

Lemma processLongTermStrategy_pairs client symbols : forall mgr accountID now,
  wellFormed mgr ->
  Forall (fun symbol => longCandlesOk client symbol = true ->
                        marketDataOk client symbol = true) symbols ->
  exists mgr' outs,
    main.processLongTermStrategy client symbols mgr accountID now =
      Ret (mgr', outs) /\
    wellFormed mgr' /\
    map emittedPair outs =
      map (fun symbol => (accountID, symbol))
          (List.filter (longCandlesOk client) symbols).
Proof.
  induction symbols as [|symbol symbols IH]; intros mgr accountID now Hwf Hall.
  - exists mgr, []. split; [reflexivity|]. split; [exact Hwf|reflexivity].
  - inversion_clear Hall as [|? ? Hhead Htail].
    cbn [main.processLongTermStrategy List.filter].
    destruct (longCandlesOk client symbol) eqn:Hcandles.
    + destruct (processLongTermSymbol_ready client mgr accountID now symbol
                  Hwf Hcandles (Hhead eq_refl))
        as (result & oi & f & mgr1 & Hstep & Hsym & _ & _ & Hwf1).
      destruct (IH mgr1 accountID now Hwf1 Htail)
        as (mgr' & outs & Hrest & Hwf' & Hsyms).
      exists mgr', (main.EmitLong accountID result :: outs).
      split; [|split; [exact Hwf'|]].
      * rewrite Hstep, bind_Ret. cbv beta iota. now rewrite Hrest.
      * cbn [map]. rewrite Hsyms. unfold emittedPair at 1.
        cbn [emittedAccount emittedSymbol]. now rewrite Hsym.
    + destruct (IH mgr accountID now Hwf Htail)
        as (mgr' & outs & Hrest & Hwf' & Hsyms).
      exists mgr', outs. split; [|split; [exact Hwf'|exact Hsyms]].
      rewrite processLongTermSymbol_skipped by exact Hcandles.
      rewrite bind_Ret. cbv beta iota. now rewrite Hrest.
Qed.

Lemma shortTermTick_pairs clients symbols now accounts : forall mgr,
  wellFormed mgr ->
  Forall (fun a => isShortTerm a = true ->
                   served shortCandlesOk clients symbols a) accounts ->
  exists mgr' outs,
    main.shortTermTick accounts clients symbols mgr now = Ret (mgr', outs) /\
    wellFormed mgr' /\
    map emittedPair outs =
      flat_map (owed shortCandlesOk clients symbols)
               (List.filter isShortTerm accounts).
Proof.
  induction accounts as [|a accounts IH]; intros mgr Hwf Hall.
  - exists mgr, []. split; [reflexivity|]. split; [exact Hwf|reflexivity].
  - inversion_clear Hall as [|? ? Hhead Htail].
    cbn [main.shortTermTick List.filter]. fold (isShortTerm a).
    destruct (isShortTerm a) eqn:Hshort.
    + destruct (Hhead eq_refl) as (client & Hclient & Hok).
      cbv zeta. rewrite Hclient. cbn [main.shortTermRun].
      destruct (processShortTermStrategy_pairs client symbols mgr
                  (config.ID a) now Hwf Hok)
        as (mgr1 & out & Hrun & Hwf1 & Hout).
      destruct (IH mgr1 Hwf1 Htail) as (mgr' & outs & Hrest & Hwf' & Houts).
      exists mgr', (out ++ outs). split; [|split; [exact Hwf'|]].
      * rewrite Hrun, bind_Ret. cbv beta iota. now rewrite Hrest.
      * cbn [flat_map]. rewrite map_app, Hout, Houts.
        f_equal. unfold owed. now rewrite Hclient.
    + destruct (IH mgr Hwf Htail) as (mgr' & outs & Hrest & Hwf' & Houts).
      exists mgr', outs. split; [|split; [exact Hwf'|exact Houts]].
      rewrite bind_Ret. cbv beta iota. now rewrite Hrest.
Qed.

Lemma longTermTick_pairs clients symbols now accounts : forall mgr,
  wellFormed mgr ->
  Forall (fun a => isLongTerm a = true ->
                   served longCandlesOk clients symbols a) accounts ->
  exists mgr' outs,
    main.longTermTick accounts clients symbols mgr now = Ret (mgr', outs) /\
    wellFormed mgr' /\
    map emittedPair outs =
      flat_map (owed longCandlesOk clients symbols)
               (List.filter isLongTerm accounts).
Proof.
  induction accounts as [|a accounts IH]; intros mgr Hwf Hall.
  - exists mgr, []. split; [reflexivity|]. split; [exact Hwf|reflexivity].
  - inversion_clear Hall as [|? ? Hhead Htail].
    cbn [main.longTermTick List.filter]. fold (isLongTerm a).
    destruct (isLongTerm a) eqn:Hlong.
    + destruct (Hhead eq_refl) as (client & Hclient & Hok).
      cbv zeta. rewrite Hclient. cbn [main.longTermRun].
      destruct (processLongTermStrategy_pairs client symbols mgr
                  (config.ID a) now Hwf Hok)
        as (mgr1 & out & Hrun & Hwf1 & Hout).
      destruct (IH mgr1 Hwf1 Htail) as (mgr' & outs & Hrest & Hwf' & Houts).
      exists mgr', (out ++ outs). split; [|split; [exact Hwf'|]].
      * rewrite Hrun, bind_Ret. cbv beta iota. now rewrite Hrest.
      * cbn [flat_map]. rewrite map_app, Hout, Houts.
        f_equal. unfold owed. now rewrite Hclient.
    + destruct (IH mgr Hwf Htail) as (mgr' & outs & Hrest & Hwf' & Houts).
      exists mgr', outs. split; [|split; [exact Hwf'|exact Houts]].
      rewrite bind_Ret. cbv beta iota. now rewrite Hrest.
Qed.

Lemma initialPass_pairs clients symbols now accounts : forall mgr,
  wellFormed mgr ->
  Forall (fun a => (isShortTerm a = true ->
                    served shortCandlesOk clients symbols a) /\
                   (isLongTerm a = true ->
                    served longCandlesOk clients symbols a)) accounts ->
  exists mgr' outs,
    main.initialPass accounts clients symbols mgr now = Ret (mgr', outs) /\
    wellFormed mgr' /\
    map emittedPair outs =
      flat_map (fun a =>
                  if isShortTerm a then owed shortCandlesOk clients symbols a
                  else if isLongTerm a then owed longCandlesOk clients symbols a
                  else []) accounts.
Proof.
  induction accounts as [|a accounts IH]; intros mgr Hwf Hall.
  - exists mgr, []. split; [reflexivity|]. split; [exact Hwf|reflexivity].
  - inversion_clear Hall as [|? ? [Hs Hl] Htail].
    cbn [main.initialPass flat_map]. cbv zeta.
    fold (isShortTerm a). fold (isLongTerm a).
    destruct (isShortTerm a) eqn:Hshort; [|destruct (isLongTerm a) eqn:Hlong].
    + destruct (Hs eq_refl) as (client & Hclient & Hok).
      rewrite Hclient. cbn [main.shortTermRun].
      destruct (processShortTermStrategy_pairs client symbols mgr
                  (config.ID a) now Hwf Hok)
        as (mgr1 & out & Hrun & Hwf1 & Hout).
      destruct (IH mgr1 Hwf1 Htail) as (mgr' & outs & Hrest & Hwf' & Houts).
      exists mgr', (out ++ outs). split; [|split; [exact Hwf'|]].
      * rewrite Hrun, bind_Ret. cbv beta iota. now rewrite Hrest.
      * rewrite map_app, Hout, Houts.
        f_equal. unfold owed. now rewrite Hclient.
    + destruct (Hl eq_refl) as (client & Hclient & Hok).
      rewrite Hclient. cbn [main.longTermRun].
      destruct (processLongTermStrategy_pairs client symbols mgr
                  (config.ID a) now Hwf Hok)
        as (mgr1 & out & Hrun & Hwf1 & Hout).
      destruct (IH mgr1 Hwf1 Htail) as (mgr' & outs & Hrest & Hwf' & Houts).
      exists mgr', (out ++ outs). split; [|split; [exact Hwf'|]].
      * rewrite Hrun, bind_Ret. cbv beta iota. now rewrite Hrest.
      * rewrite map_app, Hout, Houts.
        f_equal. unfold owed. now rewrite Hclient.
    + destruct (IH mgr Hwf Htail) as (mgr' & outs & Hrest & Hwf' & Houts).
      exists mgr', outs. split; [|split; [exact Hwf'|exact Houts]].
      rewrite bind_Ret. cbv beta iota. now rewrite Hrest.
Qed.

(** X19: what the three passes of [main] emit.  When the accounts of the
    pass find their clients and the market data of the pairs they serve is
    up, the 5-minute tick, the 15-minute tick and the initial pass return
    without panicking, and the snapshots they emit are, account by account
    in list order and pair by pair in pool order, those of the pairs whose
    candles are there: for the short-term accounts only, for the long-term
    accounts only, and for both (accounts of any other strategy being passed
    over). *)
Theorem passes_emit_per_account_and_pair
    (accounts : list config.Account) (clients : gmap string binance.Client)
    (symbols : list string) (mgr : utils.OICacheManager) (now : Z) :
  wellFormed mgr ->
  (Forall (fun a => isShortTerm a = true ->
                    served shortCandlesOk clients symbols a) accounts ->
   exists mgr' outs,
     main.shortTermTick accounts clients symbols mgr now = Ret (mgr', outs) /\
     map emittedPair outs =
       flat_map (owed shortCandlesOk clients symbols)
                (List.filter isShortTerm accounts)) /\
  (Forall (fun a => isLongTerm a = true ->
                    served longCandlesOk clients symbols a) accounts ->
   exists mgr' outs,
     main.longTermTick accounts clients symbols mgr now = Ret (mgr', outs) /\
     map emittedPair outs =
       flat_map (owed longCandlesOk clients symbols)
                (List.filter isLongTerm accounts)) /\
  (Forall (fun a => (isShortTerm a = true ->
                     served shortCandlesOk clients symbols a) /\
                    (isLongTerm a = true ->
                     served longCandlesOk clients symbols a)) accounts ->
   exists mgr' outs,
     main.initialPass accounts clients symbols mgr now = Ret (mgr', outs) /\
     map emittedPair outs =
       flat_map (fun a =>
                   if isShortTerm a then owed shortCandlesOk clients symbols a
                   else if isLongTerm a then owed longCandlesOk clients symbols a
                   else []) accounts).
Proof.
  intros Hwf. split; [|split]; intros Hall.
  - destruct (shortTermTick_pairs clients symbols now accounts mgr Hwf Hall)
      as (mgr' & outs & Hrun & _ & Houts). now exists mgr', outs.
  - destruct (longTermTick_pairs clients symbols now accounts mgr Hwf Hall)
      as (mgr' & outs & Hrun & _ & Houts). now exists mgr', outs.
  - destruct (initialPass_pairs clients symbols now accounts mgr Hwf Hall)
      as (mgr' & outs & Hrun & _ & Houts). now exists mgr', outs.
Qed.

End Ticks.

Lemma frames_refl touched mgr : wellFormed mgr -> frames touched mgr mgr.
Proof. intros Hwf. split; [exact Hwf|]. split; [reflexivity|]. split; auto. Qed.

Lemma frames_Update mgr symbol oi now mgr' :
  wellFormed mgr ->
  utils.Update mgr symbol oi now = Ret mgr' ->
  frames [symbol] mgr mgr'.
Proof.
  intros Hwf Hup.
  destruct (Update_spec mgr symbol oi now Hwf) as (m & Hup' & Hwf' & _).
  rewrite Hup in Hup'. injection Hup' as <-.
  split; [exact Hwf'|].
  split; [exact (proj1 (Update_lookup mgr symbol oi now mgr' symbol Hwf Hup))|].
  split.
  - intros key Hkey.
    destruct (Update_lookup mgr symbol oi now mgr' key Hwf Hup) as (_ & Hne & _).
    apply Hne. intros ->. apply Hkey. left.
  - intros key Hsome. destruct (decide (key = symbol)) as [Heq|Hne].
    + destruct (Update_lookup mgr symbol oi now mgr' key Hwf Hup)
        as (_ & _ & Hsame). now destruct (Hsame Heq).
    + destruct (Update_lookup mgr symbol oi now mgr' key Hwf Hup)
        as (_ & Hother & _). now rewrite Hother.
Qed.

Lemma frames_trans t1 t2 m1 m2 m3 :
  frames t1 m1 m2 -> frames t2 m2 m3 -> frames (t1 ++ t2) m1 m3.
Proof.
  intros (_ & Hsize1 & Hout1 & Hkeep1) (Hwf & Hsize2 & Hout2 & Hkeep2).
  split; [exact Hwf|]. split; [congruence|]. split.
  - intros key Hkey. rewrite Hout2, Hout1; [reflexivity| |];
      intros Hin; apply Hkey, elem_of_app; auto.
  - auto.
Qed.

Section Frame.
Context {Hstrconv : Strconv} {Htalib : Talib} {HtalibLen : TalibLen}.

Lemma processShortTermSymbol_frames client mgr accountID now symbol mgr' out :
  wellFormed mgr ->
  main.processShortTermSymbol client mgr accountID now symbol = Ret (mgr', out) ->
  frames (if shortCandlesOk client symbol then [symbol] else []) mgr mgr'.
Proof.
  intros Hwf. destruct (shortCandlesOk client symbol) eqn:Hcandles.
  - unfold main.processShortTermSymbol.
    destruct (binance.GetKlines client symbol "1h" 100);
      [|intros [= <- _]; now apply frames_refl].
    destruct (binance.GetKlines client symbol "15m" 100);
      [|intros [= <- _]; now apply frames_refl].
    destruct (binance.GetKlines client symbol "5m" 100);
      [|intros [= <- _]; now apply frames_refl].
    intros Hrun. apply bind_Ret_inv in Hrun as ([result|] & _ & Hrun);
      [|injection Hrun as <- _; now apply frames_refl].
    apply bind_Ret_inv in Hrun as (mgr1 & Hup & Hrun).
    injection Hrun as <- _.
    destruct (indicators.Short_MarketData result) as [md|].
    + exact (frames_Update _ _ _ _ _ Hwf Hup).
    + injection Hup as <-. now apply frames_refl.
  - rewrite processShortTermSymbol_skipped by exact Hcandles.
    intros [= <- _]. now apply frames_refl.
Qed.

Lemma processLongTermSymbol_frames client mgr accountID now symbol mgr' out :
  wellFormed mgr ->
  main.processLongTermSymbol client mgr accountID now symbol = Ret (mgr', out) ->
  frames (if longCandlesOk client symbol then [symbol] else []) mgr mgr'.
Proof.
  intros Hwf. destruct (longCandlesOk client symbol) eqn:Hcandles.
  - unfold main.processLongTermSymbol.
    destruct (binance.GetKlines client symbol "4h" 100);
      [|intros [= <- _]; now apply frames_refl].
    destruct (binance.GetKlines client symbol "1h" 100);
      [|intros [= <- _]; now apply frames_refl].
    destruct (binance.GetKlines client symbol "15m" 100);
      [|intros [= <- _]; now apply frames_refl].
    intros Hrun. apply bind_Ret_inv in Hrun as ([result|] & _ & Hrun);
      [|injection Hrun as <- _; now apply frames_refl].
    apply bind_Ret_inv in Hrun as (mgr1 & Hup & Hrun).
    injection Hrun as <- _.
    destruct (indicators.Long_MarketData result) as [md|].
    + exact (frames_Update _ _ _ _ _ Hwf Hup).
    + injection Hup as <-. now apply frames_refl.
  - rewrite processLongTermSymbol_skipped by exact Hcandles.
    intros [= <- _]. now apply frames_refl.
Qed.

Lemma processShortTermStrategy_frames client symbols :
  forall mgr accountID now mgr' outs,
  wellFormed mgr ->
  main.processShortTermStrategy client symbols mgr accountID now =
    Ret (mgr', outs) ->
  frames (List.filter (shortCandlesOk client) symbols) mgr mgr'.
Proof.
  induction symbols as [|symbol symbols IH];
    intros mgr accountID now mgr' outs Hwf.
  - intros [= <- _]. now apply frames_refl.
  - cbn [main.processShortTermStrategy List.filter]. intros Hrun.
    apply bind_Ret_inv in Hrun as ([mgr1 out] & Hstep & Hrun).
    apply bind_Ret_inv in Hrun as ([mgr2 outs'] & Hrest & Hrun).
    injection Hrun as <- _.
    pose proof (processShortTermSymbol_frames _ _ _ _ _ _ _ Hwf Hstep) as H1.
    pose proof (IH _ _ _ _ _ (proj1 H1) Hrest) as H2.
    pose proof (frames_trans _ _ _ _ _ H1 H2) as H3.
    now destruct (shortCandlesOk client symbol).
Qed.

Lemma processLongTermStrategy_frames client symbols :
  forall mgr accountID now mgr' outs,
  wellFormed mgr ->
  main.processLongTermStrategy client symbols mgr accountID now =
    Ret (mgr', outs) ->
  frames (List.filter (longCandlesOk client) symbols) mgr mgr'.
Proof.
  induction symbols as [|symbol symbols IH];
    intros mgr accountID now mgr' outs Hwf.
  - intros [= <- _]. now apply frames_refl.
  - cbn [main.processLongTermStrategy List.filter]. intros Hrun.
    apply bind_Ret_inv in Hrun as ([mgr1 out] & Hstep & Hrun).
    apply bind_Ret_inv in Hrun as ([mgr2 outs'] & Hrest & Hrun).
    injection Hrun as <- _.
    pose proof (processLongTermSymbol_frames _ _ _ _ _ _ _ Hwf Hstep) as H1.
    pose proof (IH _ _ _ _ _ (proj1 H1) Hrest) as H2.
    pose proof (frames_trans _ _ _ _ _ H1 H2) as H3.
    now destruct (longCandlesOk client symbol).
Qed.

(** X20: a strategy run touches only the cache entries of the pairs
    whose candles were there.  Whenever a run of either strategy returns,
    the manager it leaves keeps its invariant and capacity, every entry of
    another key is as it was before the run, and no entry is dropped. *)
Theorem runs_touch_only_served_pairs client symbols mgr accountID now :
  wellFormed mgr ->
  (forall mgr' outs,
     main.processShortTermStrategy client symbols mgr accountID now =
       Ret (mgr', outs) ->
     frames (List.filter (shortCandlesOk client) symbols) mgr mgr') /\
  (forall mgr' outs,
     main.processLongTermStrategy client symbols mgr accountID now =
       Ret (mgr', outs) ->
     frames (List.filter (longCandlesOk client) symbols) mgr mgr').
Proof.
  intros Hwf. split; intros mgr' outs Hrun.
  - exact (processShortTermStrategy_frames _ _ _ _ _ _ _ Hwf Hrun).
  - exact (processLongTermStrategy_frames _ _ _ _ _ _ _ Hwf Hrun).
Qed.

End Frame.

Lemma passes_emit_per_account_and_pair_witness :
  exists mgr' outs,
    @main.initialPass demo.strconv demo.talib
       (config.GetEnabledAccounts demo.cfg) demo.clients demo.pool
       (utils.NewOICacheManager 5) 1700000000 = Ret (mgr', outs) /\
    map emittedPair outs =
      [("account-1", "BTCUSDT"); ("account-1", "ETHUSDT");
       ("account-1", "BNBUSDT"); ("account-1", "SOLUSDT");
       ("account-1", "XRPUSDT");
       ("account-2", "BTCUSDT"); ("account-2", "BNBUSDT");
       ("account-2", "SOLUSDT"); ("account-2", "XRPUSDT")]%string.
Proof.
  destruct (@passes_emit_per_account_and_pair demo.strconv demo.talib
              demo_talib_len (config.GetEnabledAccounts demo.cfg)
              demo.clients demo.pool (utils.NewOICacheManager 5) 1700000000
              (NewOICacheManager_wellFormed 5)) as (_ & _ & Hinitial).
  destruct Hinitial as (mgr' & outs & Hrun & Houts).
  - change (config.GetEnabledAccounts demo.cfg)
      with [demo.account "account-1" "short_term" true;
            demo.account "account-2" "long_term" true].
    repeat constructor.
    + intros _. exists demo.client. split; [reflexivity|].
      repeat constructor; intros _; vm_compute; reflexivity.
    + intros Hlong. vm_compute in Hlong. discriminate Hlong.
    + intros Hshort. vm_compute in Hshort. discriminate Hshort.
    + intros _. exists demo.clientNoEthCandles. split; [reflexivity|].
      repeat constructor; intros _; vm_compute; reflexivity.
  - exists mgr', outs. split; [exact Hrun|]. rewrite Houts.
    vm_compute. reflexivity.
Defined.

Lemma runs_touch_only_served_pairs_witness :
  exists mgr' outs,
    @main.processShortTermStrategy demo.strconv demo.talib
       demo.clientNoEthCandles demo.pool demo.manager
       "account-1" 1700000000 = Ret (mgr', outs) /\
    utils.Get mgr' "ETHUSDT" = None /\
    is_Some (utils.Get mgr' "BTCUSDT") /\
    utils.maxSize mgr' = 5.
Proof.
  pose proof (populated_wellFormed demo.manager demo_manager_populated) as Hwf.
  destruct (@processShortTermStrategy_skips demo.strconv demo.talib
              demo_talib_len demo.clientNoEthCandles demo.pool demo.manager
              "account-1"%string 1700000000 Hwf)
    as (mgr' & outs & Hrun & _ & _).
  - repeat constructor; intros _; vm_compute; reflexivity.
  - destruct (@runs_touch_only_served_pairs demo.strconv demo.talib
                demo.clientNoEthCandles demo.pool demo.manager
                "account-1"%string 1700000000 Hwf) as [Hshort _].
    destruct (Hshort mgr' outs Hrun) as (_ & Hsize & Hout & Hkeep).
    exists mgr', outs. split; [exact Hrun|]. split; [|split].
    + rewrite Hout; [reflexivity|].
      intros Hin. vm_compute in Hin.
      repeat (apply elem_of_cons in Hin as [Hin|Hin]; [discriminate Hin|]).
      now apply elem_of_nil in Hin.
    + apply Hkeep. now eexists.
    + rewrite Hsize. reflexivity.
Defined.
